(** * Storage provider registry, factory and backends of large-file-uploads

    A shallow embedding of the Go package [pkg/storage]:
    - [storage.go]: the sentinel errors, [Provider], [Config], the [Storage]
      interface and the [Registry];
    - [factory.go]: [NewFactory], [CreateFromEnv], [getEnv], [getEnvBool];
    - [minio.go]: [MinIOStorage] (the S3-compatible backend);
    - [azure.go]: [AzureStorage].

    Go objects reached through pointers (the two backend structs and the
    tusd [StoreComposer]) live in a store inside [World]; methods run in a
    state monad over [World] that can also panic.  Calls into the AWS, Azure
    and tusd libraries are recorded in [sdkLog], and their outcome is taken
    from an arbitrary [SDK] record, so every theorem holds whatever the
    libraries answer; where a statement speaks of the provider's side, the
    libraries' contract is a hypothesis of it.  Calls to [slog] are left
    out: nothing reads the log output. *)

From stdpp Require Import gmap strings list.
From Stdlib Require Import Ascii String.

Local Open Scope string_scope.
Local Open Scope list_scope.

(** ** Values of type [interface{}] and Go errors *)

(** The dynamic value held in a [map[string]interface{}] entry.  [VOther]
    stands for a value of any further dynamic type, named by [tyname]. *)
Inductive value : Type :=
  | VString (s : string)
  | VBool (b : bool)
  | VInt (n : Z)
  | VNil
  | VOther (tyname : string).

#[global] Instance value_eq_dec : EqDecision value.
Proof. solve_decision. Defined.

(** [v.(string)] and [v.(bool)] in their two-result form: [None] is
    [ok = false]. *)
Definition assertString (v : option value) : option string :=
  match v with
  | Some (VString s) => Some s
  | _ => None
  end.

Definition assertBool (v : option value) : option bool :=
  match v with
  | Some (VBool b) => Some b
  | _ => None
  end.

(** Errors.  The first three are the package's sentinels ([errors.New]);
    [SdkError] is an error value made by one of the libraries; [Errorf] is
    [fmt.Errorf] without [%w] and [Wrapf msg e] is
    [fmt.Errorf(msg + ": %w", e)]. *)
Inductive error : Type :=
  | ErrStorageNotConfigured
  | ErrInvalidConfig
  | ErrStorageUnavailable
  | SdkError (msg : string)
  | Errorf (msg : string)
  | Wrapf (msg : string) (inner : error).

#[global] Instance error_eq_dec : EqDecision error.
Proof. solve_decision. Defined.

(** [errors.Is err target], for a sentinel as [target]: it is met
    somewhere along the chain of wrapped errors. *)
Fixpoint errors_Is (err target : error) : bool :=
  if decide (err = target) then true
  else match err with
       | Wrapf _ inner => errors_Is inner target
       | _ => false
       end.

(** [err.Error()] *)
Fixpoint error_string (err : error) : string :=
  match err with
  | ErrStorageNotConfigured => "storage not properly configured"
  | ErrInvalidConfig => "invalid configuration"
  | ErrStorageUnavailable => "storage unavailable"
  | SdkError msg => msg
  | Errorf msg => msg
  | Wrapf msg inner => msg +:+ ": " +:+ error_string inner
  end.

(** ** storage.go: providers and configuration *)

Abbreviation Provider := string.

Definition MinIO : Provider := "minio".
Definition Azure : Provider := "azure".
Definition Disk : Provider := "disk".
Definition Memory : Provider := "memory".

(** [Properties] is [None] for a nil map. *)
Record Config : Type := mkConfig {
  cfgProvider : Provider;
  Properties : option (gmap string value)
}.

(** [cfg.Properties[key]]; reading a nil map finds nothing. *)
Definition prop (cfg : Config) (key : string) : option value :=
  match Properties cfg with
  | Some m => m !! key
  | None => None
  end.

(** ** minio.go and azure.go: the parsed configurations *)

Record S3Config : Type := mkS3Config {
  s3Endpoint : string;
  s3Bucket : string;
  s3Region : string;
  s3AccessKey : string;
  s3SecretKey : string;
  s3UseSSL : bool;
  s3PathStyle : bool;
  s3DisableSSL : bool
}.

Record AzureConfig : Type := mkAzureConfig {
  azAccountName : string;
  azAccountKey : string;
  azContainerName : string;
  azEndpoint : string;
  azBlobAccessTier : string;
  azContainerAccessType : string
}.

#[global] Instance S3Config_eq_dec : EqDecision S3Config.
Proof. solve_decision. Defined.
#[global] Instance AzureConfig_eq_dec : EqDecision AzureConfig.
Proof. solve_decision. Defined.

(** [if x, ok := m[key].(string); ok && x != "" { field = x }] *)
Definition overrideString (v : option value) (dflt : string) : string :=
  match assertString v with
  | Some s => if decide (s = "") then dflt else s
  | None => dflt
  end.

(** [if x, ok := m[key].(bool); ok { field = x }] *)
Definition overrideBool (v : option value) (dflt : bool) : bool :=
  match assertBool v with
  | Some b => b
  | None => dflt
  end.

(** The literal at the head of [MinIOStorage.Initialize]. *)
Definition s3Defaults : S3Config :=
  {| s3Endpoint := "localhost:9000";
     s3Bucket := "uploads";
     s3Region := "us-east-1";
     s3AccessKey := "minioadmin";
     s3SecretKey := "minioadmin";
     s3UseSSL := false;
     s3PathStyle := true;
     s3DisableSSL := true |}.

(** The override block of [MinIOStorage.Initialize]; with a nil
    [Properties] every lookup of [prop] fails and the defaults stay. *)
Definition s3Merge (cfg : Config) : S3Config :=
  {| s3Endpoint := overrideString (prop cfg "endpoint") (s3Endpoint s3Defaults);
     s3Bucket := overrideString (prop cfg "bucket") (s3Bucket s3Defaults);
     s3Region := overrideString (prop cfg "region") (s3Region s3Defaults);
     s3AccessKey := overrideString (prop cfg "accessKey") (s3AccessKey s3Defaults);
     s3SecretKey := overrideString (prop cfg "secretKey") (s3SecretKey s3Defaults);
     s3UseSSL := overrideBool (prop cfg "useSSL") (s3UseSSL s3Defaults);
     s3PathStyle := overrideBool (prop cfg "pathStyle") (s3PathStyle s3Defaults);
     s3DisableSSL := overrideBool (prop cfg "disableSSL") (s3DisableSSL s3Defaults) |}.

(** The literal at the head of [AzureStorage.Initialize]: the fields that
    are not named are the empty string. *)
Definition azureDefaults : AzureConfig :=
  {| azAccountName := "";
     azAccountKey := "";
     azContainerName := "uploads";
     azEndpoint := "";
     azBlobAccessTier := "";
     azContainerAccessType := "private" |}.

Definition azureMerge (cfg : Config) : AzureConfig :=
  {| azAccountName := overrideString (prop cfg "accountName") (azAccountName azureDefaults);
     azAccountKey := overrideString (prop cfg "accountKey") (azAccountKey azureDefaults);
     azContainerName :=
       overrideString (prop cfg "containerName") (azContainerName azureDefaults);
     azEndpoint := overrideString (prop cfg "endpoint") (azEndpoint azureDefaults);
     azBlobAccessTier :=
       overrideString (prop cfg "blobAccessTier") (azBlobAccessTier azureDefaults);
     azContainerAccessType :=
       overrideString (prop cfg "containerAccessType")
         (azContainerAccessType azureDefaults) |}.

(** ** The libraries' data, as far as this package passes it around *)

(** The options handed to [config.LoadDefaultConfig]: region, the URL the
    custom endpoint resolver answers, and the static credentials. *)
Record LoadOptions : Type := mkLoadOptions {
  loRegion : string;
  loEndpointURL : string;
  loAccessKey : string;
  loSecretKey : string
}.

(** [s3.NewFromConfig(awsCfg, func(o) { o.UsePathStyle = ... })] *)
Record S3Client : Type := mkS3Client {
  clConfig : LoadOptions;
  clUsePathStyle : bool
}.

(** [azurestore.AzConfig] *)
Record AzConfig : Type := mkAzConfig {
  acAccountName : string;
  acAccountKey : string;
  acContainerName : string;
  acBlobAccessTier : string;
  acContainerAccessType : string;
  acEndpoint : string
}.

Record AzService : Type := mkAzService { svcConfig : AzConfig }.

Inductive DataStore : Type :=
  | S3Store (bucket : string) (client : S3Client)
  | AzureStore (service : AzService).

Inductive Locker : Type := MemoryLocker.

Definition loc := nat.

(** [tusd.StoreComposer], reduced to the two capabilities the backends
    register with [UseIn]: the data store and the locker. *)
Record StoreComposer : Type := mkStoreComposer {
  scCore : option DataStore;
  scLocker : option Locker
}.

(** [tusd.NewStoreComposer()] yields a composer with nothing registered. *)
Definition emptyComposer : StoreComposer :=
  {| scCore := None; scLocker := None |}.

(** [tusd.Config]; [tcStoreComposer] is a (possibly nil) pointer. *)
Record TusdConfig : Type := mkTusdConfig {
  tcBasePath : string;
  tcStoreComposer : option loc;
  tcNotifyCompleteUploads : bool;
  tcDisableDownload : bool
}.

Record Handler : Type := mkHandler { hConfig : TusdConfig }.

(** ** The backend structs *)

Record MinIOStorage : Type := mkMinIOStorage {
  mConfig : S3Config;
  mS3Client : option S3Client;
  mComposer : option loc;
  mInitialized : bool
}.

Record AzureStorage : Type := mkAzureStorage {
  aConfig : AzureConfig;
  aService : option AzService;
  aComposer : option loc;
  aInitialized : bool
}.

(** Go's zero values of the two configuration structs. *)
Definition zeroS3Config : S3Config := mkS3Config "" "" "" "" "" false false false.
Definition zeroAzureConfig : AzureConfig := mkAzureConfig "" "" "" "" "" "".

(** What a [Storage] interface value can point to. *)
Inductive StorageObj : Type :=
  | ObjMinIO (o : MinIOStorage)
  | ObjAzure (o : AzureStorage).

(** ** The world: the store of objects and the log of library calls *)

Inductive SdkCall : Type :=
  | CallLoadDefaultConfig (opts : LoadOptions)
  | CallS3NewFromConfig (opts : LoadOptions) (usePathStyle : bool)
  | CallHeadBucket (client : S3Client) (bucket : string)
  | CallCreateBucket (client : S3Client) (bucket : string)
  | CallNewAzureService (azConfig : AzConfig)
  | CallNewHandler (config : TusdConfig).

Record World : Type := mkWorld {
  composers : gmap loc StoreComposer;
  storages : gmap loc StorageObj;
  nextLoc : loc;
  sdkLog : list SdkCall
}.

Definition emptyWorld : World :=
  {| composers := ∅; storages := ∅; nextLoc := 0; sdkLog := [] |}.

(** What the libraries answer: for each fallible call, [Some msg] is an
    error with that message and [None] is success.  An answer may depend on
    the arguments and on every library call made so far; [tusd.NewHandler]
    is handed a pointer to the composer and so sees the composers too.  The
    backend structs have unexported fields only, which no library reads. *)
Record SDK : Type := mkSDK {
  sdk_LoadDefaultConfig : list SdkCall → LoadOptions → option string;
  sdk_HeadBucket : list SdkCall → S3Client → string → option string;
  sdk_CreateBucket : list SdkCall → S3Client → string → option string;
  sdk_NewAzureService : list SdkCall → AzConfig → option string;
  sdk_NewHandler :
    list SdkCall → gmap loc StoreComposer → TusdConfig → option string
}.

(** ** The monad: state over [World], with panics *)

Inductive Outcome (A : Type) : Type :=
  | Return (a : A)
  | Panic (msg : string).
Arguments Return {A} a.
Arguments Panic {A} msg.

Definition M (A : Type) : Type := World → Outcome A * World.

Definition ret {A} (a : A) : M A := fun w => (Return a, w).

Definition bind {A B} (c : M A) (k : A → M B) : M B :=
  fun w =>
    match c w with
    | (Return a, w') => k a w'
    | (Panic msg, w') => (Panic msg, w')
    end.

Notation "'let!' x ':=' c 'in' k" := (bind c (fun x => k))
  (at level 10, x name, c at level 100, k at level 200).
Notation "'run!' c 'in' k" := (bind c (fun _ => k))
  (at level 10, c at level 100, k at level 200).

Definition nilDeref : string :=
  "invalid memory address or nil pointer dereference".

(** The elementary changes of the world. *)
Definition logW (call : SdkCall) (w : World) : World :=
  {| composers := composers w; storages := storages w;
     nextLoc := nextLoc w; sdkLog := sdkLog w ++ [call] |}.

Definition putStorageW (s : loc) (o : StorageObj) (w : World) : World :=
  {| composers := composers w; storages := <[s := o]> (storages w);
     nextLoc := nextLoc w; sdkLog := sdkLog w |}.

Definition putComposerW (c : loc) (sc : StoreComposer) (w : World) : World :=
  {| composers := <[c := sc]> (composers w); storages := storages w;
     nextLoc := nextLoc w; sdkLog := sdkLog w |}.

Definition allocW (w : World) : World :=
  {| composers := composers w; storages := storages w;
     nextLoc := S (nextLoc w); sdkLog := sdkLog w |}.

Definition liftO {A} (o : Outcome A) : M A := fun w => (o, w).

(** Record one library call and return its answer as a Go error. *)
Definition sdkCall (call : SdkCall) (answer : World → option string)
  : M (option error) :=
  fun w => (Return (SdkError <$> answer w), logW call w).

(** [tusd.NewStoreComposer()]: a new, empty composer at a fresh address. *)
Definition NewStoreComposer : M loc :=
  fun w => (Return (nextLoc w), allocW (putComposerW (nextLoc w) emptyComposer w)).

(** [x.UseIn(composer)]: change the composer behind the pointer. *)
Definition updComposer (c : option loc) (f : StoreComposer → StoreComposer)
  : M unit :=
  fun w =>
    match c with
    | Some l =>
        match composers w !! l with
        | Some sc => (Return tt, putComposerW l (f sc) w)
        | None => (Panic nilDeref, w)
        end
    | None => (Panic nilDeref, w)
    end.

Definition UseLocker (lk : Locker) (sc : StoreComposer) : StoreComposer :=
  {| scCore := scCore sc; scLocker := Some lk |}.

Definition UseCore (ds : DataStore) (sc : StoreComposer) : StoreComposer :=
  {| scCore := Some ds; scLocker := scLocker sc |}.

(** Allocate a backend struct. *)
Definition newStorage (o : StorageObj) : M loc :=
  fun w => (Return (nextLoc w), allocW (putStorageW (nextLoc w) o w)).

Definition getMinIO (s : loc) : M MinIOStorage :=
  fun w =>
    match storages w !! s with
    | Some (ObjMinIO o) => (Return o, w)
    | _ => (Panic nilDeref, w)
    end.

Definition getAzure (s : loc) : M AzureStorage :=
  fun w =>
    match storages w !! s with
    | Some (ObjAzure o) => (Return o, w)
    | _ => (Panic nilDeref, w)
    end.

Definition putStorage (s : loc) (o : StorageObj) : M unit :=
  fun w => (Return tt, putStorageW s o w).

(** Assignments to the fields of [*MinIOStorage] and [*AzureStorage]. *)
Definition setMinIO (s : loc) (f : MinIOStorage → MinIOStorage) : M unit :=
  let! o := getMinIO s in putStorage s (ObjMinIO (f o)).

Definition setAzure (s : loc) (f : AzureStorage → AzureStorage) : M unit :=
  let! o := getAzure s in putStorage s (ObjAzure (f o)).

Definition withConfig (c : S3Config) (o : MinIOStorage) : MinIOStorage :=
  {| mConfig := c; mS3Client := mS3Client o;
     mComposer := mComposer o; mInitialized := mInitialized o |}.
Definition withS3Client (cl : S3Client) (o : MinIOStorage) : MinIOStorage :=
  {| mConfig := mConfig o; mS3Client := Some cl;
     mComposer := mComposer o; mInitialized := mInitialized o |}.
Definition withComposer (c : loc) (o : MinIOStorage) : MinIOStorage :=
  {| mConfig := mConfig o; mS3Client := mS3Client o;
     mComposer := Some c; mInitialized := mInitialized o |}.
Definition withInitialized (b : bool) (o : MinIOStorage) : MinIOStorage :=
  {| mConfig := mConfig o; mS3Client := mS3Client o;
     mComposer := mComposer o; mInitialized := b |}.

Definition withAzConfig (c : AzureConfig) (o : AzureStorage) : AzureStorage :=
  {| aConfig := c; aService := aService o;
     aComposer := aComposer o; aInitialized := aInitialized o |}.
Definition withAzComposer (c : loc) (o : AzureStorage) : AzureStorage :=
  {| aConfig := aConfig o; aService := aService o;
     aComposer := Some c; aInitialized := aInitialized o |}.
Definition withAzService (sv : AzService) (o : AzureStorage) : AzureStorage :=
  {| aConfig := aConfig o; aService := Some sv;
     aComposer := aComposer o; aInitialized := aInitialized o |}.
Definition withAzInitialized (b : bool) (o : AzureStorage) : AzureStorage :=
  {| aConfig := aConfig o; aService := aService o;
     aComposer := aComposer o; aInitialized := b |}.

(** ** minio.go: the S3-compatible backend *)

Section Backends.

Context (sdk : SDK).

(** [NewMinIOStorage]: the struct literal leaves [config] and [s3Client]
    at their zero values. *)
Definition NewMinIOStorage : M loc :=
  let! c := NewStoreComposer in
  newStorage (ObjMinIO {| mConfig := zeroS3Config; mS3Client := None;
                          mComposer := Some c; mInitialized := false |}).

(** The URL handed to the endpoint resolver:
    [[
      minioURL := s3Cfg.Endpoint
      if len(minioURL) < 4 ||
         (minioURL[:4] != "http" && minioURL[:5] != "https") {
        minioURL = fmt.Sprintf("%s://%s", protocol, s3Cfg.Endpoint)
      }
    ]]
    Go strings are byte strings, as [string] is here.  The slice
    [minioURL[:5]] is evaluated only when the first comparison holds, and
    panics on a string of length 4. *)
Definition minioURLOf (protocol endpoint : string) : Outcome string :=
  if decide (String.length endpoint < 4) then
    Return (protocol +:+ "://" +:+ endpoint)
  else if decide (substring 0 4 endpoint ≠ "http") then
    if decide (String.length endpoint < 5) then
      Panic "slice bounds out of range [:5] with length 4"
    else if decide (substring 0 5 endpoint ≠ "https") then
      Return (protocol +:+ "://" +:+ endpoint)
    else Return endpoint
  else Return endpoint.

Definition MinIOStorage_Initialize (s : loc) (cfg : Config) : M (option error) :=
  let s3Cfg := s3Merge cfg in
  run! setMinIO s (withConfig s3Cfg) in
  let protocol := if s3UseSSL s3Cfg then "https" else "http" in
  let! minioURL := liftO (minioURLOf protocol (s3Endpoint s3Cfg)) in
  let awsOpts :=
    {| loRegion := s3Region s3Cfg; loEndpointURL := minioURL;
       loAccessKey := s3AccessKey s3Cfg; loSecretKey := s3SecretKey s3Cfg |} in
  let! err := sdkCall (CallLoadDefaultConfig awsOpts)
                      (fun w => sdk_LoadDefaultConfig sdk (sdkLog w) awsOpts) in
  match err with
  | Some e => ret (Some (Wrapf "failed to load AWS SDK config" e))
  | None =>
      let s3Client := {| clConfig := awsOpts; clUsePathStyle := true |} in
      run! sdkCall (CallS3NewFromConfig awsOpts true) (fun _ => None) in
      run! setMinIO s (withS3Client s3Client) in
      let! err := sdkCall (CallHeadBucket s3Client (s3Bucket s3Cfg))
                    (fun w => sdk_HeadBucket sdk (sdkLog w) s3Client (s3Bucket s3Cfg)) in
      let! err :=
        match err with
        | Some _ =>
            sdkCall (CallCreateBucket s3Client (s3Bucket s3Cfg))
              (fun w => sdk_CreateBucket sdk (sdkLog w) s3Client (s3Bucket s3Cfg))
        | None => ret None
        end in
      match err with
      | Some e => ret (Some (Wrapf "error creating bucket" e))
      | None =>
          let store := S3Store (s3Bucket s3Cfg) s3Client in
          let locker := MemoryLocker in
          let! c := NewStoreComposer in
          run! setMinIO s (withComposer c) in
          run! updComposer (Some c) (UseLocker locker) in
          run! updComposer (Some c) (UseCore store) in
          run! setMinIO s (withInitialized true) in
          ret None
      end
  end.

Definition MinIOStorage_GetHandler (s : loc) (basePath : string)
  : M (option Handler * option error) :=
  let! o := getMinIO s in
  if negb (mInitialized o) then ret (None, Some ErrStorageNotConfigured)
  else
    let config :=
      {| tcBasePath := basePath; tcStoreComposer := mComposer o;
         tcNotifyCompleteUploads := true; tcDisableDownload := false |} in
    let! err := sdkCall (CallNewHandler config)
                        (fun w => sdk_NewHandler sdk (sdkLog w) (composers w) config) in
    match err with
    | Some e => ret (None, Some (Wrapf "error creating handler" e))
    | None => ret (Some {| hConfig := config |}, None)
    end.

Definition MinIOStorage_GetProvider (s : loc) : M Provider := ret MinIO.

Definition MinIOStorage_GetStoreComposer (s : loc) : M (option loc) :=
  let! o := getMinIO s in ret (mComposer o).

(** ** azure.go: the Azure Blob backend *)

Definition NewAzureStorage : M loc :=
  let! c := NewStoreComposer in
  newStorage (ObjAzure {| aConfig := zeroAzureConfig; aService := None;
                          aComposer := Some c; aInitialized := false |}).

(** The [azurestore.AzConfig] literal, followed by the conditional
    assignment of [Endpoint]. *)
Definition azConfigOf (azureCfg : AzureConfig) : AzConfig :=
  {| acAccountName := azAccountName azureCfg;
     acAccountKey := azAccountKey azureCfg;
     acContainerName := azContainerName azureCfg;
     acBlobAccessTier := azBlobAccessTier azureCfg;
     acContainerAccessType := azContainerAccessType azureCfg;
     acEndpoint :=
       if decide (azEndpoint azureCfg ≠ "") then azEndpoint azureCfg else "" |}.

Definition AzureStorage_Initialize (s : loc) (cfg : Config) : M (option error) :=
  let azureCfg := azureMerge cfg in
  if decide (azAccountName azureCfg = "") then
    ret (Some (Wrapf "azure account name is required" ErrInvalidConfig))
  else if decide (azAccountKey azureCfg = "") then
    ret (Some (Wrapf "azure account key is required" ErrInvalidConfig))
  else
    run! setAzure s (withAzConfig azureCfg) in
    let azConfig := azConfigOf azureCfg in
    let! err := sdkCall (CallNewAzureService azConfig)
                        (fun w => sdk_NewAzureService sdk (sdkLog w) azConfig) in
    match err with
    | Some e => ret (Some (Wrapf "error creating Azure service" e))
    | None =>
        let service := {| svcConfig := azConfig |} in
        let store := AzureStore service in
        let locker := MemoryLocker in
        let! c := NewStoreComposer in
        run! setAzure s (withAzComposer c) in
        run! updComposer (Some c) (UseLocker locker) in
        run! updComposer (Some c) (UseCore store) in
        run! setAzure s (withAzService service) in
        run! setAzure s (withAzInitialized true) in
        ret None
    end.

Definition AzureStorage_GetHandler (s : loc) (basePath : string)
  : M (option Handler * option error) :=
  let! o := getAzure s in
  if negb (aInitialized o) then ret (None, Some ErrStorageNotConfigured)
  else
    let config :=
      {| tcBasePath := basePath; tcStoreComposer := aComposer o;
         tcNotifyCompleteUploads := true; tcDisableDownload := false |} in
    let! err := sdkCall (CallNewHandler config)
                        (fun w => sdk_NewHandler sdk (sdkLog w) (composers w) config) in
    match err with
    | Some e => ret (None, Some (Wrapf "error creating handler" e))
    | None => ret (Some {| hConfig := config |}, None)
    end.

Definition AzureStorage_GetProvider (s : loc) : M Provider := ret Azure.

Definition AzureStorage_GetStoreComposer (s : loc) : M (option loc) :=
  let! o := getAzure s in ret (aComposer o).

End Backends.

(** ** storage.go: the Storage interface and the Registry *)

(** A value of interface type [Storage]: nil, or a pointer to one of the
    backend structs; the struct found in the store is its dynamic type. *)
Abbreviation Storage := (option loc).

Section Interface.

Context (sdk : SDK).

(** Method calls through the interface. *)
Definition dispatch {A} (st : Storage) (onMinIO onAzure : loc → M A) : M A :=
  fun w =>
    match st with
    | Some s =>
        match storages w !! s with
        | Some (ObjMinIO _) => onMinIO s w
        | Some (ObjAzure _) => onAzure s w
        | None => (Panic nilDeref, w)
        end
    | None => (Panic nilDeref, w)
    end.

Definition Storage_Initialize (st : Storage) (cfg : Config) : M (option error) :=
  dispatch st (fun s => MinIOStorage_Initialize sdk s cfg)
              (fun s => AzureStorage_Initialize sdk s cfg).

Definition Storage_GetHandler (st : Storage) (basePath : string)
  : M (option Handler * option error) :=
  dispatch st (fun s => MinIOStorage_GetHandler sdk s basePath)
              (fun s => AzureStorage_GetHandler sdk s basePath).

Definition Storage_GetProvider (st : Storage) : M Provider :=
  dispatch st MinIOStorage_GetProvider AzureStorage_GetProvider.

Definition Storage_GetStoreComposer (st : Storage) : M (option loc) :=
  dispatch st MinIOStorage_GetStoreComposer AzureStorage_GetStoreComposer.

(** The registry is owned by its factory alone, so it is passed by value
    here; the backends it maps to stay behind their pointers. *)
Record Registry : Type := mkRegistry {
  providers : gmap string Storage
}.

Definition NewRegistry : Registry := {| providers := ∅ |}.

Definition Registry_Register (r : Registry) (provider : Provider)
  (storage : Storage) : Registry :=
  {| providers := <[provider := storage]> (providers r) |}.

Definition Registry_Get (r : Registry) (provider : Provider)
  : Storage * option error :=
  match providers r !! provider with
  | Some storage => (storage, None)
  | None =>
      (None, Some (Errorf ("storage provider " +:+ provider +:+ " not found")))
  end.

Definition Registry_NewStorageFromConfig (r : Registry) (cfg : Config)
  : M (Storage * option error) :=
  let '(storage, err) := Registry_Get r (cfgProvider cfg) in
  match err with
  | Some e => ret (None, Some e)
  | None =>
      let! err := Storage_Initialize storage cfg in
      match err with
      | Some e => ret (None, Some (Wrapf "failed to initialize storage" e))
      | None => ret (storage, None)
      end
  end.

(** ** factory.go *)

Record Factory : Type := mkFactory { registry : Registry }.

Definition NewFactory : M Factory :=
  let registry := NewRegistry in
  let! minio := NewMinIOStorage in
  let registry := Registry_Register registry MinIO (Some minio) in
  let! azure := NewAzureStorage in
  let registry := Registry_Register registry Azure (Some azure) in
  ret {| registry := registry |}.

(** The process environment; [os.Getenv] answers the empty string for a
    variable that is not set. *)
Definition os_Getenv (env : gmap string string) (key : string) : string :=
  default "" (env !! key).

Definition getEnv (env : gmap string string) (key defaultValue : string)
  : string :=
  let value := os_Getenv env key in
  if decide (value = "") then defaultValue else value.

(** [strings.ToLower] is Go's; the factory is defined over any function
    taking its place. *)
Context (ToLower : string → string).

Definition getEnvBool (env : gmap string string) (key : string)
  (defaultValue : bool) : bool :=
  let value := os_Getenv env key in
  if decide (value = "") then defaultValue
  else
    bool_decide (ToLower value = "true") ||
    bool_decide (ToLower value = "yes") ||
    bool_decide (ToLower value = "1") ||
    bool_decide (ToLower value = "on").

(** The first part of [CreateFromEnv]: the [Config] built from the
    environment, or the error of the [default] case of the switch. *)
Definition envConfig (env : gmap string string) : Config + error :=
  let storageType := os_Getenv env "STORAGE_TYPE" in
  let storageType :=
    if decide (storageType = "") then MinIO else storageType in
  let provider := ToLower storageType in
  if decide (provider = MinIO) then
    inl {| cfgProvider := provider;
           Properties := Some (
             <["disableSSL" := VBool (negb (getEnvBool env "MINIO_USE_SSL" false))]> (
             <["pathStyle" := VBool true]> (
             <["useSSL" := VBool (getEnvBool env "MINIO_USE_SSL" false)]> (
             <["secretKey" := VString (getEnv env "MINIO_SECRET_KEY" "minioadmin")]> (
             <["accessKey" := VString (getEnv env "MINIO_ACCESS_KEY" "minioadmin")]> (
             <["region" := VString (getEnv env "MINIO_REGION" "us-east-1")]> (
             <["bucket" := VString (getEnv env "MINIO_BUCKET" "uploads")]> (
             <["endpoint" := VString (getEnv env "MINIO_ENDPOINT" "localhost:9000")]>
             ∅)))))))) |}
  else if decide (provider = Azure) then
    inl {| cfgProvider := provider;
           Properties := Some (
             <["containerAccessType" :=
                 VString (getEnv env "AZURE_CONTAINER_ACCESS_TYPE" "private")]> (
             <["blobAccessTier" := VString (getEnv env "AZURE_BLOB_ACCESS_TIER" "")]> (
             <["endpoint" := VString (getEnv env "AZURE_STORAGE_ENDPOINT" "")]> (
             <["containerName" :=
                 VString (getEnv env "AZURE_STORAGE_CONTAINER" "uploads")]> (
             <["accountKey" := VString (getEnv env "AZURE_STORAGE_KEY" "")]> (
             <["accountName" := VString (getEnv env "AZURE_STORAGE_ACCOUNT" "")]>
             ∅)))))) |}
  else inr (Errorf ("unsupported storage provider: " +:+ provider)).

Definition Factory_CreateFromEnv (f : Factory) (env : gmap string string)
  : M (Storage * option error) :=
  match envConfig env with
  | inl cfg => Registry_NewStorageFromConfig (registry f) cfg
  | inr e => ret (None, Some e)
  end.

Definition Factory_CreateFromConfig (f : Factory) (cfg : Config)
  : M (Storage * option error) :=
  Registry_NewStorageFromConfig (registry f) cfg.

End Interface.

(** What is known of [strings.ToLower] without its Unicode tables: on a
    string of ASCII bytes it maps [A]..[Z] to [a]..[z] and keeps the rest. *)
Definition lowerByte (a : ascii) : ascii :=
  let n := nat_of_ascii a in
  if decide (65 ≤ n ≤ 90)%nat then ascii_of_nat (n + 32) else a.

Fixpoint asciiLower (s : string) : string :=
  match s with
  | EmptyString => EmptyString
  | String a r => String (lowerByte a) (asciiLower r)
  end.

Fixpoint isASCII (s : string) : bool :=
  match s with
  | EmptyString => true
  | String a r => bool_decide (nat_of_ascii a < 128)%nat && isASCII r
  end.

Definition ToLower_spec (ToLower : string → string) : Prop :=
  ∀ s, isASCII s = true → ToLower s = asciiLower s.

(** ** A client of the interface: sequences of method calls *)

Inductive Op : Type :=
  | OpInitialize (cfg : Config)
  | OpGetHandler (basePath : string)
  | OpGetProvider
  | OpGetStoreComposer.

Inductive OpResult : Type :=
  | ResInitialize (err : option error)
  | ResGetHandler (h : option Handler) (err : option error)
  | ResGetProvider (p : Provider)
  | ResGetStoreComposer (c : option loc).

Definition runOp (sdk : SDK) (st : Storage) (op : Op) : M OpResult :=
  match op with
  | OpInitialize cfg =>
      let! err := Storage_Initialize sdk st cfg in ret (ResInitialize err)
  | OpGetHandler basePath =>
      let! r := Storage_GetHandler sdk st basePath in
      ret (ResGetHandler (fst r) (snd r))
  | OpGetProvider =>
      let! p := Storage_GetProvider st in ret (ResGetProvider p)
  | OpGetStoreComposer =>
      let! c := Storage_GetStoreComposer st in ret (ResGetStoreComposer c)
  end.

Fixpoint runOps (sdk : SDK) (st : Storage) (ops : list Op)
  : M (list OpResult) :=
  match ops with
  | [] => ret []
  | op :: rest =>
      let! r := runOp sdk st op in
      let! rs := runOps sdk st rest in
      ret (r :: rs)
  end.

(** ** Library behaviours used in the examples *)

(** Every call succeeds. *)
Definition sdkAllOk : SDK :=
  {| sdk_LoadDefaultConfig := fun _ _ => None;
     sdk_HeadBucket := fun _ _ _ => None;
     sdk_CreateBucket := fun _ _ _ => None;
     sdk_NewAzureService := fun _ _ => None;
     sdk_NewHandler := fun _ _ _ => None |}.

(** The bucket is missing and can be created. *)
Definition sdkNoBucket : SDK :=
  {| sdk_LoadDefaultConfig := fun _ _ => None;
     sdk_HeadBucket := fun _ _ _ => Some "NotFound";
     sdk_CreateBucket := fun _ _ _ => None;
     sdk_NewAzureService := fun _ _ => None;
     sdk_NewHandler := fun _ _ _ => None |}.

(** Nothing can be reached. *)
Definition sdkDown : SDK :=
  {| sdk_LoadDefaultConfig := fun _ _ => None;
     sdk_HeadBucket := fun _ _ _ => Some "connection refused";
     sdk_CreateBucket := fun _ _ _ => Some "connection refused";
     sdk_NewAzureService := fun _ _ => Some "connection refused";
     sdk_NewHandler := fun _ _ _ => None |}.

(** The call [c] creates the bucket or container [name]. *)
Definition createdBy (name : string) (c : SdkCall) : bool :=
  match c with
  | CallCreateBucket _ bucket => bool_decide (bucket = name)
  | CallNewAzureService azConfig => bool_decide (acContainerName azConfig = name)
  | _ => false
  end.

Definition createdIn (calls : list SdkCall) (name : string) : bool :=
  existsb (createdBy name) calls.

(** A provider that holds no bucket and no container at first:
    [HeadBucket] finds a bucket once a call has created it, and every
    other call succeeds. *)
Definition sdkEmptyRemote : SDK :=
  {| sdk_LoadDefaultConfig := fun _ _ => None;
     sdk_HeadBucket := fun calls _ bucket =>
       if createdIn calls bucket then None else Some "NotFound";
     sdk_CreateBucket := fun _ _ _ => None;
     sdk_NewAzureService := fun _ _ => None;
     sdk_NewHandler := fun _ _ _ => None |}.



(** ** Definitions used to state the properties *)

(** The structs [NewMinIOStorage] and [NewAzureStorage] allocate. *)
Definition freshMinIO (c : loc) : MinIOStorage :=
  {| mConfig := zeroS3Config; mS3Client := None;
     mComposer := Some c; mInitialized := false |}.

Definition freshAzure (c : loc) : AzureStorage :=
  {| aConfig := zeroAzureConfig; aService := None;
     aComposer := Some c; aInitialized := false |}.

(** The world [NewFactory] leaves: four allocations, from [nextLoc w] on. *)
Definition wFactory (w : World) : World :=
  let n := nextLoc w in
  {| composers :=
       <[S (S n) := emptyComposer]> (<[n := emptyComposer]> (composers w));
     storages :=
       <[S (S (S n)) := ObjAzure (freshAzure (S (S n)))]>
         (<[S n := ObjMinIO (freshMinIO n)]> (storages w));
     nextLoc := S (S (S (S n)));
     sdkLog := sdkLog w |}.

Definition factoryAt (n : loc) : Factory :=
  {| registry :=
       {| providers :=
            <[Azure := Some (S (S (S n)))]> (<[MinIO := Some (S n)]> ∅) |} |}.

(** The [Properties] that [CreateFromEnv] builds when no [MINIO_*]
    variable is set: the six entries of the table and two more. *)
Definition envDefaultProperties : gmap string value :=
  <["disableSSL" := VBool true]> (
  <["pathStyle" := VBool true]> (
  <["useSSL" := VBool false]> (
  <["secretKey" := VString "minioadmin"]> (
  <["accessKey" := VString "minioadmin"]> (
  <["region" := VString "us-east-1"]> (
  <["bucket" := VString "uploads"]> (
  <["endpoint" := VString "localhost:9000"]> ∅))))))).

(** The six entries alone. *)
Definition tableDefaultProperties : gmap string value :=
  <["useSSL" := VBool false]> (
  <["secretKey" := VString "minioadmin"]> (
  <["accessKey" := VString "minioadmin"]> (
  <["region" := VString "us-east-1"]> (
  <["bucket" := VString "uploads"]> (
  <["endpoint" := VString "localhost:9000"]> ∅))))).

Definition envDefaultConfig : Config :=
  {| cfgProvider := MinIO; Properties := Some envDefaultProperties |}.

(** A configuration with the two mandatory Azure fields. *)
Definition azureAcctConfig : Config :=
  {| cfgProvider := Azure;
     Properties := Some (<["accountKey" := VString "key"]>
                        (<["accountName" := VString "acct"]> ∅)) |}.

(** A configuration that names the account and no key. *)
Definition azureNoKeyConfig : Config :=
  {| cfgProvider := Azure;
     Properties := Some (<["accountName" := VString "acct"]> ∅) |}.

(** The Azure settings of the repository's [docker-compose.yml]: the
    account and the key of the Azurite emulator. *)
Definition azuriteConfig : Config :=
  {| cfgProvider := Azure;
     Properties := Some (
       <["endpoint" := VString "http://azurite:10000/devstoreaccount1"]> (
       <["containerName" := VString "uploads"]> (
       <["accountKey" := VString
           "Eby8vdM02xNOcqFlqUwJPLlmEtlCDXJ1OUzFT50uSRZ6IFsuFq2UVErCz4I6tq/K1SZFPTOtr/KBHBeksoGMGw=="]> (
       <["accountName" := VString "devstoreaccount1"]> ∅)))) |}.

(** A configuration with a number where the endpoint is expected. *)
Definition mistypedConfig : Config :=
  {| cfgProvider := MinIO;
     Properties := Some (<["endpoint" := VInt 9000]> ∅) |}.

(** The world after the struct behind [s] was assigned to and [calls] were
    made; and the same with, besides, a composer allocated. *)
Definition afterW (s : loc) (obj : StorageObj) (calls : list SdkCall)
  (w : World) : World :=
  {| composers := composers w;
     storages := <[s := obj]> (storages w);
     nextLoc := nextLoc w;
     sdkLog := sdkLog w ++ calls |}.

Definition assembledW (s : loc) (obj : StorageObj) (sc : StoreComposer)
  (calls : list SdkCall) (w : World) : World :=
  {| composers := <[nextLoc w := sc]> (composers w);
     storages := <[s := obj]> (storages w);
     nextLoc := S (nextLoc w);
     sdkLog := sdkLog w ++ calls |}.

(** The values [MinIOStorage.Initialize] computes from [cfg]. *)
Definition minioURL (cfg : Config) : Outcome string :=
  minioURLOf (if s3UseSSL (s3Merge cfg) then "https" else "http")
             (s3Endpoint (s3Merge cfg)).

Definition minioOpts (cfg : Config) (url : string) : LoadOptions :=
  {| loRegion := s3Region (s3Merge cfg); loEndpointURL := url;
     loAccessKey := s3AccessKey (s3Merge cfg);
     loSecretKey := s3SecretKey (s3Merge cfg) |}.

Definition minioClient (cfg : Config) (url : string) : S3Client :=
  {| clConfig := minioOpts cfg url; clUsePathStyle := true |}.

(** The library calls of a run, in order; [CreateBucket] follows only a
    failed [HeadBucket]. *)
Definition minioCallsLoad (cfg : Config) (url : string) : list SdkCall :=
  [CallLoadDefaultConfig (minioOpts cfg url)].

Definition minioCallsClient (cfg : Config) (url : string) : list SdkCall :=
  [CallLoadDefaultConfig (minioOpts cfg url);
   CallS3NewFromConfig (minioOpts cfg url) true].

Definition minioCallsHead (cfg : Config) (url : string) : list SdkCall :=
  [CallLoadDefaultConfig (minioOpts cfg url);
   CallS3NewFromConfig (minioOpts cfg url) true;
   CallHeadBucket (minioClient cfg url) (s3Bucket (s3Merge cfg))].

Definition minioCallsCreate (cfg : Config) (url : string) : list SdkCall :=
  [CallLoadDefaultConfig (minioOpts cfg url);
   CallS3NewFromConfig (minioOpts cfg url) true;
   CallHeadBucket (minioClient cfg url) (s3Bucket (s3Merge cfg));
   CallCreateBucket (minioClient cfg url) (s3Bucket (s3Merge cfg))].

(** The struct and the composer at the end of a successful run. *)
Definition minioReady (cfg : Config) (url : string) (c : loc) : MinIOStorage :=
  {| mConfig := s3Merge cfg; mS3Client := Some (minioClient cfg url);
     mComposer := Some c; mInitialized := true |}.

Definition minioComposer (cfg : Config) (url : string) : StoreComposer :=
  {| scCore := Some (S3Store (s3Bucket (s3Merge cfg)) (minioClient cfg url));
     scLocker := Some MemoryLocker |}.

(** The same for [AzureStorage.Initialize]. *)
Definition azureService (cfg : Config) : AzService :=
  {| svcConfig := azConfigOf (azureMerge cfg) |}.

Definition azureCalls (cfg : Config) : list SdkCall :=
  [CallNewAzureService (azConfigOf (azureMerge cfg))].

Definition azureReady (cfg : Config) (c : loc) : AzureStorage :=
  {| aConfig := azureMerge cfg; aService := Some (azureService cfg);
     aComposer := Some c; aInitialized := true |}.

Definition azureComposer (cfg : Config) : StoreComposer :=
  {| scCore := Some (AzureStore (azureService cfg));
     scLocker := Some MemoryLocker |}.


(** The [initialized] flag and the [composer] field of the backend behind
    [s], whichever its type. *)
Definition initializedAt (s : loc) (w : World) : option bool :=
  match storages w !! s with
  | Some (ObjMinIO o) => Some (mInitialized o)
  | Some (ObjAzure o) => Some (aInitialized o)
  | None => None
  end.

Definition composerAt (s : loc) (w : World) : option (option loc) :=
  match storages w !! s with
  | Some (ObjMinIO o) => Some (mComposer o)
  | Some (ObjAzure o) => Some (aComposer o)
  | None => None
  end.

(** The [s3Client] field of the S3-compatible backend behind [s]. *)
Definition clientAt (s : loc) (w : World) : option (option S3Client) :=
  match storages w !! s with
  | Some (ObjMinIO o) => Some (mS3Client o)
  | _ => None
  end.

(** [Initialize] returned nil. *)
Definition isInitSuccess (r : OpResult) : bool :=
  match r with
  | ResInitialize None => true
  | _ => false
  end.

(** The result of [GetHandler] on a backend that is not initialized. *)
Definition isNotConfigured (r : OpResult) : bool :=
  match r with
  | ResGetHandler None (Some ErrStorageNotConfigured) => true
  | ResGetHandler _ _ => false
  | _ => true
  end.

(** The dynamic types the backends look for under their keys. *)
Inductive kind : Type := KString | KBool.

#[global] Instance kind_eq_dec : EqDecision kind.
Proof. solve_decision. Defined.

Definition kindOf (v : value) : option kind :=
  match v with
  | VString _ => Some KString
  | VBool _ => Some KBool
  | _ => None
  end.

Definition minioKeyKind (key : string) : option kind :=
  if bool_decide (key ∈ ["endpoint"; "bucket"; "region"; "accessKey"; "secretKey"])
  then Some KString
  else if bool_decide (key ∈ ["useSSL"; "pathStyle"; "disableSSL"])
  then Some KBool
  else None.

Definition azureKeyKind (key : string) : option kind :=
  if bool_decide (key ∈ ["accountName"; "accountKey"; "containerName";
                         "endpoint"; "blobAccessTier"; "containerAccessType"])
  then Some KString
  else None.

(** The field a key is parsed into, as a value. *)
Definition s3Field (key : string) (c : S3Config) : option value :=
  if decide (key = "endpoint") then Some (VString (s3Endpoint c))
  else if decide (key = "bucket") then Some (VString (s3Bucket c))
  else if decide (key = "region") then Some (VString (s3Region c))
  else if decide (key = "accessKey") then Some (VString (s3AccessKey c))
  else if decide (key = "secretKey") then Some (VString (s3SecretKey c))
  else if decide (key = "useSSL") then Some (VBool (s3UseSSL c))
  else if decide (key = "pathStyle") then Some (VBool (s3PathStyle c))
  else if decide (key = "disableSSL") then Some (VBool (s3DisableSSL c))
  else None.

Definition azureField (key : string) (c : AzureConfig) : option value :=
  if decide (key = "accountName") then Some (VString (azAccountName c))
  else if decide (key = "accountKey") then Some (VString (azAccountKey c))
  else if decide (key = "containerName") then Some (VString (azContainerName c))
  else if decide (key = "endpoint") then Some (VString (azEndpoint c))
  else if decide (key = "blobAccessTier") then Some (VString (azBlobAccessTier c))
  else if decide (key = "containerAccessType")
  then Some (VString (azContainerAccessType c))
  else None.

(** [cfg] with the entry under [key] removed, and with it replaced. *)
Definition without (key : string) (cfg : Config) : Config :=
  {| cfgProvider := cfgProvider cfg;
     Properties := delete key <$> Properties cfg |}.

Definition withProp (key : string) (v : value) (cfg : Config) : Config :=
  {| cfgProvider := cfgProvider cfg;
     Properties := Some (<[key := v]> (default ∅ (Properties cfg))) |}.

(** What every call but a successful [Initialize] keeps of the backend
    behind [s]: the [initialized] flag, the [composer] field, the composers
    and the next free address. *)
Definition sameBackend (s : loc) (w w1 : World) : Prop :=
  initializedAt s w1 = initializedAt s w ∧
  composerAt s w1 = composerAt s w ∧
  composers w1 = composers w ∧
  nextLoc w1 = nextLoc w.

(** Two calls of [GetStoreComposer] in a row. *)
Definition GetStoreComposer_twice (st : Storage) : M (option loc * option loc) :=
  let! a := Storage_GetStoreComposer st in
  let! b := Storage_GetStoreComposer st in
  ret (a, b).

(** ** Definitions used to state the further properties *)

(** A registry filled by a sequence of [Register] calls, in order. *)
Definition registerAll (regs : list (Provider * Storage)) (r : Registry)
  : Registry :=
  foldl (fun r ps => Registry_Register r (fst ps) (snd ps)) r regs.

(** The last storage registered under [provider] in [regs]. *)
Definition lastRegistered (provider : Provider)
  (regs : list (Provider * Storage)) : option Storage :=
  snd <$> last (filter (fun ps => fst ps = provider) regs).

(** What [GetProvider] answers on the backend behind [s]: fixed by the
    type of the struct. *)
Definition providerAt (s : loc) (w : World) : option Provider :=
  match storages w !! s with
  | Some (ObjMinIO _) => Some MinIO
  | Some (ObjAzure _) => Some Azure
  | None => None
  end.

(** The [config] field of the S3-compatible backend behind [s]. *)
Definition s3ConfigAt (s : loc) (w : World) : option S3Config :=
  match storages w !! s with
  | Some (ObjMinIO o) => Some (mConfig o)
  | _ => None
  end.

(** The data store that the fields of the backend behind [s] describe:
    for the S3-compatible backend the store on its bucket and its client,
    for the Azure backend the store on its service. *)
Definition storeAt (s : loc) (w : World) : option DataStore :=
  match storages w !! s with
  | Some (ObjMinIO o) => S3Store (s3Bucket (mConfig o)) <$> mS3Client o
  | Some (ObjAzure o) => AzureStore <$> aService o
  | None => None
  end.

(** The [config] passed to [tusd.NewHandler] by [GetHandler]. *)
Definition handlerConfig (basePath : string) (c : option loc) : TusdConfig :=
  {| tcBasePath := basePath; tcStoreComposer := c;
     tcNotifyCompleteUploads := true; tcDisableDownload := false |}.

(** The provider [CreateFromEnv] selects for a [STORAGE_TYPE] of ASCII
    bytes. *)
Definition envProvider (storageType : string) : Provider :=
  if decide (storageType = "") then MinIO else asciiLower storageType.

(** The environment read as the two parsed configurations. *)
Definition envS3Config (ToLower : string → string) (env : gmap string string)
  : S3Config :=
  {| s3Endpoint := getEnv env "MINIO_ENDPOINT" "localhost:9000";
     s3Bucket := getEnv env "MINIO_BUCKET" "uploads";
     s3Region := getEnv env "MINIO_REGION" "us-east-1";
     s3AccessKey := getEnv env "MINIO_ACCESS_KEY" "minioadmin";
     s3SecretKey := getEnv env "MINIO_SECRET_KEY" "minioadmin";
     s3UseSSL := getEnvBool ToLower env "MINIO_USE_SSL" false;
     s3PathStyle := true;
     s3DisableSSL := negb (getEnvBool ToLower env "MINIO_USE_SSL" false) |}.

Definition envAzureConfig (env : gmap string string) : AzureConfig :=
  {| azAccountName := getEnv env "AZURE_STORAGE_ACCOUNT" "";
     azAccountKey := getEnv env "AZURE_STORAGE_KEY" "";
     azContainerName := getEnv env "AZURE_STORAGE_CONTAINER" "uploads";
     azEndpoint := getEnv env "AZURE_STORAGE_ENDPOINT" "";
     azBlobAccessTier := getEnv env "AZURE_BLOB_ACCESS_TIER" "";
     azContainerAccessType := getEnv env "AZURE_CONTAINER_ACCESS_TYPE" "private" |}.

(** What calls on the backend behind [s] keep of the rest of the world:
    the other backends, the type of the struct behind [s], the composers
    allocated before, and the library calls already logged. *)
Definition framed (s : loc) (w w1 : World) : Prop :=
  (∀ s', s' ≠ s → storages w1 !! s' = storages w !! s') ∧
  providerAt s w1 = providerAt s w ∧
  (∀ c, (c < nextLoc w)%nat → composers w1 !! c = composers w !! c) ∧
  (nextLoc w ≤ nextLoc w1)%nat ∧
  sdkLog w `prefix_of` sdkLog w1.

(** Two runs of [MinIOStorage.Initialize] on the backend behind [s] that
    a caller cannot tell apart: same result, same library calls, same
    client, same composers. *)
Definition runsAgree (s : loc) (run run' : Outcome (option error) * World)
  : Prop :=
  fst run' = fst run ∧
  sdkLog (snd run') = sdkLog (snd run) ∧
  clientAt s (snd run') = clientAt s (snd run) ∧
  composers (snd run') = composers (snd run).

(** The variables that [factory.go] reads itself, through [getEnv] and
    [getEnvBool] in [CreateFromEnv].  The libraries that [Initialize] calls
    read variables of their own (the AWS configuration loader its [AWS_*]
    ones); those are no part of this list. *)
Definition factoryVariables : list string :=
  ["STORAGE_TYPE"; "MINIO_ENDPOINT"; "MINIO_BUCKET"; "MINIO_REGION";
   "MINIO_ACCESS_KEY"; "MINIO_SECRET_KEY"; "MINIO_USE_SSL";
   "AZURE_STORAGE_ACCOUNT"; "AZURE_STORAGE_KEY"; "AZURE_STORAGE_CONTAINER";
   "AZURE_STORAGE_ENDPOINT"; "AZURE_BLOB_ACCESS_TIER";
   "AZURE_CONTAINER_ACCESS_TYPE"].

(** ** cmd/server/main.go: the storage set-up of [main] *)

(** The provider [main] writes to its log:
    [[
      storageProvider := string(storage.MinIO)
      if cfg.Storage.Type != "" {
        storageProvider = cfg.Storage.Type
      } else if os.Getenv("STORAGE_TYPE") != "" {
        storageProvider = os.Getenv("STORAGE_TYPE")
      }
    ]] *)
Definition main_storageProvider (cfgStorageType : string)
  (env : gmap string string) : string :=
  if decide (cfgStorageType ≠ "") then cfgStorageType
  else if decide (os_Getenv env "STORAGE_TYPE" ≠ "")
       then os_Getenv env "STORAGE_TYPE"
       else MinIO.

(** How the set-up ends: [os.Exit(code)], or the store, the provider it
    reports and the tus handler with which [main] goes on to the router. *)
Inductive MainResult : Type :=
  | MainExit (code : Z)
  | MainServing (store : Storage) (provider : Provider) (tusHandler : Handler).

(** From [storage.NewFactory()] to the handler for ["/files/"]. *)
Definition main_storage (sdk : SDK) (ToLower : string → string)
  (env : gmap string string) : M MainResult :=
  let! factory := NewFactory in
  let! created := Factory_CreateFromEnv sdk ToLower factory env in
  match snd created with
  | Some _ => ret (MainExit 1)
  | None =>
      let store := fst created in
      let! provider := Storage_GetProvider store in
      let! got := Storage_GetHandler sdk store "/files/" in
      match snd got with
      | Some _ => ret (MainExit 1)
      | None =>
          match fst got with
          | Some tusHandler => ret (MainServing store provider tusHandler)
          | None => liftO (Panic nilDeref)
          end
      end
  end.

(** ** pkg/config: the configuration file and its overrides

    The package that [main] loads its configuration with.  Reading and
    decoding the YAML file is left out; the structure it decodes into and
    the overrides from the environment are here.  [os.Environ()] is a list
    of ["KEY=value"] strings. *)

Module config.

Record AppConfig : Type := mkAppConfig {
  App_Name : string;
  App_Environment : string;
  App_Port : Z;
  App_Debug : bool;
  App_Timeout : Z
}.

Record LocalStorage : Type := mkLocalStorage {
  Local_RootDir : string;
  Local_TempDir : string
}.

Record S3Storage : Type := mkS3Storage {
  S3_Region : string;
  S3_Bucket : string;
  S3_AccessKey : string;
  S3_SecretKey : string;
  S3_Endpoint : string
}.

Record AzureStorage : Type := mkAzureStorage {
  Azure_AccountName : string;
  Azure_AccountKey : string;
  Azure_ContainerName : string
}.

Record MinioStorage : Type := mkMinioStorage {
  Minio_Endpoint : string;
  Minio_AccessKey : string;
  Minio_SecretKey : string;
  Minio_SSL : bool;
  Minio_Bucket : string
}.

Record StorageConfig : Type := mkStorageConfig {
  Storage_Type : string;
  Storage_Local : LocalStorage;
  Storage_S3 : S3Storage;
  Storage_Azure : AzureStorage;
  Storage_Minio : MinioStorage
}.

Record LoggingConfig : Type := mkLoggingConfig {
  Logging_Level : string;
  Logging_Format : string
}.

Record CORSConfig : Type := mkCORSConfig {
  CORS_AllowedOrigins : list string;
  CORS_AllowedMethods : list string;
  CORS_AllowedHeaders : list string;
  CORS_MaxAge : Z
}.

Record Config : Type := mkConfig {
  App : AppConfig;
  Storage : StorageConfig;
  Logging : LoggingConfig;
  CORS : CORSConfig
}.

Definition EnvPrefix : string := "APP_".

(** Assignments to single fields, [cfg.App.Port = port] and the like. *)
Definition set_App (f : AppConfig → AppConfig) (c : Config) : Config :=
  {| App := f (App c); Storage := Storage c; Logging := Logging c; CORS := CORS c |}.
Definition set_Storage (f : StorageConfig → StorageConfig) (c : Config) : Config :=
  {| App := App c; Storage := f (Storage c); Logging := Logging c; CORS := CORS c |}.
Definition set_Logging (f : LoggingConfig → LoggingConfig) (c : Config) : Config :=
  {| App := App c; Storage := Storage c; Logging := f (Logging c); CORS := CORS c |}.

Definition set_S3 (f : S3Storage → S3Storage) (c : Config) : Config :=
  set_Storage (fun st =>
    {| Storage_Type := Storage_Type st; Storage_Local := Storage_Local st;
       Storage_S3 := f (Storage_S3 st); Storage_Azure := Storage_Azure st;
       Storage_Minio := Storage_Minio st |}) c.
Definition set_Azure (f : AzureStorage → AzureStorage) (c : Config) : Config :=
  set_Storage (fun st =>
    {| Storage_Type := Storage_Type st; Storage_Local := Storage_Local st;
       Storage_S3 := Storage_S3 st; Storage_Azure := f (Storage_Azure st);
       Storage_Minio := Storage_Minio st |}) c.
Definition set_Minio (f : MinioStorage → MinioStorage) (c : Config) : Config :=
  set_Storage (fun st =>
    {| Storage_Type := Storage_Type st; Storage_Local := Storage_Local st;
       Storage_S3 := Storage_S3 st; Storage_Azure := Storage_Azure st;
       Storage_Minio := f (Storage_Minio st) |}) c.

Definition with_Port (v : Z) (a : AppConfig) : AppConfig :=
  {| App_Name := App_Name a; App_Environment := App_Environment a;
     App_Port := v; App_Debug := App_Debug a; App_Timeout := App_Timeout a |}.
Definition with_Debug (v : bool) (a : AppConfig) : AppConfig :=
  {| App_Name := App_Name a; App_Environment := App_Environment a;
     App_Port := App_Port a; App_Debug := v; App_Timeout := App_Timeout a |}.
Definition with_Environment (v : string) (a : AppConfig) : AppConfig :=
  {| App_Name := App_Name a; App_Environment := v;
     App_Port := App_Port a; App_Debug := App_Debug a;
     App_Timeout := App_Timeout a |}.
Definition with_Type (v : string) (st : StorageConfig) : StorageConfig :=
  {| Storage_Type := v; Storage_Local := Storage_Local st;
     Storage_S3 := Storage_S3 st; Storage_Azure := Storage_Azure st;
     Storage_Minio := Storage_Minio st |}.
Definition with_S3_AccessKey (v : string) (x : S3Storage) : S3Storage :=
  {| S3_Region := S3_Region x; S3_Bucket := S3_Bucket x; S3_AccessKey := v;
     S3_SecretKey := S3_SecretKey x; S3_Endpoint := S3_Endpoint x |}.
Definition with_S3_SecretKey (v : string) (x : S3Storage) : S3Storage :=
  {| S3_Region := S3_Region x; S3_Bucket := S3_Bucket x;
     S3_AccessKey := S3_AccessKey x; S3_SecretKey := v;
     S3_Endpoint := S3_Endpoint x |}.
Definition with_S3_Bucket (v : string) (x : S3Storage) : S3Storage :=
  {| S3_Region := S3_Region x; S3_Bucket := v; S3_AccessKey := S3_AccessKey x;
     S3_SecretKey := S3_SecretKey x; S3_Endpoint := S3_Endpoint x |}.
Definition with_S3_Region (v : string) (x : S3Storage) : S3Storage :=
  {| S3_Region := v; S3_Bucket := S3_Bucket x; S3_AccessKey := S3_AccessKey x;
     S3_SecretKey := S3_SecretKey x; S3_Endpoint := S3_Endpoint x |}.
Definition with_Azure_AccountKey (v : string) (x : AzureStorage) : AzureStorage :=
  {| Azure_AccountName := Azure_AccountName x; Azure_AccountKey := v;
     Azure_ContainerName := Azure_ContainerName x |}.
Definition with_Azure_AccountName (v : string) (x : AzureStorage) : AzureStorage :=
  {| Azure_AccountName := v; Azure_AccountKey := Azure_AccountKey x;
     Azure_ContainerName := Azure_ContainerName x |}.
Definition with_Azure_ContainerName (v : string) (x : AzureStorage)
  : AzureStorage :=
  {| Azure_AccountName := Azure_AccountName x;
     Azure_AccountKey := Azure_AccountKey x; Azure_ContainerName := v |}.
Definition with_Minio_AccessKey (v : string) (x : MinioStorage) : MinioStorage :=
  {| Minio_Endpoint := Minio_Endpoint x; Minio_AccessKey := v;
     Minio_SecretKey := Minio_SecretKey x; Minio_SSL := Minio_SSL x;
     Minio_Bucket := Minio_Bucket x |}.
Definition with_Minio_SecretKey (v : string) (x : MinioStorage) : MinioStorage :=
  {| Minio_Endpoint := Minio_Endpoint x; Minio_AccessKey := Minio_AccessKey x;
     Minio_SecretKey := v; Minio_SSL := Minio_SSL x;
     Minio_Bucket := Minio_Bucket x |}.
Definition with_Minio_Bucket (v : string) (x : MinioStorage) : MinioStorage :=
  {| Minio_Endpoint := Minio_Endpoint x; Minio_AccessKey := Minio_AccessKey x;
     Minio_SecretKey := Minio_SecretKey x; Minio_SSL := Minio_SSL x;
     Minio_Bucket := v |}.
Definition with_Level (v : string) (x : LoggingConfig) : LoggingConfig :=
  {| Logging_Level := v; Logging_Format := Logging_Format x |}.

(** [strings.SplitN(env, "=", 2)] when it has two parts: the text before
    the first ["="] and the text after it; [None] when there is no ["="]. *)
Fixpoint splitAtEq (env : string) : option (string * string) :=
  match env with
  | EmptyString => None
  | String a rest =>
      if decide (a = "="%char) then Some (EmptyString, rest)
      else match splitAtEq rest with
           | Some (key, value) => Some (String a key, value)
           | None => None
           end
  end.

(** [strings.TrimPrefix] *)
Definition TrimPrefix (s pre : string) : string :=
  if String.prefix pre s
  then substring (String.length pre) (String.length s - String.length pre) s
  else s.

Section Overrides.

(** [strings.ToLower], and [fmt.Sscanf(value, "%d", &port)] with [None]
    for an error: both are Go's. *)
Context (ToLower : string → string) (Sscanf_d : string → option Z).

Definition applyEnvOverride (cfg : Config) (key value : string) : Config :=
  let key := ToLower key in
  if decide (key = "app_port") then
    match Sscanf_d value with
    | Some port => set_App (with_Port port) cfg
    | None => cfg
    end
  else if decide (key = "app_debug") then
    set_App (with_Debug (bool_decide (ToLower value = "true"))) cfg
  else if decide (key = "app_environment") then
    set_App (with_Environment value) cfg
  else if decide (key = "storage_type") then set_Storage (with_Type value) cfg
  else if decide (key = "s3_accesskey") then set_S3 (with_S3_AccessKey value) cfg
  else if decide (key = "s3_secretkey") then set_S3 (with_S3_SecretKey value) cfg
  else if decide (key = "s3_bucket") then set_S3 (with_S3_Bucket value) cfg
  else if decide (key = "s3_region") then set_S3 (with_S3_Region value) cfg
  else if decide (key = "azure_accountkey") then
    set_Azure (with_Azure_AccountKey value) cfg
  else if decide (key = "azure_accountname") then
    set_Azure (with_Azure_AccountName value) cfg
  else if decide (key = "azure_containername") then
    set_Azure (with_Azure_ContainerName value) cfg
  else if decide (key = "minio_accesskey") then
    set_Minio (with_Minio_AccessKey value) cfg
  else if decide (key = "minio_secretkey") then
    set_Minio (with_Minio_SecretKey value) cfg
  else if decide (key = "minio_bucket") then
    set_Minio (with_Minio_Bucket value) cfg
  else if decide (key = "logging_level") then set_Logging (with_Level value) cfg
  else cfg.

(** The body of the loop of [applyEnvironmentOverrides]. *)
Definition applyEnvEntry (cfg : Config) (env : string) : Config :=
  if negb (String.prefix EnvPrefix env) then cfg
  else match splitAtEq env with
       | None => cfg
       | Some (key, value) => applyEnvOverride cfg (TrimPrefix key EnvPrefix) value
       end.

Definition applyEnvironmentOverrides (cfg : Config) (environ : list string)
  : Config :=
  foldl applyEnvEntry cfg environ.

End Overrides.

(** The keys, lower-cased, that an override exists for. *)
Definition overridable : list string :=
  ["app_port"; "app_debug"; "app_environment"; "storage_type";
   "s3_accesskey"; "s3_secretkey"; "s3_bucket"; "s3_region";
   "azure_accountkey"; "azure_accountname"; "azure_containername";
   "minio_accesskey"; "minio_secretkey"; "minio_bucket"; "logging_level"].

(** The fields that no override assigns to. *)
Definition fixedPart (c : Config)
  : string * Z * LocalStorage * string * string * bool * string * CORSConfig :=
  (App_Name (App c), App_Timeout (App c), Storage_Local (Storage c),
   S3_Endpoint (Storage_S3 (Storage c)),
   Minio_Endpoint (Storage_Minio (Storage c)),
   Minio_SSL (Storage_Minio (Storage c)),
   Logging_Format (Logging c), CORS c).

(** A scanner of unsigned decimal numbers, for the examples. *)
Fixpoint scanDigits (acc : Z) (s : string) : option Z :=
  match s with
  | EmptyString => Some acc
  | String a rest =>
      let n := Z.of_nat (nat_of_ascii a) in
      if decide (48 ≤ n ≤ 57)%Z then scanDigits (10 * acc + (n - 48))%Z rest
      else None
  end.

Definition scanUnsigned (s : string) : option Z :=
  match s with
  | EmptyString => None
  | _ => scanDigits 0 s
  end.

End config.

(** ** cmd/server/main.go: the configuration behind the log line *)

(** The repository's [config.yml], decoded. *)
Definition configYml : config.Config :=
  {| config.App :=
       {| config.App_Name := "large-file-uploads";
          config.App_Environment := "development";
          config.App_Port := 8080; config.App_Debug := true;
          config.App_Timeout := 60 |};
     config.Storage :=
       {| config.Storage_Type := "minio";
          config.Storage_Local :=
            {| config.Local_RootDir := "./uploads";
               config.Local_TempDir := "./temp" |};
          config.Storage_S3 :=
            {| config.S3_Region := "us-east-1";
               config.S3_Bucket := "my-uploads-bucket";
               config.S3_AccessKey := ""; config.S3_SecretKey := "";
               config.S3_Endpoint := "" |};
          config.Storage_Azure :=
            {| config.Azure_AccountName := ""; config.Azure_AccountKey := "";
               config.Azure_ContainerName := "uploads" |};
          config.Storage_Minio :=
            {| config.Minio_Endpoint := "localhost:9000";
               config.Minio_AccessKey := "minioadmin";
               config.Minio_SecretKey := "minioadmin";
               config.Minio_SSL := false; config.Minio_Bucket := "uploads" |} |};
     config.Logging :=
       {| config.Logging_Level := "info"; config.Logging_Format := "json" |};
     config.CORS :=
       {| config.CORS_AllowedOrigins := ["*"];
          config.CORS_AllowedMethods := ["GET"; "POST"; "PUT"; "DELETE"; "OPTIONS"];
          config.CORS_AllowedHeaders := ["Content-Type"; "Authorization"];
          config.CORS_MaxAge := 86400 |} |}.

(** The value that an entry of the environment assigns to
    [cfg.Storage.Type], if it assigns one; and the values that the entries
    of [environ] assign, in the order of the entries. *)
Definition storageTypeOverride (ToLower : string → string) (env : string)
  : option string :=
  if String.prefix "APP_" env then
    match config.splitAtEq env with
    | Some (name, value) =>
        if decide (ToLower (config.TrimPrefix name "APP_") = "storage_type")
        then Some value else None
    | None => None
    end
  else None.

Definition storageTypeOverrides (ToLower : string → string)
  (environ : list string) : list string :=
  omap (storageTypeOverride ToLower) environ.

(** [cfg.Storage.Type] as [main] reads it: [config.Load] decodes the file
    into [fileCfg] and applies the overrides of the environment. *)
Definition main_cfgStorageType (ToLower : string → string)
  (Sscanf_d : string → option Z) (fileCfg : config.Config)
  (environ : list string) : string :=
  config.Storage_Type
    (config.Storage
       (config.applyEnvironmentOverrides ToLower Sscanf_d fileCfg environ)).

(** * Properties *)

(** [asciiLower] is one function that [strings.ToLower] may be. *)
Lemma asciiLower_spec : ToLower_spec asciiLower.
Proof. intros s _. reflexivity. Qed.

(** ** Running the monad *)

Lemma bind_Return {A B} (c : M A) (k : A → M B) w a w1 :
  c w = (Return a, w1) → bind c k w = k a w1.
Proof. intros H. unfold bind. by rewrite H. Qed.

Lemma bind_Panic {A B} (c : M A) (k : A → M B) w msg w1 :
  c w = (Panic msg, w1) → bind c k w = (Panic msg, w1).
Proof. intros H. unfold bind. by rewrite H. Qed.

Lemma setMinIO_run s f w o :
  storages w !! s = Some (ObjMinIO o) →
  setMinIO s f w = (Return tt, putStorageW s (ObjMinIO (f o)) w).
Proof.
  intros H. unfold setMinIO, getMinIO, putStorage, bind. by rewrite H.
Qed.

Lemma setAzure_run s f w o :
  storages w !! s = Some (ObjAzure o) →
  setAzure s f w = (Return tt, putStorageW s (ObjAzure (f o)) w).
Proof.
  intros H. unfold setAzure, getAzure, putStorage, bind. by rewrite H.
Qed.

Lemma storages_putStorageW s o w :
  storages (putStorageW s o w) !! s = Some o.
Proof. unfold putStorageW. cbn [storages]. apply lookup_insert_eq. Qed.

Lemma composers_putComposerW c sc w :
  composers (putComposerW c sc w) !! c = Some sc.
Proof. unfold putComposerW. cbn [composers]. apply lookup_insert_eq. Qed.

Lemma updComposer_run c f w sc :
  composers w !! c = Some sc →
  updComposer (Some c) f w = (Return tt, putComposerW c (f sc) w).
Proof. intros H. unfold updComposer. by rewrite H. Qed.

(** Bring a world built by the elementary changes into the shape of
    [afterW] or [assembledW]. *)
Ltac norm_world :=
  unfold afterW, assembledW, putStorageW, putComposerW, logW, allocW;
  cbn [composers storages nextLoc sdkLog];
  rewrite ?insert_insert_eq, <- ?app_assoc;
  cbn [app].

Tactic Notation "run_step" tactic3(tac) :=
  erewrite bind_Return by tac; cbv beta iota.

(** ** The runs of [Initialize], branch by branch *)

Lemma MinIOStorage_Initialize_run sdk s cfg o w :
  storages w !! s = Some (ObjMinIO o) →
  MinIOStorage_Initialize sdk s cfg w =
    let o1 := withConfig (s3Merge cfg) o in
    match minioURL cfg with
    | Panic msg => (Panic msg, afterW s (ObjMinIO o1) [] w)
    | Return url =>
        let client := minioClient cfg url in
        let bucket := s3Bucket (s3Merge cfg) in
        match sdk_LoadDefaultConfig sdk (sdkLog w) (minioOpts cfg url) with
        | Some msg =>
            (Return (Some (Wrapf "failed to load AWS SDK config" (SdkError msg))),
             afterW s (ObjMinIO o1) (minioCallsLoad cfg url) w)
        | None =>
            match sdk_HeadBucket sdk (sdkLog w ++ minioCallsClient cfg url)
                    client bucket with
            | None =>
                (Return None,
                 assembledW s (ObjMinIO (minioReady cfg url (nextLoc w)))
                   (minioComposer cfg url) (minioCallsHead cfg url) w)
            | Some _ =>
                match sdk_CreateBucket sdk (sdkLog w ++ minioCallsHead cfg url)
                        client bucket with
                | Some msg =>
                    (Return (Some (Wrapf "error creating bucket" (SdkError msg))),
                     afterW s (ObjMinIO (withS3Client client o1))
                       (minioCallsCreate cfg url) w)
                | None =>
                    (Return None,
                     assembledW s (ObjMinIO (minioReady cfg url (nextLoc w)))
                       (minioComposer cfg url) (minioCallsCreate cfg url) w)
                end
            end
        end
    end.
Proof.
  intros Hs. cbv zeta. unfold MinIOStorage_Initialize.
  run_step (apply setMinIO_run; exact Hs).
  fold (minioURL cfg).
  destruct (minioURL cfg) as [url|msg] eqn:Hurl.
  2:{ erewrite bind_Panic by reflexivity. norm_world.
      rewrite app_nil_r. reflexivity. }
  run_step reflexivity. run_step reflexivity.
  fold (minioOpts cfg url). norm_world.
  destruct (sdk_LoadDefaultConfig sdk (sdkLog w) (minioOpts cfg url))
    as [msg|] eqn:Hload.
  { reflexivity. }
  cbn [fmap option_fmap option_map].
  run_step reflexivity.
  run_step (apply setMinIO_run; unfold logW; cbn [storages];
                 apply storages_putStorageW).
  fold (minioClient cfg url).
  run_step reflexivity. norm_world. fold (minioCallsClient cfg url).
  destruct (sdk_HeadBucket sdk (sdkLog w ++ minioCallsClient cfg url) _ _)
    as [msg|] eqn:Hhead; cbn [fmap option_fmap option_map].
  - run_step reflexivity. norm_world. fold (minioCallsHead cfg url).
    destruct (sdk_CreateBucket sdk (sdkLog w ++ minioCallsHead cfg url) _ _)
      as [msg'|] eqn:Hcreate; cbn [fmap option_fmap option_map].
    + reflexivity.
    + run_step reflexivity.
      run_step (apply setMinIO_run; unfold allocW, putComposerW;
                     cbn [storages]; apply lookup_insert_eq).
      run_step (apply updComposer_run; unfold putStorageW, allocW;
                     cbn [composers]; apply composers_putComposerW).
      run_step (apply updComposer_run; apply composers_putComposerW).
      run_step (apply setMinIO_run; unfold putComposerW;
                     cbn [storages]; apply storages_putStorageW).
      norm_world. reflexivity.
  - run_step reflexivity.
    run_step reflexivity.
    run_step (apply setMinIO_run; unfold allocW, putComposerW;
                   cbn [storages]; apply lookup_insert_eq).
    run_step (apply updComposer_run; unfold putStorageW, allocW;
                   cbn [composers]; apply composers_putComposerW).
    run_step (apply updComposer_run; apply composers_putComposerW).
    run_step (apply setMinIO_run; unfold putComposerW;
                   cbn [storages]; apply storages_putStorageW).
    norm_world. reflexivity.
Qed.

Lemma AzureStorage_Initialize_run sdk s cfg o w :
  storages w !! s = Some (ObjAzure o) →
  AzureStorage_Initialize sdk s cfg w =
    if decide (azAccountName (azureMerge cfg) = "") then
      (Return (Some (Wrapf "azure account name is required" ErrInvalidConfig)), w)
    else if decide (azAccountKey (azureMerge cfg) = "") then
      (Return (Some (Wrapf "azure account key is required" ErrInvalidConfig)), w)
    else
      match sdk_NewAzureService sdk (sdkLog w) (azConfigOf (azureMerge cfg)) with
      | Some msg =>
          (Return (Some (Wrapf "error creating Azure service" (SdkError msg))),
           afterW s (ObjAzure (withAzConfig (azureMerge cfg) o)) (azureCalls cfg) w)
      | None =>
          (Return None,
           assembledW s (ObjAzure (azureReady cfg (nextLoc w)))
             (azureComposer cfg) (azureCalls cfg) w)
      end.
Proof.
  intros Hs. unfold AzureStorage_Initialize.
  destruct (decide (azAccountName (azureMerge cfg) = "")); [reflexivity|].
  destruct (decide (azAccountKey (azureMerge cfg) = "")); [reflexivity|].
  run_step (apply setAzure_run; exact Hs).
  run_step reflexivity. norm_world.
  destruct (sdk_NewAzureService sdk (sdkLog w) _) as [msg|] eqn:Hsvc;
    cbn [fmap option_fmap option_map].
  { reflexivity. }
  run_step reflexivity.
  run_step (apply setAzure_run; unfold allocW, putComposerW;
            cbn [storages]; apply lookup_insert_eq).
  run_step (apply updComposer_run; unfold putStorageW, allocW;
            cbn [composers]; apply composers_putComposerW).
  run_step (apply updComposer_run; apply composers_putComposerW).
  run_step (apply setAzure_run; unfold putComposerW;
            cbn [storages]; apply storages_putStorageW).
  run_step (apply setAzure_run; apply storages_putStorageW).
  norm_world. reflexivity.
Qed.

(** The validation of [AzureStorage.Initialize] comes before the first
    use of the receiver. *)
Lemma AzureStorage_Initialize_invalid sdk s cfg w :
  azAccountName (azureMerge cfg) = "" ∨ azAccountKey (azureMerge cfg) = "" →
  ∃ e, AzureStorage_Initialize sdk s cfg w = (Return (Some e), w) ∧
       errors_Is e ErrInvalidConfig = true.
Proof.
  intros H. unfold AzureStorage_Initialize.
  destruct (decide (azAccountName (azureMerge cfg) = "")) as [|Hn].
  { eexists. split; reflexivity. }
  destruct (decide (azAccountKey (azureMerge cfg) = "")) as [|Hk].
  { eexists. split; reflexivity. }
  destruct H; contradiction.
Qed.

(** ** The other methods *)

Lemma MinIOStorage_GetHandler_run sdk s basePath o w :
  storages w !! s = Some (ObjMinIO o) →
  MinIOStorage_GetHandler sdk s basePath w =
    if mInitialized o then
      let config :=
        {| tcBasePath := basePath; tcStoreComposer := mComposer o;
           tcNotifyCompleteUploads := true; tcDisableDownload := false |} in
      (match sdk_NewHandler sdk (sdkLog w) (composers w) config with
       | Some msg => Return (None, Some (Wrapf "error creating handler" (SdkError msg)))
       | None => Return (Some {| hConfig := config |}, None)
       end, logW (CallNewHandler config) w)
    else (Return (None, Some ErrStorageNotConfigured), w).
Proof.
  intros Hs. unfold MinIOStorage_GetHandler, getMinIO, bind. rewrite Hs.
  destruct (mInitialized o); cbn [negb]; [|reflexivity].
  unfold sdkCall. destruct (sdk_NewHandler _ _ _ _); reflexivity.
Qed.

Lemma AzureStorage_GetHandler_run sdk s basePath o w :
  storages w !! s = Some (ObjAzure o) →
  AzureStorage_GetHandler sdk s basePath w =
    if aInitialized o then
      let config :=
        {| tcBasePath := basePath; tcStoreComposer := aComposer o;
           tcNotifyCompleteUploads := true; tcDisableDownload := false |} in
      (match sdk_NewHandler sdk (sdkLog w) (composers w) config with
       | Some msg => Return (None, Some (Wrapf "error creating handler" (SdkError msg)))
       | None => Return (Some {| hConfig := config |}, None)
       end, logW (CallNewHandler config) w)
    else (Return (None, Some ErrStorageNotConfigured), w).
Proof.
  intros Hs. unfold AzureStorage_GetHandler, getAzure, bind. rewrite Hs.
  destruct (aInitialized o); cbn [negb]; [|reflexivity].
  unfold sdkCall. destruct (sdk_NewHandler _ _ _ _); reflexivity.
Qed.

Lemma Storage_GetStoreComposer_run s c w :
  composerAt s w = Some c →
  Storage_GetStoreComposer (Some s) w = (Return c, w).
Proof.
  unfold composerAt, Storage_GetStoreComposer, dispatch.
  destruct (storages w !! s) as [[o|o]|] eqn:Hs; intros [= <-].
  - unfold MinIOStorage_GetStoreComposer, getMinIO, bind. by rewrite Hs.
  - unfold AzureStorage_GetStoreComposer, getAzure, bind. by rewrite Hs.
Qed.

Lemma Storage_GetHandler_uninitialized sdk s basePath w :
  initializedAt s w = Some false →
  Storage_GetHandler sdk (Some s) basePath w
  = (Return (None, Some ErrStorageNotConfigured), w).
Proof.
  unfold initializedAt, Storage_GetHandler, dispatch.
  destruct (storages w !! s) as [[o|o]|] eqn:Hs; intros [= Hi].
  - rewrite (MinIOStorage_GetHandler_run _ _ _ _ _ Hs), Hi. reflexivity.
  - rewrite (AzureStorage_GetHandler_run _ _ _ _ _ Hs), Hi. reflexivity.
Qed.

(** ** Dispatch through the interface *)

Lemma dispatch_MinIO {A} s o (f g : loc → M A) w :
  storages w !! s = Some (ObjMinIO o) → dispatch (Some s) f g w = f s w.
Proof. intros H. unfold dispatch. by rewrite H. Qed.

Lemma dispatch_Azure {A} s o (f g : loc → M A) w :
  storages w !! s = Some (ObjAzure o) → dispatch (Some s) f g w = g s w.
Proof. intros H. unfold dispatch. by rewrite H. Qed.

(** ** What a call leaves unchanged *)

Lemma sameBackend_refl s w : sameBackend s w w.
Proof. by repeat split. Qed.

Lemma sameBackend_trans s w w1 w2 :
  sameBackend s w w1 → sameBackend s w1 w2 → sameBackend s w w2.
Proof.
  intros (H1 & H2 & H3 & H4) (G1 & G2 & G3 & G4).
  repeat split; congruence.
Qed.

Lemma sameBackend_logW s call w : sameBackend s w (logW call w).
Proof. by repeat split. Qed.

Lemma sameBackend_afterW_MinIO s o o1 calls w :
  storages w !! s = Some (ObjMinIO o) →
  mInitialized o1 = mInitialized o → mComposer o1 = mComposer o →
  sameBackend s w (afterW s (ObjMinIO o1) calls w).
Proof.
  intros Hs Hi Hc. unfold sameBackend, initializedAt, composerAt, afterW.
  cbn [storages composers nextLoc]. rewrite lookup_insert_eq, Hs, Hi, Hc.
  by repeat split.
Qed.

Lemma sameBackend_afterW_Azure s o o1 calls w :
  storages w !! s = Some (ObjAzure o) →
  aInitialized o1 = aInitialized o → aComposer o1 = aComposer o →
  sameBackend s w (afterW s (ObjAzure o1) calls w).
Proof.
  intros Hs Hi Hc. unfold sameBackend, initializedAt, composerAt, afterW.
  cbn [storages composers nextLoc]. rewrite lookup_insert_eq, Hs, Hi, Hc.
  by repeat split.
Qed.

Lemma Storage_Initialize_error_same sdk s cfg w e w1 :
  Storage_Initialize sdk (Some s) cfg w = (Return (Some e), w1) →
  sameBackend s w w1.
Proof.
  unfold Storage_Initialize, dispatch.
  destruct (storages w !! s) as [[o|o]|] eqn:Hs; [| |discriminate].
  - rewrite (MinIOStorage_Initialize_run sdk s cfg o w Hs). cbv zeta.
    destruct (minioURL cfg) as [url|msg]; [|discriminate].
    destruct (sdk_LoadDefaultConfig _ _ _).
    { intros [= <- <-]. by apply sameBackend_afterW_MinIO with o. }
    destruct (sdk_HeadBucket _ _ _ _); [|discriminate].
    destruct (sdk_CreateBucket _ _ _ _); [|discriminate].
    intros [= <- <-]. by apply sameBackend_afterW_MinIO with o.
  - rewrite (AzureStorage_Initialize_run sdk s cfg o w Hs).
    destruct (decide _). { intros [= <- <-]. apply sameBackend_refl. }
    destruct (decide _). { intros [= <- <-]. apply sameBackend_refl. }
    destruct (sdk_NewAzureService _ _ _); [|discriminate].
    intros [= <- <-]. by apply sameBackend_afterW_Azure with o.
Qed.

Lemma Storage_GetHandler_same sdk s basePath w r w1 :
  Storage_GetHandler sdk (Some s) basePath w = (r, w1) → sameBackend s w w1.
Proof.
  unfold Storage_GetHandler, dispatch.
  destruct (storages w !! s) as [[o|o]|] eqn:Hs.
  - rewrite (MinIOStorage_GetHandler_run _ _ _ _ _ Hs).
    destruct (mInitialized o); intros [= <- <-];
      [apply sameBackend_logW | apply sameBackend_refl].
  - rewrite (AzureStorage_GetHandler_run _ _ _ _ _ Hs).
    destruct (aInitialized o); intros [= <- <-];
      [apply sameBackend_logW | apply sameBackend_refl].
  - intros [= <- <-]. apply sameBackend_refl.
Qed.

Lemma Storage_GetProvider_world s w r w1 :
  Storage_GetProvider (Some s) w = (r, w1) → w1 = w.
Proof.
  unfold Storage_GetProvider, dispatch.
  destruct (storages w !! s) as [[o|o]|]; by intros [= <- <-].
Qed.

Lemma Storage_GetStoreComposer_world s w r w1 :
  Storage_GetStoreComposer (Some s) w = (r, w1) → w1 = w.
Proof.
  unfold Storage_GetStoreComposer, dispatch.
  destruct (storages w !! s) as [[o|o]|] eqn:Hs.
  - unfold MinIOStorage_GetStoreComposer, getMinIO, bind. rewrite Hs.
    by intros [= <- <-].
  - unfold AzureStorage_GetStoreComposer, getAzure, bind. rewrite Hs.
    by intros [= <- <-].
  - by intros [= <- <-].
Qed.

(** ** Sequences of calls *)

Lemma bind_ret_inv {A B} (c : M A) (f : A → B) w r w1 :
  bind c (fun a => ret (f a)) w = (Return r, w1) →
  ∃ a, c w = (Return a, w1) ∧ r = f a.
Proof.
  unfold bind, ret. destruct (c w) as [[a|msg] w2]; [|discriminate].
  intros [= <- <-]. eauto.
Qed.

Lemma runOps_cons_inv sdk st op ops w rs w2 :
  runOps sdk st (op :: ops) w = (Return rs, w2) →
  ∃ r rs' w1, rs = r :: rs' ∧ runOp sdk st op w = (Return r, w1) ∧
              runOps sdk st ops w1 = (Return rs', w2).
Proof.
  cbn [runOps]. unfold bind at 1.
  destruct (runOp sdk st op w) as [[r|msg] w1]; [|discriminate].
  intros H. apply bind_ret_inv in H as (rs' & H & ->). eauto 6.
Qed.

Lemma Storage_Initialize_success sdk s cfg w w1 :
  Storage_Initialize sdk (Some s) cfg w = (Return None, w1) →
  initializedAt s w1 = Some true ∧
  composerAt s w1 = Some (Some (nextLoc w)) ∧
  nextLoc w1 = S (nextLoc w) ∧
  ∃ store, composers w1 !! nextLoc w
           = Some {| scCore := Some store; scLocker := Some MemoryLocker |}.
Proof.
  unfold Storage_Initialize, dispatch.
  destruct (storages w !! s) as [[o|o]|] eqn:Hs; [| |discriminate].
  - rewrite (MinIOStorage_Initialize_run sdk s cfg o w Hs). cbv zeta.
    destruct (minioURL cfg) as [url|msg]; [|discriminate].
    destruct (sdk_LoadDefaultConfig _ _ _); [discriminate|].
    assert (∀ calls,
      let w1 := assembledW s (ObjMinIO (minioReady cfg url (nextLoc w)))
                  (minioComposer cfg url) calls w in
      initializedAt s w1 = Some true ∧
      composerAt s w1 = Some (Some (nextLoc w)) ∧
      nextLoc w1 = S (nextLoc w) ∧
      ∃ store, composers w1 !! nextLoc w
               = Some {| scCore := Some store; scLocker := Some MemoryLocker |})
      as Hdone.
    { intros calls. unfold initializedAt, composerAt, assembledW.
      cbn [storages composers nextLoc]. rewrite !lookup_insert_eq.
      repeat split. eexists. reflexivity. }
    destruct (sdk_HeadBucket _ _ _ _).
    + destruct (sdk_CreateBucket _ _ _ _); [discriminate|].
      intros [= <-]. apply Hdone.
    + intros [= <-]. apply Hdone.
  - rewrite (AzureStorage_Initialize_run sdk s cfg o w Hs).
    destruct (decide _); [discriminate|]. destruct (decide _); [discriminate|].
    destruct (sdk_NewAzureService _ _ _); [discriminate|].
    intros [= <-]. unfold initializedAt, composerAt, assembledW.
    cbn [storages composers nextLoc]. rewrite !lookup_insert_eq.
    repeat split. eexists. reflexivity.
Qed.

Lemma runOp_no_success sdk s op w r w1 :
  runOp sdk (Some s) op w = (Return r, w1) →
  isInitSuccess r = false →
  sameBackend s w w1.
Proof.
  destruct op as [cfg|basePath| |]; cbn [runOp]; intros H Hr;
    apply bind_ret_inv in H as (a & H & ->).
  - destruct a as [e|]; [|discriminate Hr].
    by apply Storage_Initialize_error_same in H.
  - by apply Storage_GetHandler_same in H.
  - apply Storage_GetProvider_world in H as ->. apply sameBackend_refl.
  - apply Storage_GetStoreComposer_world in H as ->. apply sameBackend_refl.
Qed.

Lemma runOps_no_success sdk s ops : ∀ w rs w1,
  runOps sdk (Some s) ops w = (Return rs, w1) →
  existsb isInitSuccess rs = false →
  sameBackend s w w1.
Proof.
  induction ops as [|op ops IH]; intros w rs w2 Hrun Hrs.
  - injection Hrun as <- <-. apply sameBackend_refl.
  - apply runOps_cons_inv in Hrun as (r & rs' & w1 & -> & Hop & Hrest).
    cbn [existsb] in Hrs. apply orb_false_iff in Hrs as [Hr Hrs].
    eapply sameBackend_trans.
    + eapply runOp_no_success; eassumption.
    + eapply IH; eassumption.
Qed.

Lemma runOp_uninitialized sdk s op w r w1 :
  initializedAt s w = Some false →
  runOp sdk (Some s) op w = (Return r, w1) →
  isNotConfigured r = true.
Proof.
  intros Hi. destruct op as [cfg|basePath| |]; cbn [runOp]; intros H;
    apply bind_ret_inv in H as (a & H & ->); try reflexivity.
  rewrite (Storage_GetHandler_uninitialized _ _ _ _ Hi) in H.
  by injection H as <- <-.
Qed.

Lemma runOps_uninitialized sdk s ops : ∀ w rs w1,
  initializedAt s w = Some false →
  runOps sdk (Some s) ops w = (Return rs, w1) →
  existsb isInitSuccess rs = false →
  forallb isNotConfigured rs = true.
Proof.
  induction ops as [|op ops IH]; intros w rs w2 Hi Hrun Hrs.
  - by injection Hrun as <- <-.
  - apply runOps_cons_inv in Hrun as (r & rs' & w1 & -> & Hop & Hrest).
    cbn [existsb] in Hrs. apply orb_false_iff in Hrs as [Hr Hrs].
    cbn [forallb]. apply andb_true_iff. split.
    + eapply runOp_uninitialized; eassumption.
    + eapply IH; [|eassumption|assumption].
      destruct (runOp_no_success _ _ _ _ _ _ Hop Hr) as (-> & _). exact Hi.
Qed.

(** The flag after a sequence of calls: set exactly when it was set before
    or some [Initialize] of the sequence returned nil. *)
Lemma runOps_initializedAt sdk s ops : ∀ w rs w1 b,
  initializedAt s w = Some b →
  runOps sdk (Some s) ops w = (Return rs, w1) →
  initializedAt s w1 = Some (b || existsb isInitSuccess rs).
Proof.
  induction ops as [|op ops IH]; intros w rs w2 b Hi Hrun.
  - injection Hrun as <- <-. by rewrite orb_false_r.
  - apply runOps_cons_inv in Hrun as (r & rs' & w1 & -> & Hop & Hrest).
    cbn [existsb]. rewrite orb_assoc.
    apply (IH w1); [|exact Hrest].
    destruct (isInitSuccess r) eqn:Hr.
    + rewrite orb_true_r.
      destruct op as [cfg|basePath| |]; cbn [runOp] in Hop;
        apply bind_ret_inv in Hop as (a & Hop & ->); try discriminate Hr.
      destruct a; [discriminate Hr|].
      by apply Storage_Initialize_success in Hop as (? & _).
    + rewrite orb_false_r.
      destruct (runOp_no_success _ _ _ _ _ _ Hop Hr) as (-> & _). exact Hi.
Qed.

(** ** The factory and the registry *)

Lemma NewFactory_run w :
  NewFactory w = (Return (factoryAt (nextLoc w)), wFactory w).
Proof. reflexivity. Qed.

Lemma wFactory_minio w :
  storages (wFactory w) !! S (nextLoc w)
  = Some (ObjMinIO (freshMinIO (nextLoc w))).
Proof.
  unfold wFactory. cbn [storages].
  rewrite lookup_insert_ne by lia. apply lookup_insert_eq.
Qed.

Lemma wFactory_azure w :
  storages (wFactory w) !! S (S (S (nextLoc w)))
  = Some (ObjAzure (freshAzure (S (S (nextLoc w))))).
Proof. unfold wFactory. cbn [storages]. apply lookup_insert_eq. Qed.

Lemma getEnv_unset env key dflt : env !! key = None → getEnv env key dflt = dflt.
Proof. intros H. unfold getEnv, os_Getenv. rewrite H. reflexivity. Qed.

Lemma getEnvBool_unset ToLower env key dflt :
  env !! key = None → getEnvBool ToLower env key dflt = dflt.
Proof. intros H. unfold getEnvBool, os_Getenv. rewrite H. reflexivity. Qed.

Lemma envConfig_provider_unset ToLower env :
  ToLower_spec ToLower →
  env !! "STORAGE_TYPE" = None →
  ∃ props, envConfig ToLower env
           = inl {| cfgProvider := MinIO; Properties := Some props |}.
Proof.
  intros Hlow Hunset. unfold envConfig, os_Getenv. rewrite Hunset.
  cbn [default]. cbv zeta. rewrite (decide_True (P := "" = "")) by reflexivity.
  rewrite (Hlow MinIO) by reflexivity.
  change (asciiLower MinIO) with MinIO.
  rewrite decide_True by reflexivity. eauto.
Qed.

Lemma envConfig_defaults ToLower env :
  ToLower_spec ToLower →
  env !! "STORAGE_TYPE" = None →
  env !! "MINIO_ENDPOINT" = None →
  env !! "MINIO_BUCKET" = None →
  env !! "MINIO_REGION" = None →
  env !! "MINIO_ACCESS_KEY" = None →
  env !! "MINIO_SECRET_KEY" = None →
  env !! "MINIO_USE_SSL" = None →
  envConfig ToLower env = inl envDefaultConfig.
Proof.
  intros Hlow Hunset He Hb Hr Ha Hs Hu. unfold envConfig, os_Getenv.
  rewrite Hunset. cbn [default]. cbv zeta.
  rewrite (decide_True (P := "" = "")) by reflexivity.
  rewrite (Hlow MinIO) by reflexivity.
  change (asciiLower MinIO) with MinIO.
  rewrite decide_True by reflexivity.
  rewrite !getEnv_unset, !getEnvBool_unset by assumption.
  reflexivity.
Qed.

(** C1, as the code has it.  In every environment that leaves
    [STORAGE_TYPE] unset, [CreateFromEnv] builds a [Config] for the
    provider ["minio"] and, on the registry of [NewFactory], runs
    [MinIOStorage.Initialize] on the registered S3-compatible backend.
    When no [MINIO_*] variable is set either, the [Properties] of that
    [Config] are the six defaults of the table (endpoint, bucket, region,
    accessKey, secretKey, useSSL) together with [pathStyle = true] and
    [disableSSL = true], and nothing else. *)
Theorem CreateFromEnv_unset_defaults ToLower sdk env w :
  ToLower_spec ToLower →
  env !! "STORAGE_TYPE" = None →
  let f := factoryAt (nextLoc w) in
  let minio := S (nextLoc w) in
  NewFactory w = (Return f, wFactory w) ∧
  (∃ cfg, envConfig ToLower env = inl cfg ∧ cfgProvider cfg = MinIO ∧
     Registry_Get (registry f) (cfgProvider cfg) = (Some minio, None) ∧
     storages (wFactory w) !! minio = Some (ObjMinIO (freshMinIO (nextLoc w))) ∧
     Factory_CreateFromEnv sdk ToLower f env (wFactory w)
     = (let! err := MinIOStorage_Initialize sdk minio cfg in
        match err with
        | Some e => ret (None, Some (Wrapf "failed to initialize storage" e))
        | None => ret (Some minio, None)
        end) (wFactory w)) ∧
  ((∀ key, String.prefix "MINIO_" key = true → env !! key = None) →
   envConfig ToLower env = inl envDefaultConfig ∧
   ∀ key, envDefaultProperties !! key =
     if decide (key = "pathStyle") then Some (VBool true)
     else if decide (key = "disableSSL") then Some (VBool true)
     else tableDefaultProperties !! key).
Proof.
  intros Hlow Hunset f minio. split; [apply NewFactory_run|]. split.
  - destruct (envConfig_provider_unset ToLower env Hlow Hunset) as [props Hcfg].
    eexists. split; [exact Hcfg|]. split; [reflexivity|].
    split; [reflexivity|]. split; [apply wFactory_minio|].
    unfold Factory_CreateFromEnv. rewrite Hcfg.
    unfold Registry_NewStorageFromConfig.
    change (Registry_Get (registry f) _) with (Some minio, @None error).
    cbv iota beta. unfold bind, Storage_Initialize.
    erewrite dispatch_MinIO by apply wFactory_minio. reflexivity.
  - intros Hminio. split.
    + apply envConfig_defaults; try assumption; apply Hminio; reflexivity.
    + intros key. unfold envDefaultProperties, tableDefaultProperties.
      destruct (decide (key = "pathStyle")) as [->|Hp]; [reflexivity|].
      destruct (decide (key = "disableSSL")) as [->|Hd]; [reflexivity|].
      rewrite !(lookup_insert_ne _ "disableSSL"), !(lookup_insert_ne _ "pathStyle")
        by congruence.
      reflexivity.
Qed.

Lemma CreateFromEnv_unset_defaults_witness :
  (∅ : gmap string string) !! "STORAGE_TYPE" = None ∧
  envConfig asciiLower ∅ = inl envDefaultConfig.
Proof.
  split; [reflexivity|].
  apply (CreateFromEnv_unset_defaults asciiLower sdkAllOk ∅ emptyWorld
           asciiLower_spec (lookup_empty "STORAGE_TYPE")).
  intros key _. apply lookup_empty.
Defined.

(** C1 as stated fails: in the empty environment the [Properties] built by
    [CreateFromEnv] are not the six entries of the table, since they also
    hold [pathStyle] and [disableSSL]. *)
Lemma CreateFromEnv_table_only_counterexample :
  (∅ : gmap string string) !! "STORAGE_TYPE" = None ∧
  (∀ key, String.prefix "MINIO_" key = true →
          (∅ : gmap string string) !! key = None) ∧
  ¬ (∃ cfg, envConfig asciiLower ∅ = inl cfg ∧
            Properties cfg = Some tableDefaultProperties).
Proof.
  split; [reflexivity|]. split; [intros key _; apply lookup_empty|].
  intros (cfg & Hcfg & Hprops).
  change (envConfig asciiLower ∅) with (@inl Config error envDefaultConfig) in Hcfg.
  assert (Hc : envDefaultConfig = cfg) by congruence. subst cfg.
  apply (f_equal (fun m : option (gmap string value) =>
                    match m with Some m => m !! "pathStyle" | None => None end))
    in Hprops.
  vm_compute in Hprops. discriminate Hprops.
Qed.

(** ** Verification of the bucket or container *)




(** ** Validation in the Azure backend *)

(** The merged field is empty exactly when the properties hold no
    non-empty string under the key. *)
Lemma overrideString_empty v :
  overrideString v "" = "" ↔ ∀ s, v = Some (VString s) → s = "".
Proof.
  unfold overrideString, assertString. split.
  - intros H s ->. destruct (decide (s = "")); [assumption|exact H].
  - intros H. destruct v as [[s| | | |]|]; try reflexivity.
    destruct (decide (s = "")); [reflexivity|]. by apply H.
Qed.

Lemma azureMerge_account_empty cfg :
  (azAccountName (azureMerge cfg) = "" ↔
   ∀ v, prop cfg "accountName" = Some (VString v) → v = "") ∧
  (azAccountKey (azureMerge cfg) = "" ↔
   ∀ v, prop cfg "accountKey" = Some (VString v) → v = "").
Proof. split; apply overrideString_empty. Qed.

(** C3.  When the account name or the account key is empty after the
    overlay of [cfg.Properties] on the Azure defaults, whatever else the
    properties hold, [AzureStorage.Initialize] returns an error that wraps
    [ErrInvalidConfig], through the interface as well, and leaves the world
    as it was: the backend keeps its [initialized] flag and no library is
    called. *)
Theorem AzureStorage_Initialize_requires_account sdk s cfg o w :
  storages w !! s = Some (ObjAzure o) →
  azAccountName (azureMerge cfg) = "" ∨ azAccountKey (azureMerge cfg) = "" →
  ∃ e, AzureStorage_Initialize sdk s cfg w = (Return (Some e), w) ∧
       Storage_Initialize sdk (Some s) cfg w = (Return (Some e), w) ∧
       errors_Is e ErrInvalidConfig = true ∧
       initializedAt s w = Some (aInitialized o).
Proof.
  intros Hs Hempty.
  destruct (AzureStorage_Initialize_invalid sdk s cfg w Hempty) as (e & Hrun & He).
  exists e. split; [exact Hrun|]. split; [|split; [exact He|]].
  - unfold Storage_Initialize. by erewrite dispatch_Azure by exact Hs.
  - unfold initializedAt. by rewrite Hs.
Qed.

Lemma AzureStorage_Initialize_requires_account_witness :
  let w := wFactory emptyWorld in
  storages w !! 3 = Some (ObjAzure (freshAzure 2)) ∧
  azAccountKey (azureMerge azureNoKeyConfig) = "" ∧
  ∃ e, AzureStorage_Initialize sdkAllOk 3 azureNoKeyConfig w = (Return (Some e), w) ∧
       errors_Is e ErrInvalidConfig = true.
Proof.
  cbv zeta.
  assert (Hs : storages (wFactory emptyWorld) !! 3 = Some (ObjAzure (freshAzure 2)))
    by reflexivity.
  assert (Hk : azAccountKey (azureMerge azureNoKeyConfig) = "") by reflexivity.
  split; [exact Hs|]. split; [exact Hk|].
  destruct (AzureStorage_Initialize_requires_account sdkAllOk 3 azureNoKeyConfig
              (freshAzure 2) (wFactory emptyWorld) Hs (or_intror Hk))
    as (e & Hrun & _ & He & _).
  exists e. split; assumption.
Defined.

(** ** The registry of [NewFactory] *)

(** C4.  In the registry built by [NewFactory], [Get] finds under
    ["minio"] and under ["azure"] a non-nil [Storage], pointing to a
    [MinIOStorage] and to an [AzureStorage], and returns no error; under
    every other identifier, ["disk"] and ["memory"] among them, it returns
    nil and the not-found error. *)
Theorem Registry_Get_NewFactory w :
  let f := factoryAt (nextLoc w) in
  let w1 := wFactory w in
  NewFactory w = (Return f, w1) ∧
  (∃ s o, Registry_Get (registry f) MinIO = (Some s, None) ∧
          storages w1 !! s = Some (ObjMinIO o)) ∧
  (∃ s o, Registry_Get (registry f) Azure = (Some s, None) ∧
          storages w1 !! s = Some (ObjAzure o)) ∧
  (∀ provider, provider ≠ MinIO → provider ≠ Azure →
     Registry_Get (registry f) provider
     = (None, Some (Errorf ("storage provider " +:+ provider +:+ " not found")))) ∧
  Registry_Get (registry f) Disk
  = (None, Some (Errorf "storage provider disk not found")) ∧
  Registry_Get (registry f) Memory
  = (None, Some (Errorf "storage provider memory not found")).
Proof.
  cbv zeta. split; [apply NewFactory_run|].
  assert (Hother : ∀ provider, provider ≠ MinIO → provider ≠ Azure →
     Registry_Get (registry (factoryAt (nextLoc w))) provider
     = (None, Some (Errorf ("storage provider " +:+ provider +:+ " not found")))).
  { intros provider Hm Ha. unfold Registry_Get, factoryAt.
    cbn [registry providers].
    rewrite lookup_insert_ne by congruence.
    rewrite lookup_insert_ne by congruence.
    rewrite lookup_empty. reflexivity. }
  split; [|split; [|split; [exact Hother|split]]].
  - exists (S (nextLoc w)), (freshMinIO (nextLoc w)).
    split; [reflexivity|apply wFactory_minio].
  - exists (S (S (S (nextLoc w)))), (freshAzure (S (S (nextLoc w)))).
    split; [reflexivity|apply wFactory_azure].
  - apply (Hother Disk); discriminate.
  - apply (Hother Memory); discriminate.
Qed.

Lemma Registry_Get_NewFactory_witness :
  "s3" ≠ MinIO ∧ "s3" ≠ Azure ∧
  Registry_Get (registry (factoryAt 0)) "s3"
  = (None, Some (Errorf "storage provider s3 not found")).
Proof.
  split; [discriminate|]. split; [discriminate|].
  apply (Registry_Get_NewFactory emptyWorld); discriminate.
Defined.

(** ** [GetHandler] before [Initialize] *)

Lemma NewMinIOStorage_run w :
  NewMinIOStorage w
  = (Return (S (nextLoc w)),
     allocW (putStorageW (S (nextLoc w)) (ObjMinIO (freshMinIO (nextLoc w)))
               (allocW (putComposerW (nextLoc w) emptyComposer w)))).
Proof. reflexivity. Qed.

Lemma NewAzureStorage_run w :
  NewAzureStorage w
  = (Return (S (nextLoc w)),
     allocW (putStorageW (S (nextLoc w)) (ObjAzure (freshAzure (nextLoc w)))
               (allocW (putComposerW (nextLoc w) emptyComposer w)))).
Proof. reflexivity. Qed.

(** A backend just constructed: not initialized, and holding a pointer to
    an empty composer. *)
Lemma constructor_fresh (mk : M loc) w s w0 :
  mk = NewMinIOStorage ∨ mk = NewAzureStorage →
  mk w = (Return s, w0) →
  initializedAt s w0 = Some false ∧
  composerAt s w0 = Some (Some (nextLoc w)) ∧
  composers w0 !! nextLoc w = Some emptyComposer.
Proof.
  intros [-> | ->].
  - rewrite NewMinIOStorage_run. intros [= <- <-].
    unfold initializedAt, composerAt, allocW, putStorageW, putComposerW.
    cbn [storages composers nextLoc]. rewrite !lookup_insert_eq. done.
  - rewrite NewAzureStorage_run. intros [= <- <-].
    unfold initializedAt, composerAt, allocW, putStorageW, putComposerW.
    cbn [storages composers nextLoc]. rewrite !lookup_insert_eq. done.
Qed.

(** C5.  On either backend, [GetHandler] returns a nil handler and
    [ErrStorageNotConfigured], for every base path, whenever the
    [initialized] flag is unset; and the flag is unset on a backend made by
    [NewMinIOStorage] or [NewAzureStorage], then and after any sequence
    of method calls in which no [Initialize] returned nil. *)
Theorem GetHandler_before_Initialize sdk basePath w :
  (∀ s o, storages w !! s = Some (ObjMinIO o) → mInitialized o = false →
     MinIOStorage_GetHandler sdk s basePath w
     = (Return (None, Some ErrStorageNotConfigured), w)) ∧
  (∀ s o, storages w !! s = Some (ObjAzure o) → aInitialized o = false →
     AzureStorage_GetHandler sdk s basePath w
     = (Return (None, Some ErrStorageNotConfigured), w)) ∧
  (∀ (mk : M loc) s w0 ops rs w1,
     mk = NewMinIOStorage ∨ mk = NewAzureStorage →
     mk w = (Return s, w0) →
     runOps sdk (Some s) ops w0 = (Return rs, w1) →
     existsb isInitSuccess rs = false →
     Storage_GetHandler sdk (Some s) basePath w1
     = (Return (None, Some ErrStorageNotConfigured), w1)).
Proof.
  split; [|split].
  - intros s o Hs Hi.
    by rewrite (MinIOStorage_GetHandler_run _ _ _ _ _ Hs), Hi.
  - intros s o Hs Hi.
    by rewrite (AzureStorage_GetHandler_run _ _ _ _ _ Hs), Hi.
  - intros mk s w0 ops rs w1 Hmk Hnew Hrun Hrs.
    apply Storage_GetHandler_uninitialized.
    destruct (constructor_fresh mk w s w0 Hmk Hnew) as (Hi & _).
    destruct (runOps_no_success _ _ _ _ _ _ Hrun Hrs) as (-> & _). exact Hi.
Qed.

Lemma GetHandler_before_Initialize_witness :
  let w := wFactory emptyWorld in
  storages w !! 1 = Some (ObjMinIO (freshMinIO 0)) ∧
  mInitialized (freshMinIO 0) = false ∧
  MinIOStorage_GetHandler sdkAllOk 1 "/files/" w
  = (Return (None, Some ErrStorageNotConfigured), w).
Proof.
  cbv zeta.
  assert (Hs : storages (wFactory emptyWorld) !! 1 = Some (ObjMinIO (freshMinIO 0)))
    by reflexivity.
  split; [exact Hs|]. split; [reflexivity|].
  exact (proj1 (GetHandler_before_Initialize sdkAllOk "/files/" (wFactory emptyWorld))
           1 (freshMinIO 0) Hs eq_refl).
Defined.

(** ** Mistyped properties *)

Lemma prop_without_eq key cfg : prop (without key cfg) key = None.
Proof.
  unfold prop, without. cbn [Properties].
  destruct (Properties cfg); cbn [fmap option_fmap option_map]; [|reflexivity].
  apply lookup_delete_eq.
Qed.

Lemma prop_without_ne key key' cfg :
  key ≠ key' → prop (without key cfg) key' = prop cfg key'.
Proof.
  intros Hne. unfold prop, without. cbn [Properties].
  destruct (Properties cfg); cbn [fmap option_fmap option_map]; [|reflexivity].
  by apply lookup_delete_ne.
Qed.

Lemma overrideString_mistyped v dflt :
  kindOf v ≠ Some KString → overrideString (Some v) dflt = dflt.
Proof. destruct v; try reflexivity. intros H. by destruct H. Qed.

Lemma overrideBool_mistyped v dflt :
  kindOf v ≠ Some KBool → overrideBool (Some v) dflt = dflt.
Proof. destruct v; try reflexivity. intros H. by destruct H. Qed.

Lemma minioKeyKind_cases key k :
  minioKeyKind key = Some k →
  (k = KString ∧ key ∈ ["endpoint"; "bucket"; "region"; "accessKey"; "secretKey"]) ∨
  (k = KBool ∧ key ∈ ["useSSL"; "pathStyle"; "disableSSL"]).
Proof.
  unfold minioKeyKind. repeat case_bool_decide; intros [= <-]; auto.
Qed.

Lemma azureKeyKind_cases key k :
  azureKeyKind key = Some k →
  k = KString ∧
  key ∈ ["accountName"; "accountKey"; "containerName";
         "endpoint"; "blobAccessTier"; "containerAccessType"].
Proof.
  unfold azureKeyKind. repeat case_bool_decide; intros [= <-]; auto.
Qed.

Ltac mistyped_field Hprop Hkind :=
  rewrite ?prop_without_eq, ?Hprop;
  rewrite ?overrideString_mistyped, ?overrideBool_mistyped by exact Hkind;
  rewrite ?prop_without_ne by discriminate;
  reflexivity.

Lemma s3Merge_mistyped cfg key v k :
  prop cfg key = Some v → minioKeyKind key = Some k → kindOf v ≠ Some k →
  s3Merge (without key cfg) = s3Merge cfg ∧
  s3Field key (s3Merge cfg) = s3Field key s3Defaults.
Proof.
  intros Hprop Hkey Hkind.
  apply minioKeyKind_cases in Hkey as [[-> Hin]|[-> Hin]];
    repeat (apply elem_of_cons in Hin as [->|Hin]);
    try (by apply elem_of_nil in Hin);
    (split; [unfold s3Merge; f_equal; mistyped_field Hprop Hkind
            |unfold s3Field, s3Merge; cbn; mistyped_field Hprop Hkind]).
Qed.

Lemma azureMerge_mistyped cfg key v k :
  prop cfg key = Some v → azureKeyKind key = Some k → kindOf v ≠ Some k →
  azureMerge (without key cfg) = azureMerge cfg ∧
  azureField key (azureMerge cfg) = azureField key azureDefaults.
Proof.
  intros Hprop Hkey Hkind.
  apply azureKeyKind_cases in Hkey as [-> Hin];
    repeat (apply elem_of_cons in Hin as [->|Hin]);
    try (by apply elem_of_nil in Hin);
    (split; [unfold azureMerge; f_equal; mistyped_field Hprop Hkind
            |unfold azureField, azureMerge; cbn; mistyped_field Hprop Hkind]).
Qed.

(** C6.  When a key that a backend recognises holds a value of another
    dynamic type than the backend asserts, [Initialize] ignores the entry
    and uses the default of that field, for [MinIOStorage] and for
    [AzureStorage]: the field parsed from that key is the default, the
    parsed configuration is the one of the properties without that entry,
    and [Initialize] runs exactly as it does without that entry, with the
    same result and the same world.  The configuration with the default in
    that field is the one [Initialize] goes on with.
    [MinIOStorage.Initialize] stores it in the backend however the run
    ends; when the URL can be formed, its first library call is
    [LoadDefaultConfig] with the region, the credentials and the URL of
    that configuration, every later call is made with them and on its
    bucket, the store of a successful run is bound to its bucket, and an
    error can only be one of a library.  [AzureStorage.Initialize], past
    its check of account name and key, stores the configuration and hands
    its six fields to [azurestore.NewAzureService], its only library call;
    when the account name or the key ends up empty, as it does when the
    mistyped entry is one of these two, the result is the error for a
    missing field, as it is without the entry. *)
Theorem Initialize_ignores_mistyped sdk s cfg key v w :
  prop cfg key = Some v →
  (∀ k, minioKeyKind key = Some k → kindOf v ≠ Some k →
     let c := s3Merge cfg in
     let run := MinIOStorage_Initialize sdk s cfg w in
     s3Field key c = s3Field key s3Defaults ∧
     c = s3Merge (without key cfg) ∧
     run = MinIOStorage_Initialize sdk s (without key cfg) w ∧
     ∀ o, storages w !! s = Some (ObjMinIO o) →
       s3ConfigAt s (snd run) = Some c ∧
       ∀ url,
         minioURLOf (if s3UseSSL c then "https" else "http") (s3Endpoint c)
         = Return url →
         let opts :=
           {| loRegion := s3Region c; loEndpointURL := url;
              loAccessKey := s3AccessKey c; loSecretKey := s3SecretKey c |} in
         let client := {| clConfig := opts; clUsePathStyle := true |} in
         ∃ r rest,
           fst run = Return r ∧
           sdkLog (snd run) = sdkLog w ++ CallLoadDefaultConfig opts :: rest ∧
           rest `prefix_of` [CallS3NewFromConfig opts true;
                             CallHeadBucket client (s3Bucket c);
                             CallCreateBucket client (s3Bucket c)] ∧
           (∀ e, r = Some e → ∃ context msg, e = Wrapf context (SdkError msg)) ∧
           (r = None →
            ∃ a, composerAt s (snd run) = Some (Some a) ∧
                 composers (snd run) !! a
                 = Some {| scCore := Some (S3Store (s3Bucket c) client);
                           scLocker := Some MemoryLocker |})) ∧
  (∀ k, azureKeyKind key = Some k → kindOf v ≠ Some k →
     let c := azureMerge cfg in
     let run := AzureStorage_Initialize sdk s cfg w in
     azureField key c = azureField key azureDefaults ∧
     c = azureMerge (without key cfg) ∧
     run = AzureStorage_Initialize sdk s (without key cfg) w ∧
     ∀ o, storages w !! s = Some (ObjAzure o) →
       (azAccountName c = "" ∨ azAccountKey c = "" →
        ∃ e, run = (Return (Some e), w) ∧ errors_Is e ErrInvalidConfig = true) ∧
       (azAccountName c ≠ "" → azAccountKey c ≠ "" →
        let azConfig :=
          {| acAccountName := azAccountName c;
             acAccountKey := azAccountKey c;
             acContainerName := azContainerName c;
             acBlobAccessTier := azBlobAccessTier c;
             acContainerAccessType := azContainerAccessType c;
             acEndpoint := azEndpoint c |} in
        ∃ r o1,
          fst run = Return r ∧
          storages (snd run) !! s = Some (ObjAzure o1) ∧
          aConfig o1 = c ∧
          sdkLog (snd run) = sdkLog w ++ [CallNewAzureService azConfig] ∧
          (∀ e, r = Some e →
                ∃ msg, e = Wrapf "error creating Azure service" (SdkError msg)) ∧
          (r = None →
           aService o1 = Some {| svcConfig := azConfig |} ∧
           ∃ a, aComposer o1 = Some a ∧
                composers (snd run) !! a
                = Some {| scCore := Some (AzureStore {| svcConfig := azConfig |});
                          scLocker := Some MemoryLocker |}))).
Proof.
  intros Hprop. split; intros k Hkey Hkind; cbv zeta.
  - destruct (s3Merge_mistyped cfg key v k Hprop Hkey Hkind) as [Hmerge Hfield].
    split; [exact Hfield|]. split; [by rewrite Hmerge|].
    split; [unfold MinIOStorage_Initialize; cbv zeta; by rewrite Hmerge|].
    intros o Hs.
    rewrite (MinIOStorage_Initialize_run sdk s cfg o w Hs). cbv zeta.
    change (minioURLOf (if s3UseSSL (s3Merge cfg) then "https" else "http")
              (s3Endpoint (s3Merge cfg))) with (minioURL cfg).
    assert (Hafter : ∀ o1 calls, mConfig o1 = s3Merge cfg →
              s3ConfigAt s (afterW s (ObjMinIO o1) calls w) = Some (s3Merge cfg)).
    { intros o1 calls Ho1. unfold s3ConfigAt, afterW. cbn [storages].
      by rewrite lookup_insert_eq, Ho1. }
    assert (Hdone : ∀ url sc calls,
              s3ConfigAt s (assembledW s (ObjMinIO (minioReady cfg url (nextLoc w)))
                              sc calls w) = Some (s3Merge cfg) ∧
              ∃ a, composerAt s (assembledW s (ObjMinIO (minioReady cfg url
                                                           (nextLoc w))) sc calls w)
                   = Some (Some a) ∧
                   composers (assembledW s (ObjMinIO (minioReady cfg url
                                                        (nextLoc w))) sc calls w)
                   !! a = Some sc).
    { intros url sc calls. unfold s3ConfigAt, composerAt, assembledW.
      cbn [storages composers]. rewrite lookup_insert_eq. split; [reflexivity|].
      exists (nextLoc w). split; [reflexivity|]. apply lookup_insert_eq. }
    split.
    + destruct (minioURL cfg) as [url|msg]; [|by apply Hafter].
      destruct (sdk_LoadDefaultConfig _ _ _); [by apply Hafter|].
      destruct (sdk_HeadBucket _ _ _ _); [|apply Hdone].
      destruct (sdk_CreateBucket _ _ _ _); [by apply Hafter | apply Hdone].
    + intros url ->.
      destruct (sdk_LoadDefaultConfig _ _ _) as [msg|].
      { exists (Some (Wrapf "failed to load AWS SDK config" (SdkError msg))), [].
        split; [reflexivity|]. split; [reflexivity|].
        split; [apply prefix_nil|]. split; [|discriminate].
        intros e [= <-]. eauto. }
      destruct (sdk_HeadBucket _ _ _ _) as [msg|].
      * destruct (sdk_CreateBucket _ _ _ _) as [msg'|].
        -- do 2 eexists. split; [reflexivity|]. split; [reflexivity|].
           split; [reflexivity|]. split; [|discriminate].
           intros e [= <-]. eauto.
        -- do 2 eexists. split; [reflexivity|]. split; [reflexivity|].
           split; [reflexivity|]. split; [discriminate|].
           intros _. apply Hdone.
      * do 2 eexists. split; [reflexivity|]. split; [reflexivity|].
        split; [by eexists|]. split; [discriminate|].
        intros _. apply Hdone.
  - destruct (azureMerge_mistyped cfg key v k Hprop Hkey Hkind) as [Hmerge Hfield].
    split; [exact Hfield|]. split; [by rewrite Hmerge|].
    split; [unfold AzureStorage_Initialize; cbv zeta; by rewrite Hmerge|].
    intros o Hs. split.
    + apply AzureStorage_Initialize_invalid.
    + intros Hn Hk.
      assert (Hcfg : azConfigOf (azureMerge cfg)
                     = {| acAccountName := azAccountName (azureMerge cfg);
                          acAccountKey := azAccountKey (azureMerge cfg);
                          acContainerName := azContainerName (azureMerge cfg);
                          acBlobAccessTier := azBlobAccessTier (azureMerge cfg);
                          acContainerAccessType :=
                            azContainerAccessType (azureMerge cfg);
                          acEndpoint := azEndpoint (azureMerge cfg) |}).
      { unfold azConfigOf. f_equal. by case_decide. }
      rewrite (AzureStorage_Initialize_run sdk s cfg o w Hs).
      rewrite decide_False by exact Hn. rewrite decide_False by exact Hk.
      unfold azureCalls, azureComposer, azureReady, azureService.
      rewrite Hcfg.
      destruct (sdk_NewAzureService _ _ _) as [msg|].
      * do 2 eexists. split; [reflexivity|].
        unfold afterW. cbn [snd storages sdkLog]. rewrite lookup_insert_eq.
        split; [reflexivity|]. split; [reflexivity|]. split; [reflexivity|].
        split; [|discriminate]. intros e [= <-]. eauto.
      * do 2 eexists. split; [reflexivity|].
        unfold assembledW. cbn [snd storages sdkLog composers].
        rewrite lookup_insert_eq.
        split; [reflexivity|]. split; [reflexivity|]. split; [reflexivity|].
        split; [discriminate|]. intros _. split; [reflexivity|].
        eexists. split; [reflexivity|]. apply lookup_insert_eq.
Qed.

Lemma Initialize_ignores_mistyped_witness :
  let w := wFactory emptyWorld in
  let run := MinIOStorage_Initialize sdkAllOk 1 mistypedConfig w in
  prop mistypedConfig "endpoint" = Some (VInt 9000) ∧
  minioKeyKind "endpoint" = Some KString ∧
  kindOf (VInt 9000) ≠ Some KString ∧
  s3Field "endpoint" (s3Merge mistypedConfig) = Some (VString "localhost:9000") ∧
  s3ConfigAt 1 (snd run) = Some s3Defaults ∧
  fst run = Return None ∧
  ∃ rest,
    sdkLog (snd run)
    = CallLoadDefaultConfig
        {| loRegion := "us-east-1"; loEndpointURL := "http://localhost:9000";
           loAccessKey := "minioadmin"; loSecretKey := "minioadmin" |} :: rest.
Proof.
  cbv zeta.
  assert (Hprop : prop mistypedConfig "endpoint" = Some (VInt 9000)) by reflexivity.
  assert (Hkey : minioKeyKind "endpoint" = Some KString) by reflexivity.
  assert (Hkind : kindOf (VInt 9000) ≠ Some KString) by discriminate.
  assert (Hs : storages (wFactory emptyWorld) !! 1 = Some (ObjMinIO (freshMinIO 0)))
    by reflexivity.
  destruct (proj1 (Initialize_ignores_mistyped sdkAllOk 1 mistypedConfig
                     "endpoint" (VInt 9000) (wFactory emptyWorld) Hprop)
              KString Hkey Hkind) as (Hfield & _ & _ & Hused).
  destruct (Hused _ Hs) as [Hstored Hpassed].
  destruct (Hpassed "http://localhost:9000" eq_refl)
    as (r & rest & _ & Hlog & _).
  split; [exact Hprop|]. split; [exact Hkey|]. split; [exact Hkind|].
  split; [exact Hfield|]. split; [exact Hstored|].
  split; [vm_compute; reflexivity|].
  exists rest. exact Hlog.
Defined.

(** ** The composer *)

Lemma GetStoreComposer_twice_run s c w :
  composerAt s w = Some c →
  GetStoreComposer_twice (Some s) w = (Return (c, c), w).
Proof.
  intros Hc. unfold GetStoreComposer_twice.
  run_step (apply Storage_GetStoreComposer_run; exact Hc).
  run_step (apply Storage_GetStoreComposer_run; exact Hc).
  reflexivity.
Qed.

(** C7.  Two calls of [GetStoreComposer] in a row return the same pointer
    and change nothing.  After an [Initialize] that returned nil, and
    after any further calls among which no [Initialize] returned nil, that
    pointer is the address allocated during that [Initialize], and the
    composer behind it holds a data store and the in-memory locker.  On a
    backend made by [NewMinIOStorage] or [NewAzureStorage], as long as no
    [Initialize] has returned nil, [GetStoreComposer] returns, without
    panic, the pointer to the composer the constructor allocated, in which
    nothing is registered. *)
Theorem GetStoreComposer_identical sdk s w :
  (∀ c, composerAt s w = Some c →
     GetStoreComposer_twice (Some s) w = (Return (c, c), w)) ∧
  (∀ cfg w1 ops rs w2,
     Storage_Initialize sdk (Some s) cfg w = (Return None, w1) →
     runOps sdk (Some s) ops w1 = (Return rs, w2) →
     existsb isInitSuccess rs = false →
     GetStoreComposer_twice (Some s) w2
     = (Return (Some (nextLoc w), Some (nextLoc w)), w2) ∧
     ∃ store, composers w2 !! nextLoc w
              = Some {| scCore := Some store; scLocker := Some MemoryLocker |}) ∧
  (∀ (mk : M loc) w0 ops rs w2,
     mk = NewMinIOStorage ∨ mk = NewAzureStorage →
     mk w = (Return s, w0) →
     runOps sdk (Some s) ops w0 = (Return rs, w2) →
     existsb isInitSuccess rs = false →
     Storage_GetStoreComposer (Some s) w2 = (Return (Some (nextLoc w)), w2) ∧
     composers w2 !! nextLoc w = Some emptyComposer).
Proof.
  split; [|split].
  - intros c. apply GetStoreComposer_twice_run.
  - intros cfg w1 ops rs w2 Hinit Hrun Hrs.
    apply Storage_Initialize_success in Hinit as (_ & Hc & _ & store & Hsc).
    destruct (runOps_no_success _ _ _ _ _ _ Hrun Hrs) as (_ & Hc2 & Hcs & _).
    split.
    + apply GetStoreComposer_twice_run. by rewrite Hc2.
    + exists store. by rewrite Hcs.
  - intros mk w0 ops rs w2 Hmk Hnew Hrun Hrs.
    destruct (constructor_fresh mk w s w0 Hmk Hnew) as (_ & Hc & Hsc).
    destruct (runOps_no_success _ _ _ _ _ _ Hrun Hrs) as (_ & Hc2 & Hcs & _).
    split.
    + apply Storage_GetStoreComposer_run. by rewrite Hc2.
    + by rewrite Hcs.
Qed.

Lemma GetStoreComposer_identical_witness :
  let w := wFactory emptyWorld in
  let w1 := snd (Storage_Initialize sdkNoBucket (Some 1) envDefaultConfig w) in
  Storage_Initialize sdkNoBucket (Some 1) envDefaultConfig w = (Return None, w1) ∧
  runOps sdkNoBucket (Some 1) [] w1 = (Return [], w1) ∧
  GetStoreComposer_twice (Some 1) w1 = (Return (Some 4, Some 4), w1).
Proof.
  cbv zeta.
  assert (Hinit :
    Storage_Initialize sdkNoBucket (Some 1) envDefaultConfig (wFactory emptyWorld)
    = (Return None,
       snd (Storage_Initialize sdkNoBucket (Some 1) envDefaultConfig
              (wFactory emptyWorld))))
    by (vm_compute; reflexivity).
  split; [exact Hinit|]. split; [reflexivity|].
  exact (proj1 (proj1 (proj2 (GetStoreComposer_identical sdkNoBucket 1
                                (wFactory emptyWorld)))
                  envDefaultConfig _ [] [] _ Hinit eq_refl eq_refl)).
Defined.

(** ** Defaults of the S3-compatible backend *)

(** C8.  When [Properties] holds no entry under ["endpoint"], ["bucket"]
    and ["region"], [MinIOStorage.Initialize] does not panic, stores a
    configuration with endpoint ["localhost:9000"], bucket ["uploads"] and
    region ["us-east-1"] in the backend, and goes on to the library with
    them: its first call is [LoadDefaultConfig] for region ["us-east-1"]
    and the URL made of the scheme and ["localhost:9000"].  An error it
    returns never wraps [ErrInvalidConfig], and it returns nil exactly
    when [LoadDefaultConfig] succeeds and [HeadBucket] or else
    [CreateBucket] succeeds on bucket ["uploads"]. *)
Theorem MinIOStorage_Initialize_defaults sdk s cfg o w :
  storages w !! s = Some (ObjMinIO o) →
  prop cfg "endpoint" = None →
  prop cfg "bucket" = None →
  prop cfg "region" = None →
  let url :=
    (if s3UseSSL (s3Merge cfg) then "https" else "http") +:+ "://localhost:9000" in
  let client := minioClient cfg url in
  s3Endpoint (s3Merge cfg) = "localhost:9000" ∧
  s3Bucket (s3Merge cfg) = "uploads" ∧
  s3Region (s3Merge cfg) = "us-east-1" ∧
  loRegion (minioOpts cfg url) = "us-east-1" ∧
  ∃ r w1 o1 rest,
    MinIOStorage_Initialize sdk s cfg w = (Return r, w1) ∧
    storages w1 !! s = Some (ObjMinIO o1) ∧
    mConfig o1 = s3Merge cfg ∧
    sdkLog w1 = sdkLog w ++ CallLoadDefaultConfig (minioOpts cfg url) :: rest ∧
    (∀ e, r = Some e → errors_Is e ErrInvalidConfig = false) ∧
    (r = None ↔
     sdk_LoadDefaultConfig sdk (sdkLog w) (minioOpts cfg url) = None ∧
     (sdk_HeadBucket sdk (sdkLog w ++ minioCallsClient cfg url) client "uploads"
      = None ∨
      sdk_CreateBucket sdk (sdkLog w ++ minioCallsHead cfg url) client "uploads"
      = None)).
Proof.
  intros Hs He Hb Hr url client.
  assert (Hendpoint : s3Endpoint (s3Merge cfg) = "localhost:9000")
    by (unfold s3Merge; cbn [s3Endpoint]; by rewrite He).
  assert (Hbucket : s3Bucket (s3Merge cfg) = "uploads")
    by (unfold s3Merge; cbn [s3Bucket]; by rewrite Hb).
  assert (Hregion : s3Region (s3Merge cfg) = "us-east-1")
    by (unfold s3Merge; cbn [s3Region]; by rewrite Hr).
  assert (Hurl : minioURL cfg = Return url).
  { unfold minioURL, url. rewrite Hendpoint.
    destruct (s3UseSSL (s3Merge cfg)); reflexivity. }
  split; [exact Hendpoint|]. split; [exact Hbucket|]. split; [exact Hregion|].
  split; [exact Hregion|].
  rewrite (MinIOStorage_Initialize_run sdk s cfg o w Hs). cbv zeta.
  rewrite Hurl, Hbucket. fold client.
  destruct (sdk_LoadDefaultConfig _ _ _) as [msg|].
  { do 4 eexists. split; [reflexivity|].
    unfold afterW. cbn [storages sdkLog]. rewrite lookup_insert_eq.
    split; [reflexivity|]. split; [reflexivity|]. split; [reflexivity|].
    split; [by intros e [= <-]|]. split; [discriminate|]. by intros [? _]. }
  destruct (sdk_HeadBucket _ _ _ _) as [msg|].
  - destruct (sdk_CreateBucket _ _ _ _) as [msg'|].
    + do 4 eexists. split; [reflexivity|].
      unfold afterW. cbn [storages sdkLog]. rewrite lookup_insert_eq.
      split; [reflexivity|]. split; [reflexivity|]. split; [reflexivity|].
      split; [by intros e [= <-]|]. split; [discriminate|].
      by intros [_ [?|?]].
    + do 4 eexists. split; [reflexivity|].
      unfold assembledW. cbn [storages sdkLog]. rewrite lookup_insert_eq.
      split; [reflexivity|]. split; [reflexivity|]. split; [reflexivity|].
      split; [discriminate|]. split; auto.
  - do 4 eexists. split; [reflexivity|].
    unfold assembledW. cbn [storages sdkLog]. rewrite lookup_insert_eq.
    split; [reflexivity|]. split; [reflexivity|]. split; [reflexivity|].
    split; [discriminate|]. split; auto.
Qed.

Lemma MinIOStorage_Initialize_defaults_witness :
  let w := wFactory emptyWorld in
  let cfg := {| cfgProvider := MinIO; Properties := None |} in
  storages w !! 1 = Some (ObjMinIO (freshMinIO 0)) ∧
  prop cfg "endpoint" = None ∧ prop cfg "bucket" = None ∧
  prop cfg "region" = None ∧
  s3Endpoint (s3Merge cfg) = "localhost:9000" ∧
  s3Bucket (s3Merge cfg) = "uploads" ∧
  s3Region (s3Merge cfg) = "us-east-1".
Proof.
  cbv zeta.
  assert (Hs : storages (wFactory emptyWorld) !! 1 = Some (ObjMinIO (freshMinIO 0)))
    by reflexivity.
  pose proof (MinIOStorage_Initialize_defaults sdkDown 1
                {| cfgProvider := MinIO; Properties := None |}
                (freshMinIO 0) (wFactory emptyWorld) Hs eq_refl eq_refl eq_refl)
    as (H1 & H2 & H3 & _).
  split; [exact Hs|]. do 3 (split; [reflexivity|]).
  split; [exact H1|]. split; [exact H2|exact H3].
Defined.

(** ** The state machine of a backend *)

(** C9.  An [Initialize] that returns an error leaves the [initialized]
    flag of the backend as it was.  So on a backend whose flag is unset it
    leaves the flag unset, and [GetHandler] then still returns
    [ErrStorageNotConfigured] for every base path.  Along any sequence of
    method calls on such a backend, the flag is set at the end exactly when
    some [Initialize] of the sequence returned nil, and as long as none did
    every [GetHandler] of the sequence returned [ErrStorageNotConfigured].
    This holds for both backends. *)
Theorem Initialize_failure_stays_uninitialized sdk s w :
  (∀ cfg e w1,
     Storage_Initialize sdk (Some s) cfg w = (Return (Some e), w1) →
     initializedAt s w1 = initializedAt s w) ∧
  (initializedAt s w = Some false →
   (∀ cfg e w1,
      Storage_Initialize sdk (Some s) cfg w = (Return (Some e), w1) →
      initializedAt s w1 = Some false ∧
      ∀ basePath,
        Storage_GetHandler sdk (Some s) basePath w1
        = (Return (None, Some ErrStorageNotConfigured), w1)) ∧
   (∀ ops rs w1,
      runOps sdk (Some s) ops w = (Return rs, w1) →
      initializedAt s w1 = Some (existsb isInitSuccess rs) ∧
      (existsb isInitSuccess rs = false → forallb isNotConfigured rs = true))).
Proof.
  split.
  { intros cfg e w1 Hinit.
    by apply Storage_Initialize_error_same in Hinit as (Hi1 & _). }
  intros Hi. split.
  - intros cfg e w1 Hinit.
    apply Storage_Initialize_error_same in Hinit as (Hi1 & _).
    rewrite Hi in Hi1. split; [exact Hi1|].
    intros basePath. by apply Storage_GetHandler_uninitialized.
  - intros ops rs w1 Hrun. split.
    + apply (runOps_initializedAt _ _ _ _ _ _ false Hi Hrun).
    + intros Hrs. eapply runOps_uninitialized; eassumption.
Qed.

Lemma Initialize_failure_stays_uninitialized_witness :
  let w := wFactory emptyWorld in
  let run := Storage_Initialize sdkDown (Some 1) envDefaultConfig w in
  initializedAt 1 w = Some false ∧
  run = (Return (Some (Wrapf "error creating bucket" (SdkError "connection refused"))),
         snd run) ∧
  initializedAt 1 (snd run) = Some false.
Proof.
  cbv zeta.
  assert (Hi : initializedAt 1 (wFactory emptyWorld) = Some false) by reflexivity.
  assert (Hrun :
    Storage_Initialize sdkDown (Some 1) envDefaultConfig (wFactory emptyWorld)
    = (Return (Some (Wrapf "error creating bucket" (SdkError "connection refused"))),
       snd (Storage_Initialize sdkDown (Some 1) envDefaultConfig
              (wFactory emptyWorld))))
    by (vm_compute; reflexivity).
  split; [exact Hi|]. split; [exact Hrun|].
  exact (proj1 (proj1 (proj2 (Initialize_failure_stays_uninitialized sdkDown 1
                                (wFactory emptyWorld)) Hi) _ _ _ Hrun)).
Defined.

(** ** Path-style addressing *)

Lemma s3Merge_pathStyle_blind cfg cfg' :
  (∀ key, key ≠ "pathStyle" → prop cfg' key = prop cfg key) →
  minioURL cfg' = minioURL cfg ∧
  s3Bucket (s3Merge cfg') = s3Bucket (s3Merge cfg) ∧
  ∀ url, minioOpts cfg' url = minioOpts cfg url.
Proof.
  intros H. unfold minioURL, minioOpts, s3Merge.
  cbn [s3Endpoint s3Bucket s3Region s3AccessKey s3SecretKey s3UseSSL].
  rewrite !H by discriminate. done.
Qed.

(** C10.  Every S3 client that [MinIOStorage.Initialize] constructs has
    [UsePathStyle] set: each construction among the calls of a run asks for
    it, and after a run that returned nil the client stored in the backend
    and in the data store of the composer has it.  The entry ["pathStyle"]
    of the properties is parsed into the stored configuration and has no
    other effect: two configurations that differ under that key at most
    give the same result, the same library calls, the same client and the
    same composers, also when one of them sets it to false. *)
Theorem MinIOStorage_path_style_forced sdk s cfg o w :
  storages w !! s = Some (ObjMinIO o) →
  let run := MinIOStorage_Initialize sdk s cfg w in
  (∃ calls, sdkLog (snd run) = sdkLog w ++ calls ∧
            ∀ opts b, CallS3NewFromConfig opts b ∈ calls → b = true) ∧
  (fst run = Return None →
   ∃ client, clientAt s (snd run) = Some (Some client) ∧
             clUsePathStyle client = true ∧
             composers (snd run) !! nextLoc w
             = Some {| scCore := Some (S3Store (s3Bucket (s3Merge cfg)) client);
                       scLocker := Some MemoryLocker |}) ∧
  (∀ cfg', (∀ key, key ≠ "pathStyle" → prop cfg' key = prop cfg key) →
     let run' := MinIOStorage_Initialize sdk s cfg' w in
     fst run' = fst run ∧
     sdkLog (snd run') = sdkLog (snd run) ∧
     clientAt s (snd run') = clientAt s (snd run) ∧
     composers (snd run') = composers (snd run)) ∧
  s3PathStyle (s3Merge (withProp "pathStyle" (VBool false) cfg)) = false.
Proof.
  intros Hs. cbv zeta. split; [|split; [|split]].
  - rewrite (MinIOStorage_Initialize_run sdk s cfg o w Hs). cbv zeta.
    assert (Hcalls : ∀ url calls,
      calls ∈ [ minioCallsLoad cfg url; minioCallsHead cfg url;
                minioCallsCreate cfg url ] →
      ∀ opts b, CallS3NewFromConfig opts b ∈ calls → b = true).
    { intros url calls Hin opts b Hcall.
      repeat (apply elem_of_cons in Hin as [->|Hin]);
        try (by apply elem_of_nil in Hin);
        repeat (apply elem_of_cons in Hcall as [Hcall|Hcall]);
        try (by apply elem_of_nil in Hcall); congruence. }
    destruct (minioURL cfg) as [url|msg].
    2:{ exists []. split; [reflexivity|]. intros ? ? Hin.
        by apply elem_of_nil in Hin. }
    destruct (sdk_LoadDefaultConfig _ _ _).
    { eexists. split; [reflexivity|]. apply (Hcalls url). set_solver. }
    destruct (sdk_HeadBucket _ _ _ _).
    + destruct (sdk_CreateBucket _ _ _ _);
        (eexists; split; [reflexivity|]; apply (Hcalls url); set_solver).
    + eexists. split; [reflexivity|]. apply (Hcalls url). set_solver.
  - rewrite (MinIOStorage_Initialize_run sdk s cfg o w Hs). cbv zeta.
    assert (Hdone : ∀ url calls,
      let w1 := assembledW s (ObjMinIO (minioReady cfg url (nextLoc w)))
                  (minioComposer cfg url) calls w in
      ∃ client, clientAt s w1 = Some (Some client) ∧
                clUsePathStyle client = true ∧
                composers w1 !! nextLoc w
                = Some {| scCore := Some (S3Store (s3Bucket (s3Merge cfg)) client);
                          scLocker := Some MemoryLocker |}).
    { intros url calls. exists (minioClient cfg url).
      unfold clientAt, assembledW. cbn [storages composers].
      rewrite !lookup_insert_eq. done. }
    destruct (minioURL cfg) as [url|msg]; [|discriminate].
    destruct (sdk_LoadDefaultConfig _ _ _); [discriminate|].
    destruct (sdk_HeadBucket _ _ _ _).
    + destruct (sdk_CreateBucket _ _ _ _); [discriminate|]. intros _. apply Hdone.
    + intros _. apply Hdone.
  - intros cfg' Hblind.
    destruct (s3Merge_pathStyle_blind cfg cfg' Hblind) as (Hurl & Hbucket & Hopts).
    rewrite (MinIOStorage_Initialize_run sdk s cfg' o w Hs).
    rewrite (MinIOStorage_Initialize_run sdk s cfg o w Hs). cbv zeta.
    unfold minioCallsLoad, minioCallsClient, minioCallsHead, minioCallsCreate,
      minioComposer, minioClient.
    rewrite Hurl, Hbucket.
    destruct (minioURL cfg) as [url|msg]; rewrite ?Hopts.
    2:{ unfold clientAt, afterW. cbn [fst snd storages composers sdkLog].
        rewrite !lookup_insert_eq. done. }
    destruct (sdk_LoadDefaultConfig _ _ _).
    { unfold clientAt, afterW. cbn [fst snd storages composers sdkLog].
      rewrite !lookup_insert_eq. done. }
    destruct (sdk_HeadBucket _ _ _ _).
    + destruct (sdk_CreateBucket _ _ _ _);
        unfold clientAt, afterW, assembledW, minioReady, minioClient;
        cbn [fst snd storages composers sdkLog];
        rewrite !lookup_insert_eq, ?Hopts; done.
    + unfold clientAt, assembledW, minioReady, minioClient.
      cbn [fst snd storages composers sdkLog].
      rewrite !lookup_insert_eq, ?Hopts. done.
  - unfold s3Merge, prop, withProp. cbn [s3PathStyle Properties].
    by rewrite lookup_insert_eq.
Qed.

Lemma MinIOStorage_path_style_forced_witness :
  let w := wFactory emptyWorld in
  let cfg := withProp "pathStyle" (VBool false) envDefaultConfig in
  storages w !! 1 = Some (ObjMinIO (freshMinIO 0)) ∧
  fst (MinIOStorage_Initialize sdkAllOk 1 cfg w) = Return None ∧
  ∃ client, clientAt 1 (snd (MinIOStorage_Initialize sdkAllOk 1 cfg w))
            = Some (Some client) ∧
            clUsePathStyle client = true.
Proof.
  cbv zeta.
  assert (Hs : storages (wFactory emptyWorld) !! 1 = Some (ObjMinIO (freshMinIO 0)))
    by reflexivity.
  assert (Hrun :
    fst (MinIOStorage_Initialize sdkAllOk 1
           (withProp "pathStyle" (VBool false) envDefaultConfig)
           (wFactory emptyWorld)) = Return None)
    by (vm_compute; reflexivity).
  split; [exact Hs|]. split; [exact Hrun|].
  destruct (proj1 (proj2 (MinIOStorage_path_style_forced sdkAllOk 1
                            (withProp "pathStyle" (VBool false) envDefaultConfig)
                            (freshMinIO 0) (wFactory emptyWorld) Hs)) Hrun)
    as (client & Hc & Hp & _).
  exists client. split; assumption.
Defined.

(** ** Runs on concrete inputs *)

(** The scenario of the specification: [STORAGE_TYPE=azure] with account,
    key and container set.  [CreateFromEnv] returns the Azure backend,
    initialized, and [GetHandler] on it succeeds. *)
Example CreateFromEnv_azure_scenario :
  let env : gmap string string :=
    <["AZURE_STORAGE_CONTAINER" := "uploads"]> (
    <["AZURE_STORAGE_KEY" := "key"]> (
    <["AZURE_STORAGE_ACCOUNT" := "acct"]> (
    <["STORAGE_TYPE" := "azure"]> ∅))) in
  let w := wFactory emptyWorld in
  let created := Factory_CreateFromEnv sdkAllOk asciiLower (factoryAt 0) env w in
  fst created = Return (Some 3, None) ∧
  initializedAt 3 (snd created) = Some true ∧
  fst (Storage_GetProvider (Some 3) (snd created)) = Return Azure ∧
  ∃ h, fst (Storage_GetHandler sdkAllOk (Some 3) "/files/" (snd created))
       = Return (Some h, None).
Proof. vm_compute. repeat split. eexists. reflexivity. Qed.

(** An identifier that is not registered is refused before any backend is
    touched. *)
Example CreateFromEnv_disk_unsupported :
  let env : gmap string string := <["STORAGE_TYPE" := "Disk"]> ∅ in
  Factory_CreateFromEnv sdkAllOk asciiLower (factoryAt 0) env (wFactory emptyWorld)
  = (Return (None, Some (Errorf "unsupported storage provider: disk")),
     wFactory emptyWorld).
Proof. reflexivity. Qed.

(** The message of the error for a missing account name. *)
Example AzureStorage_Initialize_no_account_message :
  let cfg := {| cfgProvider := Azure; Properties := None |} in
  fst (AzureStorage_Initialize sdkAllOk 3 cfg (wFactory emptyWorld))
  = Return (Some (Wrapf "azure account name is required" ErrInvalidConfig)) ∧
  error_string (Wrapf "azure account name is required" ErrInvalidConfig)
  = "azure account name is required: invalid configuration".
Proof. split; reflexivity. Qed.

(** The scheme is put in front of an endpoint that has none and left out
    for one that has; an endpoint of four bytes other than ["http"] makes
    the slice [minioURL[:5]] panic. *)
Example minioURLOf_examples :
  minioURLOf "http" "localhost:9000" = Return "http://localhost:9000" ∧
  minioURLOf "https" "s3" = Return "https://s3" ∧
  minioURLOf "http" "https://minio.local" = Return "https://minio.local" ∧
  minioURLOf "http" "http" = Return "http" ∧
  minioURLOf "http" "host"
  = Panic "slice bounds out of range [:5] with length 4".
Proof. repeat split. Qed.

(** * Further properties of the package *)

(** ** The registry *)

(** X1.  [Get] after [Register] under the same identifier returns the
    storage just registered and no error; under any other identifier it
    answers as before; and a second [Register] under one identifier
    replaces the first. *)
Theorem Registry_Register_Get r provider storage :
  Registry_Get (Registry_Register r provider storage) provider = (storage, None) ∧
  (∀ other, other ≠ provider →
     Registry_Get (Registry_Register r provider storage) other
     = Registry_Get r other) ∧
  (∀ storage',
     Registry_Register (Registry_Register r provider storage') provider storage
     = Registry_Register r provider storage).
Proof.
  unfold Registry_Get, Registry_Register. cbn [providers]. split; [|split].
  - by rewrite lookup_insert_eq.
  - intros other Hne. by rewrite lookup_insert_ne.
  - intros storage'. by rewrite insert_insert_eq.
Qed.

Lemma Registry_Register_Get_witness :
  Disk ≠ MinIO ∧
  Registry_Get (Registry_Register NewRegistry MinIO (Some 1)) Disk
  = Registry_Get NewRegistry Disk.
Proof.
  split; [discriminate|].
  apply (Registry_Register_Get NewRegistry MinIO (Some 1)). discriminate.
Defined.

Lemma registerAll_snoc regs ps r :
  registerAll (regs ++ [ps]) r
  = Registry_Register (registerAll regs r) (fst ps) (snd ps).
Proof. unfold registerAll. by rewrite foldl_app. Qed.

(** X2.  On a registry filled from empty by any sequence of [Register]
    calls, [Get] returns the storage of the last call made under the
    identifier, and the not-found error, with a nil storage, exactly when
    no call was made under it. *)
Theorem Registry_Get_registerAll regs provider :
  Registry_Get (registerAll regs NewRegistry) provider =
    match lastRegistered provider regs with
    | Some storage => (storage, None)
    | None =>
        (None, Some (Errorf ("storage provider " +:+ provider +:+ " not found")))
    end.
Proof.
  induction regs as [|[p st] regs IH] using rev_ind.
  - reflexivity.
  - rewrite registerAll_snoc. cbn [fst snd].
    unfold lastRegistered. rewrite filter_app.
    destruct (decide (p = provider)) as [->|Hne].
    + unfold Registry_Get, Registry_Register. cbn [providers].
      rewrite lookup_insert_eq.
      rewrite filter_cons_True by reflexivity. rewrite filter_nil.
      by rewrite last_snoc.
    + unfold Registry_Get at 1. unfold Registry_Register. cbn [providers].
      rewrite lookup_insert_ne by exact Hne.
      rewrite filter_cons_False by exact Hne. rewrite filter_nil, app_nil_r.
      exact IH.
Qed.

(** ** Resolve and initialize *)

Lemma Storage_Initialize_nil sdk cfg w :
  Storage_Initialize sdk None cfg w = (Panic nilDeref, w).
Proof. reflexivity. Qed.

(** X3.  When the registry holds nothing under the provider of the
    configuration, [NewStorageFromConfig] returns a nil storage and the
    not-found error of [Get], not wrapped, and changes nothing: no backend
    is touched and no library is called.  On the registry of [NewFactory]
    this is so for every provider but ["minio"] and ["azure"] as they are
    spelled, since [CreateFromConfig] does not lower-case. *)
Theorem NewStorageFromConfig_unregistered sdk r cfg n w :
  (providers r !! cfgProvider cfg = None →
   Registry_NewStorageFromConfig sdk r cfg w
   = (Return (None, Some (Errorf ("storage provider " +:+ cfgProvider cfg
                                   +:+ " not found"))), w)) ∧
  (cfgProvider cfg ≠ MinIO → cfgProvider cfg ≠ Azure →
   Factory_CreateFromConfig sdk (factoryAt n) cfg w
   = (Return (None, Some (Errorf ("storage provider " +:+ cfgProvider cfg
                                   +:+ " not found"))), w)).
Proof.
  assert (Hnone : providers r !! cfgProvider cfg = None →
    Registry_NewStorageFromConfig sdk r cfg w
    = (Return (None, Some (Errorf ("storage provider " +:+ cfgProvider cfg
                                    +:+ " not found"))), w)).
  { intros H. unfold Registry_NewStorageFromConfig, Registry_Get. by rewrite H. }
  split; [exact Hnone|].
  intros Hm Ha. unfold Factory_CreateFromConfig, Registry_NewStorageFromConfig,
    Registry_Get, factoryAt. cbn [registry providers].
  rewrite lookup_insert_ne by congruence.
  rewrite lookup_insert_ne by congruence.
  by rewrite lookup_empty.
Qed.

Lemma NewStorageFromConfig_unregistered_witness :
  let cfg := {| cfgProvider := "MinIO"; Properties := None |} in
  cfgProvider cfg ≠ MinIO ∧ cfgProvider cfg ≠ Azure ∧
  Factory_CreateFromConfig sdkAllOk (factoryAt 0) cfg (wFactory emptyWorld)
  = (Return (None, Some (Errorf "storage provider MinIO not found")),
     wFactory emptyWorld).
Proof.
  cbv zeta. split; [discriminate|]. split; [discriminate|].
  apply (NewStorageFromConfig_unregistered sdkAllOk NewRegistry
           {| cfgProvider := "MinIO"; Properties := None |} 0
           (wFactory emptyWorld)); discriminate.
Defined.

(** X4.  An error of [Initialize] comes back from [NewStorageFromConfig]
    with a nil storage and wrapped once more, and [errors.Is] still finds
    in it what it finds in the error of [Initialize].  So through the
    factory of [NewFactory] an Azure configuration whose merged account
    name or key is empty gives an error in which [ErrInvalidConfig] is
    found, and leaves the world as it was. *)
Theorem NewStorageFromConfig_wraps_error sdk r cfg w :
  (∀ s e w1 target,
     providers r !! cfgProvider cfg = Some (Some s) →
     Storage_Initialize sdk (Some s) cfg w = (Return (Some e), w1) →
     Registry_NewStorageFromConfig sdk r cfg w
     = (Return (None, Some (Wrapf "failed to initialize storage" e)), w1) ∧
     (target ≠ Wrapf "failed to initialize storage" e →
      errors_Is (Wrapf "failed to initialize storage" e) target
      = errors_Is e target)) ∧
  (cfgProvider cfg = Azure →
   azAccountName (azureMerge cfg) = "" ∨ azAccountKey (azureMerge cfg) = "" →
   ∃ e, Factory_CreateFromConfig sdk (factoryAt (nextLoc w)) cfg (wFactory w)
        = (Return (None, Some e), wFactory w) ∧
        errors_Is e ErrInvalidConfig = true).
Proof.
  assert (Hwrap : ∀ s e w0 w1,
     providers r !! cfgProvider cfg = Some (Some s) →
     Storage_Initialize sdk (Some s) cfg w0 = (Return (Some e), w1) →
     Registry_NewStorageFromConfig sdk r cfg w0
     = (Return (None, Some (Wrapf "failed to initialize storage" e)), w1)).
  { intros s e w0 w1 Hr Hinit.
    unfold Registry_NewStorageFromConfig, Registry_Get. rewrite Hr.
    cbv iota beta. by erewrite bind_Return by exact Hinit. }
  split.
  - intros s e w1 target Hr Hinit. split; [by apply (Hwrap s)|].
    intros Hne. cbn [errors_Is]. by rewrite decide_False.
  - intros Hp Hempty.
    destruct (AzureStorage_Initialize_invalid sdk (S (S (S (nextLoc w)))) cfg
                (wFactory w) Hempty) as (e & Hrun & He).
    exists (Wrapf "failed to initialize storage" e). split.
    + unfold Factory_CreateFromConfig, Registry_NewStorageFromConfig,
        Registry_Get, factoryAt. cbn [registry providers].
      rewrite Hp, lookup_insert_eq. cbv iota beta.
      erewrite bind_Return
        by (unfold Storage_Initialize;
            erewrite dispatch_Azure by apply wFactory_azure; exact Hrun).
      reflexivity.
    + cbn [errors_Is]. rewrite decide_False by discriminate. exact He.
Qed.

Lemma NewStorageFromConfig_wraps_error_witness :
  cfgProvider azureNoKeyConfig = Azure ∧
  azAccountKey (azureMerge azureNoKeyConfig) = "" ∧
  ∃ e, Factory_CreateFromConfig sdkAllOk (factoryAt 0) azureNoKeyConfig
         (wFactory emptyWorld)
       = (Return (None, Some e), wFactory emptyWorld) ∧
       errors_Is e ErrInvalidConfig = true.
Proof.
  assert (Hk : azAccountKey (azureMerge azureNoKeyConfig) = "") by reflexivity.
  split; [reflexivity|]. split; [exact Hk|].
  exact (proj2 (NewStorageFromConfig_wraps_error sdkAllOk NewRegistry
                  azureNoKeyConfig emptyWorld) eq_refl (or_intror Hk)).
Defined.

Lemma NewStorageFromConfig_inv sdk r cfg w st err w1 :
  Registry_NewStorageFromConfig sdk r cfg w = (Return (st, err), w1) →
  (∃ s, st = Some s ∧ err = None ∧
        providers r !! cfgProvider cfg = Some (Some s) ∧
        Storage_Initialize sdk (Some s) cfg w = (Return None, w1)) ∨
  (st = None ∧ ∃ e, err = Some e).
Proof.
  unfold Registry_NewStorageFromConfig, Registry_Get.
  destruct (providers r !! cfgProvider cfg) as [[s|]|] eqn:Hr; cbv iota beta.
  - unfold bind.
    destruct (Storage_Initialize sdk (Some s) cfg w) as [[[e|]|msg] w2] eqn:Hinit.
    + intros [= <- <- <-]. right. eauto.
    + intros [= <- <- <-]. left. exists s. done.
    + discriminate.
  - unfold bind. rewrite Storage_Initialize_nil. discriminate.
  - intros [= <- <- <-]. right. eauto.
Qed.

(** X5.  Whenever [NewStorageFromConfig] returns, exactly one of the
    storage and the error is nil: either the storage is the one registered
    under the provider, now initialized, and the error is nil, or the
    storage is nil and there is an error.  A nil storage registered under
    the provider makes it panic instead. *)
Theorem NewStorageFromConfig_result sdk r cfg w :
  (∀ st err w1,
     Registry_NewStorageFromConfig sdk r cfg w = (Return (st, err), w1) →
     (∃ s, st = Some s ∧ err = None ∧
           providers r !! cfgProvider cfg = Some (Some s) ∧
           initializedAt s w1 = Some true) ∨
     (st = None ∧ ∃ e, err = Some e)) ∧
  (providers r !! cfgProvider cfg = Some None →
   Registry_NewStorageFromConfig sdk r cfg w = (Panic nilDeref, w)).
Proof.
  split.
  - intros st err w1 Hrun.
    apply NewStorageFromConfig_inv in Hrun as [(s & -> & -> & Hr & Hinit)|Herr].
    + left. exists s. apply Storage_Initialize_success in Hinit as (Hi & _). done.
    + by right.
  - intros Hr. unfold Registry_NewStorageFromConfig, Registry_Get. rewrite Hr.
    cbv iota beta. by erewrite bind_Panic by apply Storage_Initialize_nil.
Qed.

Lemma NewStorageFromConfig_result_witness :
  let r := Registry_Register NewRegistry Disk None in
  let cfg := {| cfgProvider := Disk; Properties := None |} in
  providers r !! cfgProvider cfg = Some None ∧
  Registry_NewStorageFromConfig sdkAllOk r cfg emptyWorld
  = (Panic nilDeref, emptyWorld).
Proof.
  cbv zeta.
  assert (Hr : providers (Registry_Register NewRegistry Disk None) !! Disk
               = Some None) by reflexivity.
  split; [exact Hr|].
  exact (proj2 (NewStorageFromConfig_result sdkAllOk
                  (Registry_Register NewRegistry Disk None)
                  {| cfgProvider := Disk; Properties := None |} emptyWorld) Hr).
Defined.

(** ** The configuration read from the environment *)

Lemma os_Getenv_set env key v : env !! key = Some v → os_Getenv env key = v.
Proof. intros H. unfold os_Getenv. by rewrite H. Qed.

(** X6.  For a [STORAGE_TYPE] of ASCII bytes, [CreateFromEnv] decides by
    the lower-cased value alone, the empty value standing for ["minio"]:
    when that is ["minio"] or ["azure"] it builds a [Config] for it, and
    otherwise it returns a nil storage and the unsupported-provider error
    naming the lower-cased value, without touching the registry, a backend
    or a library. *)
Theorem CreateFromEnv_provider ToLower env storageType :
  ToLower_spec ToLower →
  env !! "STORAGE_TYPE" = Some storageType →
  isASCII storageType = true →
  let provider := envProvider storageType in
  (provider = MinIO ∨ provider = Azure →
   ∃ props, envConfig ToLower env
            = inl {| cfgProvider := provider; Properties := Some props |}) ∧
  (provider ≠ MinIO → provider ≠ Azure →
   ∀ sdk f w,
     Factory_CreateFromEnv sdk ToLower f env w
     = (Return (None, Some (Errorf ("unsupported storage provider: "
                                    +:+ provider))), w)).
Proof.
  intros Hlow Henv Hascii provider.
  assert (Hp : ToLower (if decide (storageType = "") then MinIO else storageType)
               = provider).
  { unfold provider, envProvider. destruct (decide (storageType = "")).
    - by rewrite (Hlow MinIO).
    - by apply Hlow. }
  split.
  - intros Hsel. unfold envConfig. cbv zeta.
    rewrite !(os_Getenv_set _ _ _ Henv), Hp.
    destruct (decide (provider = MinIO)); [eauto|].
    destruct (decide (provider = Azure)); [eauto|]. by destruct Hsel.
  - intros Hm Ha sdk f w. unfold Factory_CreateFromEnv, envConfig. cbv zeta.
    rewrite !(os_Getenv_set _ _ _ Henv), Hp.
    rewrite decide_False by exact Hm. by rewrite decide_False by exact Ha.
Qed.

Lemma CreateFromEnv_provider_witness :
  let env : gmap string string := <["STORAGE_TYPE" := "Memory"]> ∅ in
  env !! "STORAGE_TYPE" = Some "Memory" ∧
  isASCII "Memory" = true ∧
  envProvider "Memory" ≠ MinIO ∧ envProvider "Memory" ≠ Azure ∧
  Factory_CreateFromEnv sdkAllOk asciiLower (factoryAt 0) env (wFactory emptyWorld)
  = (Return (None, Some (Errorf "unsupported storage provider: memory")),
     wFactory emptyWorld).
Proof.
  cbv zeta.
  assert (Henv : (<["STORAGE_TYPE" := "Memory"]> ∅ : gmap string string)
                 !! "STORAGE_TYPE" = Some "Memory") by reflexivity.
  assert (Hm : envProvider "Memory" ≠ MinIO) by discriminate.
  assert (Ha : envProvider "Memory" ≠ Azure) by discriminate.
  split; [exact Henv|]. split; [reflexivity|]. split; [exact Hm|].
  split; [exact Ha|].
  exact (proj2 (CreateFromEnv_provider asciiLower _ "Memory" asciiLower_spec
                  Henv eq_refl) Hm Ha sdkAllOk (factoryAt 0) (wFactory emptyWorld)).
Defined.

Lemma envConfig_ext ToLower env1 env2 :
  (∀ key, os_Getenv env1 key = os_Getenv env2 key) →
  envConfig ToLower env1 = envConfig ToLower env2.
Proof.
  intros H. unfold envConfig, getEnv, getEnvBool. cbv zeta.
  by rewrite !H.
Qed.

(** X7.  A variable set to the empty string counts as not set: removing
    it from the environment changes neither the [Config] that
    [CreateFromEnv] builds nor its run.  This holds for [STORAGE_TYPE] and
    for every [MINIO_*] and [AZURE_*] variable. *)
Theorem CreateFromEnv_empty_is_unset sdk ToLower f env key w :
  env !! key = Some "" →
  envConfig ToLower env = envConfig ToLower (delete key env) ∧
  Factory_CreateFromEnv sdk ToLower f env w
  = Factory_CreateFromEnv sdk ToLower f (delete key env) w.
Proof.
  intros Hkey.
  assert (Hcfg : envConfig ToLower env = envConfig ToLower (delete key env)).
  { apply envConfig_ext. intros k. unfold os_Getenv.
    destruct (decide (key = k)) as [<-|Hne].
    - by rewrite lookup_delete_eq, Hkey.
    - by rewrite lookup_delete_ne. }
  split; [exact Hcfg|]. unfold Factory_CreateFromEnv. by rewrite Hcfg.
Qed.

Lemma CreateFromEnv_empty_is_unset_witness :
  let env : gmap string string := <["MINIO_BUCKET" := ""]> ∅ in
  env !! "MINIO_BUCKET" = Some "" ∧
  envConfig asciiLower env = inl envDefaultConfig.
Proof.
  cbv zeta.
  assert (Henv : (<["MINIO_BUCKET" := ""]> ∅ : gmap string string)
                 !! "MINIO_BUCKET" = Some "") by reflexivity.
  split; [exact Henv|].
  rewrite (proj1 (CreateFromEnv_empty_is_unset sdkAllOk asciiLower (factoryAt 0)
                    _ "MINIO_BUCKET" emptyWorld Henv)).
  reflexivity.
Defined.

Lemma overrideString_getEnv env key dflt :
  overrideString (Some (VString (getEnv env key dflt))) dflt
  = getEnv env key dflt.
Proof.
  unfold overrideString, assertString.
  destruct (decide (getEnv env key dflt = "")) as [He|]; [|reflexivity].
  rewrite He. unfold getEnv in He.
  by destruct (decide (os_Getenv env key = "")).
Qed.

Ltac lookup_literal :=
  repeat (rewrite lookup_insert_ne by discriminate);
  first [rewrite lookup_insert_eq | rewrite lookup_empty].

(** X8.  The [Properties] that [CreateFromEnv] builds hold, under every
    key the selected backend recognises, a value of the dynamic type the
    backend asserts, so no entry made by the factory is ever ignored as
    mistyped; and for ["minio"] the entry [disableSSL] is the negation of
    [useSSL] and [pathStyle] is true, whatever the environment. *)
Theorem envConfig_well_typed ToLower env cfg :
  envConfig ToLower env = inl cfg →
  (cfgProvider cfg = MinIO →
   (∀ key k, minioKeyKind key = Some k →
      ∃ v, prop cfg key = Some v ∧ kindOf v = Some k) ∧
   ∃ b, prop cfg "useSSL" = Some (VBool b) ∧
        prop cfg "disableSSL" = Some (VBool (negb b)) ∧
        prop cfg "pathStyle" = Some (VBool true)) ∧
  (cfgProvider cfg = Azure →
   ∀ key k, azureKeyKind key = Some k →
     ∃ v, prop cfg key = Some v ∧ kindOf v = Some k).
Proof.
  unfold envConfig. cbv zeta.
  destruct (decide (_ = MinIO)) as [Hm|Hm]; [|destruct (decide (_ = Azure)) as [Ha|Ha]];
    intros [= <-]; cbn [cfgProvider]; (split; [intros Hp|intros Hp]);
    try congruence; try (rewrite Hp in Hm; discriminate Hm).
  - split.
    + intros key k Hkey.
      apply minioKeyKind_cases in Hkey as [[-> Hin]|[-> Hin]];
        repeat (apply elem_of_cons in Hin as [->|Hin]);
        try (by apply elem_of_nil in Hin);
        unfold prop; cbn [Properties]; lookup_literal; eauto.
    + eexists. unfold prop. cbn [Properties].
      split; [lookup_literal; reflexivity|].
      split; lookup_literal; reflexivity.
  - intros key k Hkey.
    apply azureKeyKind_cases in Hkey as [-> Hin];
      repeat (apply elem_of_cons in Hin as [->|Hin]);
      try (by apply elem_of_nil in Hin);
      unfold prop; cbn [Properties]; lookup_literal; eauto.
Qed.

Lemma envConfig_well_typed_witness :
  envConfig asciiLower ∅ = inl envDefaultConfig ∧
  cfgProvider envDefaultConfig = MinIO ∧
  ∃ b, prop envDefaultConfig "useSSL" = Some (VBool b) ∧
       prop envDefaultConfig "disableSSL" = Some (VBool (negb b)).
Proof.
  assert (Hcfg : envConfig asciiLower ∅ = inl envDefaultConfig) by reflexivity.
  split; [exact Hcfg|]. split; [reflexivity|].
  destruct (proj2 (proj1 (envConfig_well_typed asciiLower ∅ envDefaultConfig Hcfg)
                     eq_refl)) as (b & Hu & Hd & _).
  exists b. split; assumption.
Defined.

Lemma envConfig_merge_both ToLower env cfg :
  envConfig ToLower env = inl cfg →
  (cfgProvider cfg = MinIO → s3Merge cfg = envS3Config ToLower env) ∧
  (cfgProvider cfg = Azure → azureMerge cfg = envAzureConfig env).
Proof.
  unfold envConfig. cbv zeta.
  destruct (decide (_ = MinIO)) as [Hm|Hm]; [|destruct (decide (_ = Azure)) as [Ha|Ha]];
    intros [= <-]; cbn [cfgProvider]; (split; [intros Hp|intros Hp]);
    try congruence; try (rewrite Hp in Hm; discriminate Hm).
  - unfold s3Merge, envS3Config, prop. cbn [Properties].
    f_equal; lookup_literal; try apply overrideString_getEnv; reflexivity.
  - unfold azureMerge, envAzureConfig, prop. cbn [Properties].
    f_equal; lookup_literal; apply overrideString_getEnv.
Qed.

(** X9.  What a backend parses from the [Properties] built by
    [CreateFromEnv] is the environment itself: each field of the
    [S3Config], or of the [AzureConfig], is the variable of the table, or
    its default when the variable is unset or empty; [PathStyle] is true
    and [DisableSSL] is the negation of [UseSSL]. *)
Theorem envConfig_merge ToLower env cfg :
  envConfig ToLower env = inl cfg →
  (cfgProvider cfg = MinIO → s3Merge cfg = envS3Config ToLower env) ∧
  (cfgProvider cfg = Azure → azureMerge cfg = envAzureConfig env).
Proof. apply envConfig_merge_both. Qed.

Lemma envConfig_merge_witness :
  envConfig asciiLower ∅ = inl envDefaultConfig ∧
  cfgProvider envDefaultConfig = MinIO ∧
  s3Merge envDefaultConfig = envS3Config asciiLower ∅.
Proof.
  assert (Hcfg : envConfig asciiLower ∅ = inl envDefaultConfig) by reflexivity.
  split; [exact Hcfg|]. split; [reflexivity|].
  exact (proj1 (envConfig_merge asciiLower ∅ envDefaultConfig Hcfg) eq_refl).
Defined.

(** ** The URL of the endpoint *)

Lemma minioURLOf_scheme protocol endpoint :
  String.prefix "http" endpoint = true →
  minioURLOf protocol endpoint = Return endpoint.
Proof.
  intros Hpre. apply prefix_correct in Hpre. cbn [String.length] in Hpre.
  unfold minioURLOf.
  destruct endpoint as [|a1 [|a2 [|a3 [|a4 r]]]]; try discriminate Hpre.
  rewrite decide_False by (cbn [String.length]; lia).
  by rewrite (decide_False (P := _ ≠ _)) by (intros H; by apply H).
Qed.

Lemma substring_5_4 endpoint :
  substring 0 5 endpoint = "https" → substring 0 4 endpoint = "http".
Proof.
  destruct endpoint as [|a1 [|a2 [|a3 [|a4 [|a5 r]]]]]; try discriminate.
  cbn [substring]. intros [= -> -> -> -> ->]. reflexivity.
Qed.

Lemma minioURLOf_no_scheme protocol endpoint :
  String.prefix "http" endpoint = false →
  String.length endpoint ≠ 4 →
  minioURLOf protocol endpoint = Return (protocol +:+ "://" +:+ endpoint).
Proof.
  intros Hpre Hlen. unfold minioURLOf.
  destruct (decide (String.length endpoint < 4)) as [|Hge]; [reflexivity|].
  destruct (decide (substring 0 4 endpoint ≠ "http")) as [Hne|Heq].
  - rewrite decide_False by lia.
    destruct (decide (substring 0 5 endpoint ≠ "https")) as [|Hs]; [reflexivity|].
    destruct Hne. apply substring_5_4.
    by destruct (decide (substring 0 5 endpoint = "https")); [|destruct Hs].
  - assert (String.prefix "http" endpoint = true); [|congruence].
    apply prefix_correct. cbn [String.length].
    by destruct (decide (substring 0 4 endpoint = "http")); [|destruct Heq].
Qed.

(** X10.  The URL given to the endpoint resolver is the endpoint itself
    when it begins with ["http"] and otherwise the protocol, ["://"] and
    the endpoint; the computation panics exactly on an endpoint of four
    bytes other than ["http"], where the slice [minioURL[:5]] is out of
    range. *)
Theorem minioURLOf_spec protocol endpoint :
  ((∃ msg, minioURLOf protocol endpoint = Panic msg) ↔
   String.length endpoint = 4 ∧ endpoint ≠ "http") ∧
  (∀ url, minioURLOf protocol endpoint = Return url →
     url = if String.prefix "http" endpoint then endpoint
           else protocol +:+ "://" +:+ endpoint).
Proof.
  destruct (String.prefix "http" endpoint) eqn:Hpre.
  - rewrite (minioURLOf_scheme _ _ Hpre). split.
    + split; [intros [msg [=]]|]. intros [Hlen Hne]. destruct Hne.
      apply prefix_correct in Hpre. cbn [String.length] in Hpre.
      destruct endpoint as [|a1 [|a2 [|a3 [|a4 [|a5 r]]]]]; try discriminate Hlen.
      exact Hpre.
    + by intros url [= <-].
  - destruct (decide (String.length endpoint = 4)) as [Hlen|Hlen].
    + assert (Hne : endpoint ≠ "http") by (intros ->; discriminate Hpre).
      assert (Hpanic : minioURLOf protocol endpoint
                       = Panic "slice bounds out of range [:5] with length 4").
      { unfold minioURLOf. rewrite decide_False by lia.
        assert (Hsub : substring 0 4 endpoint = endpoint).
        { destruct endpoint as [|a1 [|a2 [|a3 [|a4 [|a5 r]]]]];
            try discriminate Hlen. reflexivity. }
        rewrite Hsub. rewrite decide_True by exact Hne.
        by rewrite decide_True by lia. }
      rewrite Hpanic. split; [|discriminate]. split; eauto.
    + rewrite (minioURLOf_no_scheme _ _ Hpre Hlen). split.
      * split; [intros [msg [=]]|]. by intros [? _].
      * by intros url [= <-].
Qed.

Lemma minioURLOf_spec_witness :
  String.length "host" = 4 ∧ "host" ≠ "http" ∧
  (∃ msg, minioURLOf "http" "host" = Panic msg) ∧
  minioURLOf "https" "minio:9000" = Return "https://minio:9000".
Proof.
  split; [reflexivity|]. split; [discriminate|]. split; [|reflexivity].
  apply (minioURLOf_spec "http" "host"). split; [reflexivity|discriminate].
Defined.

(** ** What calls on one backend leave alone *)

Lemma framed_refl s w : framed s w w.
Proof. by repeat split. Qed.

Lemma framed_trans s w w1 w2 : framed s w w1 → framed s w1 w2 → framed s w w2.
Proof.
  intros (H1 & H2 & H3 & H4 & H5) (G1 & G2 & G3 & G4 & G5).
  split; [|split; [|split; [|split]]].
  - intros s' Hne. by rewrite G1, H1.
  - congruence.
  - intros c Hc. rewrite G3 by lia. by apply H3.
  - lia.
  - by etrans.
Qed.

Lemma framed_logW s call w : framed s w (logW call w).
Proof.
  repeat split; try done. unfold logW. cbn [sdkLog]. by apply prefix_app_r.
Qed.

Lemma framed_afterW s obj calls w :
  providerAt s (afterW s obj calls w) = providerAt s w →
  framed s w (afterW s obj calls w).
Proof.
  intros Hp. split; [|split; [exact Hp|split; [|split]]]; unfold afterW;
    cbn [storages composers nextLoc sdkLog].
  - intros s' Hne. by rewrite lookup_insert_ne.
  - done.
  - done.
  - by apply prefix_app_r.
Qed.

Lemma framed_assembledW s obj sc calls w :
  providerAt s (assembledW s obj sc calls w) = providerAt s w →
  framed s w (assembledW s obj sc calls w).
Proof.
  intros Hp. split; [|split; [exact Hp|split; [|split]]]; unfold assembledW;
    cbn [storages composers nextLoc sdkLog].
  - intros s' Hne. by rewrite lookup_insert_ne.
  - intros c Hc. rewrite lookup_insert_ne by lia. done.
  - lia.
  - by apply prefix_app_r.
Qed.

Lemma providerAt_put_MinIO s o o1 w (w1 : World) :
  storages w !! s = Some (ObjMinIO o) →
  storages w1 = <[s := ObjMinIO o1]> (storages w) →
  providerAt s w1 = providerAt s w.
Proof.
  intros Hs H1. unfold providerAt. by rewrite H1, lookup_insert_eq, Hs.
Qed.

Lemma providerAt_put_Azure s o o1 w (w1 : World) :
  storages w !! s = Some (ObjAzure o) →
  storages w1 = <[s := ObjAzure o1]> (storages w) →
  providerAt s w1 = providerAt s w.
Proof.
  intros Hs H1. unfold providerAt. by rewrite H1, lookup_insert_eq, Hs.
Qed.

Lemma Storage_Initialize_framed sdk s cfg w r w1 :
  Storage_Initialize sdk (Some s) cfg w = (r, w1) → framed s w w1.
Proof.
  unfold Storage_Initialize, dispatch.
  destruct (storages w !! s) as [[o|o]|] eqn:Hs.
  - rewrite (MinIOStorage_Initialize_run sdk s cfg o w Hs). cbv zeta.
    destruct (minioURL cfg) as [url|msg].
    2:{ intros [= <- <-]. apply framed_afterW.
        by eapply providerAt_put_MinIO. }
    destruct (sdk_LoadDefaultConfig _ _ _).
    { intros [= <- <-]. apply framed_afterW. by eapply providerAt_put_MinIO. }
    destruct (sdk_HeadBucket _ _ _ _).
    + destruct (sdk_CreateBucket _ _ _ _); intros [= <- <-];
        [apply framed_afterW | apply framed_assembledW];
        by eapply providerAt_put_MinIO.
    + intros [= <- <-]. apply framed_assembledW. by eapply providerAt_put_MinIO.
  - rewrite (AzureStorage_Initialize_run sdk s cfg o w Hs).
    destruct (decide _). { intros [= <- <-]. apply framed_refl. }
    destruct (decide _). { intros [= <- <-]. apply framed_refl. }
    destruct (sdk_NewAzureService _ _ _); intros [= <- <-];
      [apply framed_afterW | apply framed_assembledW];
      by eapply providerAt_put_Azure.
  - intros [= <- <-]. apply framed_refl.
Qed.

Lemma Storage_GetHandler_framed sdk s basePath w r w1 :
  Storage_GetHandler sdk (Some s) basePath w = (r, w1) → framed s w w1.
Proof.
  unfold Storage_GetHandler, dispatch.
  destruct (storages w !! s) as [[o|o]|] eqn:Hs.
  - rewrite (MinIOStorage_GetHandler_run _ _ _ _ _ Hs).
    destruct (mInitialized o); intros [= <- <-];
      [apply framed_logW | apply framed_refl].
  - rewrite (AzureStorage_GetHandler_run _ _ _ _ _ Hs).
    destruct (aInitialized o); intros [= <- <-];
      [apply framed_logW | apply framed_refl].
  - intros [= <- <-]. apply framed_refl.
Qed.

Lemma bind_ret_world {A B} (c : M A) (f : A → B) w r w1 :
  bind c (fun a => ret (f a)) w = (r, w1) → ∃ r', c w = (r', w1).
Proof.
  unfold bind, ret. destruct (c w) as [[a|msg] w2]; intros [= <- <-]; eauto.
Qed.

Lemma runOp_framed sdk s op w r w1 :
  runOp sdk (Some s) op w = (r, w1) → framed s w w1.
Proof.
  destruct op as [cfg|basePath| |]; cbn [runOp]; intros H;
    apply bind_ret_world in H as (r' & H).
  - by apply Storage_Initialize_framed in H.
  - by apply Storage_GetHandler_framed in H.
  - apply Storage_GetProvider_world in H as ->. apply framed_refl.
  - apply Storage_GetStoreComposer_world in H as ->. apply framed_refl.
Qed.

Lemma runOps_framed sdk s ops : ∀ w r w1,
  runOps sdk (Some s) ops w = (r, w1) → framed s w w1.
Proof.
  induction ops as [|op ops IH]; intros w r w2.
  - intros [= <- <-]. apply framed_refl.
  - cbn [runOps]. unfold bind at 1.
    destruct (runOp sdk (Some s) op w) as [[a|msg] w1] eqn:Hop.
    + intros H. apply bind_ret_world in H as (r' & H).
      eapply framed_trans; [by eapply runOp_framed|by eapply IH].
    + intros [= <- <-]. by eapply runOp_framed.
Qed.

(** X11.  Whatever sequence of methods is called on one backend, and
    however it ends, the other backends in the store are as before, the
    composers allocated before keep their contents, and the library calls
    logged before stay a prefix of the log.  So initializing the backend
    registered under ["minio"] leaves the one under ["azure"] as its
    constructor made it. *)
Theorem calls_leave_the_rest sdk s ops w r w1 :
  runOps sdk (Some s) ops w = (r, w1) →
  (∀ s', s' ≠ s → storages w1 !! s' = storages w !! s') ∧
  (∀ c, (c < nextLoc w)%nat → composers w1 !! c = composers w !! c) ∧
  sdkLog w `prefix_of` sdkLog w1.
Proof.
  intros Hrun. apply runOps_framed in Hrun as (H1 & _ & H3 & _ & H5). done.
Qed.

Lemma calls_leave_the_rest_witness :
  let w := wFactory emptyWorld in
  let run := runOps sdkNoBucket (Some 1)
               [OpInitialize envDefaultConfig; OpGetHandler "/files/"] w in
  run = (fst run, snd run) ∧
  storages (snd run) !! 3 = Some (ObjAzure (freshAzure 2)) ∧
  composers (snd run) !! 2 = Some emptyComposer.
Proof.
  cbv zeta.
  destruct (calls_leave_the_rest sdkNoBucket 1
              [OpInitialize envDefaultConfig; OpGetHandler "/files/"]
              (wFactory emptyWorld) _ _ (surjective_pairing _)) as (Hs & Hc & _).
  split; [apply surjective_pairing|]. split.
  - rewrite Hs by discriminate. reflexivity.
  - rewrite Hc by (cbn; lia). reflexivity.
Defined.

(** ** [GetProvider] *)

Lemma Storage_GetProvider_run s w p :
  providerAt s w = Some p → Storage_GetProvider (Some s) w = (Return p, w).
Proof.
  unfold providerAt, Storage_GetProvider, dispatch.
  destruct (storages w !! s) as [[o|o]|]; by intros [= <-].
Qed.

Lemma factoryAt_Get n provider s :
  Registry_Get (registry (factoryAt n)) provider = (Some s, None) →
  (provider = MinIO ∧ s = S n) ∨ (provider = Azure ∧ s = S (S (S n))).
Proof.
  unfold Registry_Get, factoryAt. cbn [registry providers].
  destruct (decide (provider = Azure)) as [->|Ha].
  { rewrite lookup_insert_eq. intros [= <-]. by right. }
  rewrite lookup_insert_ne by congruence.
  destruct (decide (provider = MinIO)) as [->|Hm].
  { rewrite lookup_insert_eq. intros [= <-]. by left. }
  rewrite lookup_insert_ne by congruence. by rewrite lookup_empty.
Qed.

Lemma framed_providerAt target s w w1 :
  framed target w w1 → providerAt s w1 = providerAt s w.
Proof.
  intros (Hother & Hself & _). destruct (decide (s = target)) as [->|Hne].
  - exact Hself.
  - unfold providerAt. by rewrite Hother.
Qed.

(** X12.  The storage that the registry of [NewFactory] holds under an
    identifier answers that identifier from [GetProvider], without a
    change of the world, at any time: just after [NewFactory] and after
    any sequence of method calls on either backend, initialized or not. *)
Theorem GetProvider_registered sdk w provider s target ops r w1 :
  Registry_Get (registry (factoryAt (nextLoc w))) provider = (Some s, None) →
  runOps sdk (Some target) ops (wFactory w) = (r, w1) →
  Storage_GetProvider (Some s) w1 = (Return provider, w1).
Proof.
  intros Hget Hrun. apply Storage_GetProvider_run.
  rewrite (framed_providerAt target s _ _ (runOps_framed _ _ _ _ _ _ Hrun)).
  unfold providerAt.
  apply factoryAt_Get in Hget as [[-> ->]|[-> ->]].
  - by rewrite wFactory_minio.
  - by rewrite wFactory_azure.
Qed.

Lemma GetProvider_registered_witness :
  let w1 := snd (runOps sdkDown (Some 1) [OpInitialize envDefaultConfig]
                   (wFactory emptyWorld)) in
  Registry_Get (registry (factoryAt 0)) Azure = (Some 3, None) ∧
  Storage_GetProvider (Some 3) w1 = (Return Azure, w1).
Proof.
  cbv zeta.
  assert (Hget : Registry_Get (registry (factoryAt 0)) Azure = (Some 3, None))
    by reflexivity.
  split; [exact Hget|].
  exact (GetProvider_registered sdkDown emptyWorld Azure 3 1
           [OpInitialize envDefaultConfig] _ _ Hget (surjective_pairing _)).
Defined.

(** ** [GetHandler] on an initialized backend *)

Lemma Storage_GetHandler_initialized sdk s basePath c w :
  initializedAt s w = Some true →
  composerAt s w = Some c →
  Storage_GetHandler sdk (Some s) basePath w =
    (match sdk_NewHandler sdk (sdkLog w) (composers w) (handlerConfig basePath c) with
     | Some msg => Return (None, Some (Wrapf "error creating handler" (SdkError msg)))
     | None => Return (Some {| hConfig := handlerConfig basePath c |}, None)
     end, logW (CallNewHandler (handlerConfig basePath c)) w).
Proof.
  unfold initializedAt, composerAt, Storage_GetHandler, dispatch.
  destruct (storages w !! s) as [[o|o]|] eqn:Hs; intros [= Hi] [= <-].
  - by rewrite (MinIOStorage_GetHandler_run _ _ _ _ _ Hs), Hi.
  - by rewrite (AzureStorage_GetHandler_run _ _ _ _ _ Hs), Hi.
Qed.

(** X13.  After an [Initialize] that returned nil, every [GetHandler]
    makes one call of [tusd.NewHandler], with the base path given, the
    composer assembled by that [Initialize], completion notifications on
    and downloads not disabled, and returns the handler or, wrapped, the
    error of that call.  Nothing is cached and the backend is not changed:
    a second call is answered in the same way, with the same composer,
    also after a first call that failed. *)
Theorem GetHandler_after_Initialize sdk s cfg w w1 basePath1 basePath2 :
  Storage_Initialize sdk (Some s) cfg w = (Return None, w1) →
  let config1 := handlerConfig basePath1 (Some (nextLoc w)) in
  let config2 := handlerConfig basePath2 (Some (nextLoc w)) in
  let w2 := logW (CallNewHandler config1) w1 in
  let w3 := logW (CallNewHandler config2) w2 in
  Storage_GetHandler sdk (Some s) basePath1 w1 =
    (match sdk_NewHandler sdk (sdkLog w1) (composers w1) config1 with
     | Some msg => Return (None, Some (Wrapf "error creating handler" (SdkError msg)))
     | None => Return (Some {| hConfig := config1 |}, None)
     end, w2) ∧
  Storage_GetHandler sdk (Some s) basePath2 w2 =
    (match sdk_NewHandler sdk (sdkLog w1 ++ [CallNewHandler config1])
             (composers w1) config2 with
     | Some msg => Return (None, Some (Wrapf "error creating handler" (SdkError msg)))
     | None => Return (Some {| hConfig := config2 |}, None)
     end, w3) ∧
  storages w3 = storages w1 ∧ composers w3 = composers w1.
Proof.
  intros Hinit. cbv zeta.
  apply Storage_Initialize_success in Hinit as (Hi & Hc & _).
  split; [|split; [|done]].
  - by apply Storage_GetHandler_initialized.
  - by apply (Storage_GetHandler_initialized sdk s basePath2 _
                (logW (CallNewHandler (handlerConfig basePath1 (Some (nextLoc w)))) w1)).
Qed.

Lemma GetHandler_after_Initialize_witness :
  let w := wFactory emptyWorld in
  let w1 := snd (Storage_Initialize sdkAllOk (Some 3) azureAcctConfig w) in
  Storage_Initialize sdkAllOk (Some 3) azureAcctConfig w = (Return None, w1) ∧
  fst (Storage_GetHandler sdkAllOk (Some 3) "/files/" w1)
  = Return (Some {| hConfig := handlerConfig "/files/" (Some 4) |}, None).
Proof.
  cbv zeta.
  set (w := wFactory emptyWorld).
  set (w1 := snd (Storage_Initialize sdkAllOk (Some 3) azureAcctConfig w)).
  assert (Hinit : Storage_Initialize sdkAllOk (Some 3) azureAcctConfig w
                  = (Return None, w1)) by (vm_compute; reflexivity).
  split; [exact Hinit|].
  destruct (GetHandler_after_Initialize sdkAllOk 3 azureAcctConfig w w1
              "/files/" "/files/" Hinit) as (Hget & _).
  exact (f_equal fst Hget).
Defined.

(** ** Initializing again *)

(** X14.  Nothing stops a second [Initialize].  When it returns nil on a
    backend that was initialized before, the backend gets a composer at a
    new address, next to the old one, and the old composer stays in the
    store with its contents: a handler made before the second
    [Initialize] keeps the old composer, one made after it gets the new
    one. *)
Theorem Initialize_again_new_composer sdk s cfg1 cfg2 ops w w1 rs w2 w3 :
  Storage_Initialize sdk (Some s) cfg1 w = (Return None, w1) →
  runOps sdk (Some s) ops w1 = (Return rs, w2) →
  existsb isInitSuccess rs = false →
  Storage_Initialize sdk (Some s) cfg2 w2 = (Return None, w3) →
  composerAt s w2 = Some (Some (nextLoc w)) ∧
  composerAt s w3 = Some (Some (S (nextLoc w))) ∧
  composers w3 !! nextLoc w = composers w1 !! nextLoc w ∧
  ∃ store, composers w3 !! S (nextLoc w)
           = Some {| scCore := Some store; scLocker := Some MemoryLocker |}.
Proof.
  intros Hinit1 Hrun Hrs Hinit2.
  apply Storage_Initialize_success in Hinit1 as (_ & Hc1 & Hn1 & _).
  destruct (runOps_no_success _ _ _ _ _ _ Hrun Hrs) as (_ & Hc2 & Hcs & Hn2).
  pose proof (Storage_Initialize_framed _ _ _ _ _ _ Hinit2) as (_ & _ & Hframe & _).
  apply Storage_Initialize_success in Hinit2 as (_ & Hc3 & _ & store & Hsc).
  rewrite Hn2, Hn1 in Hc3, Hsc, Hframe.
  split; [congruence|]. split; [exact Hc3|]. split.
  - rewrite Hframe by lia. by rewrite Hcs.
  - eauto.
Qed.

Lemma Initialize_again_new_composer_witness :
  let w := wFactory emptyWorld in
  let w1 := snd (Storage_Initialize sdkAllOk (Some 1) envDefaultConfig w) in
  let w3 := snd (Storage_Initialize sdkAllOk (Some 1) mistypedConfig w1) in
  Storage_Initialize sdkAllOk (Some 1) envDefaultConfig w = (Return None, w1) ∧
  Storage_Initialize sdkAllOk (Some 1) mistypedConfig w1 = (Return None, w3) ∧
  composerAt 1 w1 = Some (Some 4) ∧ composerAt 1 w3 = Some (Some 5).
Proof.
  cbv zeta.
  set (w := wFactory emptyWorld).
  set (w1 := snd (Storage_Initialize sdkAllOk (Some 1) envDefaultConfig w)).
  set (w3 := snd (Storage_Initialize sdkAllOk (Some 1) mistypedConfig w1)).
  assert (H1 : Storage_Initialize sdkAllOk (Some 1) envDefaultConfig w
               = (Return None, w1)) by (vm_compute; reflexivity).
  assert (H2 : Storage_Initialize sdkAllOk (Some 1) mistypedConfig w1
               = (Return None, w3)) by (vm_compute; reflexivity).
  split; [exact H1|]. split; [exact H2|].
  destruct (Initialize_again_new_composer sdkAllOk 1 envDefaultConfig
              mistypedConfig [] w w1 [] w1 w3 H1 eq_refl eq_refl H2)
    as (Ha & Hb & _).
  split; [exact Ha|exact Hb].
Defined.

(** ** What a failed [Initialize] has already done *)

(** X15.  [MinIOStorage.Initialize] assigns the parsed configuration to
    the backend before anything can go wrong: however the run ends, with
    nil, with an error or with the panic of the URL, the [config] field is
    then the configuration merged from [cfg].  [AzureStorage.Initialize]
    assigns it only after its validation: an error that wraps
    [ErrInvalidConfig] leaves the world untouched, and the only other
    error, from the construction of the service, leaves the new
    configuration in the backend. *)
Theorem Initialize_stores_config sdk s cfg w :
  (∀ o r w1,
     storages w !! s = Some (ObjMinIO o) →
     MinIOStorage_Initialize sdk s cfg w = (r, w1) →
     s3ConfigAt s w1 = Some (s3Merge cfg)) ∧
  (∀ o e w1,
     storages w !! s = Some (ObjAzure o) →
     AzureStorage_Initialize sdk s cfg w = (Return (Some e), w1) →
     (errors_Is e ErrInvalidConfig = true ∧ w1 = w) ∨
     (errors_Is e ErrInvalidConfig = false ∧
      storages w1 !! s = Some (ObjAzure (withAzConfig (azureMerge cfg) o)))).
Proof.
  split.
  - intros o r w1 Hs. rewrite (MinIOStorage_Initialize_run sdk s cfg o w Hs).
    cbv zeta.
    assert (Hafter : ∀ o1 calls, mConfig o1 = s3Merge cfg →
              s3ConfigAt s (afterW s (ObjMinIO o1) calls w) = Some (s3Merge cfg)).
    { intros o1 calls Ho1. unfold s3ConfigAt, afterW. cbn [storages].
      by rewrite lookup_insert_eq, Ho1. }
    assert (Hdone : ∀ url c sc calls,
              s3ConfigAt s (assembledW s (ObjMinIO (minioReady cfg url c)) sc calls w)
              = Some (s3Merge cfg)).
    { intros url c sc calls. unfold s3ConfigAt, assembledW. cbn [storages].
      by rewrite lookup_insert_eq. }
    destruct (minioURL cfg) as [url|msg]; [|intros [= <- <-]; by apply Hafter].
    destruct (sdk_LoadDefaultConfig _ _ _); [intros [= <- <-]; by apply Hafter|].
    destruct (sdk_HeadBucket _ _ _ _); [|intros [= <- <-]; apply Hdone].
    destruct (sdk_CreateBucket _ _ _ _); intros [= <- <-];
      [by apply Hafter | apply Hdone].
  - intros o e w1 Hs. rewrite (AzureStorage_Initialize_run sdk s cfg o w Hs).
    destruct (decide _). { intros [= <- <-]. by left. }
    destruct (decide _). { intros [= <- <-]. by left. }
    destruct (sdk_NewAzureService _ _ _); [|discriminate].
    intros [= <- <-]. right. split; [reflexivity|].
    unfold afterW. cbn [storages]. by rewrite lookup_insert_eq.
Qed.

Lemma Initialize_stores_config_witness :
  let w := wFactory emptyWorld in
  let run := MinIOStorage_Initialize sdkDown 1 envDefaultConfig w in
  storages w !! 1 = Some (ObjMinIO (freshMinIO 0)) ∧
  run = (fst run, snd run) ∧
  s3ConfigAt 1 (snd run) = Some (s3Merge envDefaultConfig) ∧
  initializedAt 1 (snd run) = Some false.
Proof.
  cbv zeta.
  assert (Hs : storages (wFactory emptyWorld) !! 1 = Some (ObjMinIO (freshMinIO 0)))
    by reflexivity.
  split; [exact Hs|]. split; [apply surjective_pairing|]. split.
  - exact (proj1 (Initialize_stores_config sdkDown 1 envDefaultConfig
                    (wFactory emptyWorld)) _ _ _ Hs (surjective_pairing _)).
  - reflexivity.
Defined.

(** ** The SSL settings *)

Lemma MinIOStorage_Initialize_agree sdk s cfg cfg' o w :
  storages w !! s = Some (ObjMinIO o) →
  minioURL cfg' = minioURL cfg →
  s3Bucket (s3Merge cfg') = s3Bucket (s3Merge cfg) →
  (∀ url, minioOpts cfg' url = minioOpts cfg url) →
  runsAgree s (MinIOStorage_Initialize sdk s cfg w)
              (MinIOStorage_Initialize sdk s cfg' w).
Proof.
  intros Hs Hurl Hbucket Hopts. unfold runsAgree.
  rewrite (MinIOStorage_Initialize_run sdk s cfg' o w Hs).
  rewrite (MinIOStorage_Initialize_run sdk s cfg o w Hs). cbv zeta.
  unfold minioCallsLoad, minioCallsClient, minioCallsHead, minioCallsCreate,
    minioComposer, minioClient.
  rewrite Hurl, Hbucket.
  destruct (minioURL cfg) as [url|msg]; rewrite ?Hopts.
  2:{ unfold clientAt, afterW. cbn [fst snd storages composers sdkLog].
      rewrite !lookup_insert_eq. done. }
  destruct (sdk_LoadDefaultConfig _ _ _).
  { unfold clientAt, afterW. cbn [fst snd storages composers sdkLog].
    rewrite !lookup_insert_eq. done. }
  destruct (sdk_HeadBucket _ _ _ _).
  + destruct (sdk_CreateBucket _ _ _ _);
      unfold clientAt, afterW, assembledW, minioReady, minioClient;
      cbn [fst snd storages composers sdkLog];
      rewrite !lookup_insert_eq, ?Hopts; done.
  + unfold clientAt, assembledW, minioReady, minioClient.
    cbn [fst snd storages composers sdkLog].
    rewrite !lookup_insert_eq, ?Hopts. done.
Qed.

(** X16.  Of the three flags the S3-compatible backend parses, only
    [useSSL] is ever used, and only to choose between ["http"] and
    ["https"] for an endpoint that does not begin with ["http"].  Two
    configurations that differ at most under ["disableSSL"] and
    ["pathStyle"], and under ["useSSL"] when the endpoint already begins
    with ["http"], give runs of [Initialize] with the same result, the
    same library calls, the same client and the same composers. *)
Theorem MinIOStorage_ssl_flags sdk s cfg cfg' o w :
  storages w !! s = Some (ObjMinIO o) →
  (∀ key, key ≠ "useSSL" → key ≠ "disableSSL" → key ≠ "pathStyle" →
     prop cfg' key = prop cfg key) →
  prop cfg' "useSSL" = prop cfg "useSSL" ∨
  String.prefix "http" (s3Endpoint (s3Merge cfg)) = true →
  runsAgree s (MinIOStorage_Initialize sdk s cfg w)
              (MinIOStorage_Initialize sdk s cfg' w).
Proof.
  intros Hs Hsame Hssl.
  assert (He : s3Endpoint (s3Merge cfg') = s3Endpoint (s3Merge cfg))
    by (unfold s3Merge; cbn [s3Endpoint]; by rewrite Hsame).
  apply (MinIOStorage_Initialize_agree sdk s cfg cfg' o w Hs).
  - unfold minioURL. rewrite He. destruct Hssl as [Hu|Hpre].
    + unfold s3Merge. cbn [s3UseSSL]. by rewrite Hu.
    + by rewrite !(minioURLOf_scheme _ _ Hpre).
  - unfold s3Merge. cbn [s3Bucket]. by rewrite Hsame.
  - intros url. unfold minioOpts, s3Merge.
    cbn [s3Region s3AccessKey s3SecretKey]. by rewrite !Hsame.
Qed.

Lemma MinIOStorage_ssl_flags_witness :
  let w := wFactory emptyWorld in
  let cfg := withProp "endpoint" (VString "http://minio:9000") envDefaultConfig in
  let cfg' := withProp "useSSL" (VBool true) cfg in
  storages w !! 1 = Some (ObjMinIO (freshMinIO 0)) ∧
  String.prefix "http" (s3Endpoint (s3Merge cfg)) = true ∧
  fst (MinIOStorage_Initialize sdkAllOk 1 cfg' w)
  = fst (MinIOStorage_Initialize sdkAllOk 1 cfg w) ∧
  sdkLog (snd (MinIOStorage_Initialize sdkAllOk 1 cfg' w))
  = sdkLog (snd (MinIOStorage_Initialize sdkAllOk 1 cfg w)).
Proof.
  cbv zeta.
  set (cfg := withProp "endpoint" (VString "http://minio:9000") envDefaultConfig).
  assert (Hs : storages (wFactory emptyWorld) !! 1 = Some (ObjMinIO (freshMinIO 0)))
    by reflexivity.
  assert (Hpre : String.prefix "http" (s3Endpoint (s3Merge cfg)) = true)
    by reflexivity.
  split; [exact Hs|]. split; [exact Hpre|].
  destruct (MinIOStorage_ssl_flags sdkAllOk 1 cfg
              (withProp "useSSL" (VBool true) cfg) (freshMinIO 0)
              (wFactory emptyWorld) Hs) as (H1 & H2 & _).
  - intros key Hu _ _. unfold prop, withProp. cbn [Properties default].
    by rewrite lookup_insert_ne.
  - by right.
  - split; assumption.
Defined.

(** ** The storage set-up of [main] *)

Lemma main_storage_inv sdk ToLower env w store provider h w1 :
  main_storage sdk ToLower env w = (Return (MainServing store provider h), w1) →
  ∃ s cfg w0,
    store = Some s ∧
    envConfig ToLower env = inl cfg ∧
    Registry_Get (registry (factoryAt (nextLoc w))) (cfgProvider cfg)
    = (Some s, None) ∧
    Storage_Initialize sdk (Some s) cfg (wFactory w) = (Return None, w0) ∧
    provider = cfgProvider cfg ∧
    h = {| hConfig := handlerConfig "/files/" (Some (nextLoc (wFactory w))) |} ∧
    w1 = logW (CallNewHandler (hConfig h)) w0.
Proof.
  unfold main_storage.
  erewrite bind_Return by apply NewFactory_run.
  unfold bind at 1.
  destruct (Factory_CreateFromEnv sdk ToLower (factoryAt (nextLoc w)) env (wFactory w))
    as [[[st err]|msg] w0] eqn:Hcreate; [|discriminate].
  cbn [fst snd]. destruct err as [e|]; [discriminate|].
  unfold Factory_CreateFromEnv in Hcreate.
  destruct (envConfig ToLower env) as [cfg|e] eqn:Hcfg; [|discriminate Hcreate].
  apply NewStorageFromConfig_inv in Hcreate
    as [(s & -> & _ & Hr & Hinit)|(_ & e & [=])].
  assert (Hget : Registry_Get (registry (factoryAt (nextLoc w))) (cfgProvider cfg)
                 = (Some s, None)).
  { unfold Registry_Get. by rewrite Hr. }
  pose proof (Storage_Initialize_framed _ _ _ _ _ _ Hinit) as Hframe.
  pose proof (Storage_Initialize_success _ _ _ _ _ Hinit) as (Hi & Hc & _).
  assert (Hp : providerAt s w0 = Some (cfgProvider cfg)).
  { rewrite (framed_providerAt s s _ _ Hframe). unfold providerAt.
    apply factoryAt_Get in Hget as [[-> ->]|[-> ->]].
    - by rewrite wFactory_minio.
    - by rewrite wFactory_azure. }
  erewrite bind_Return by (apply Storage_GetProvider_run; exact Hp).
  pose proof (Storage_GetHandler_initialized sdk s "/files/" _ w0 Hi Hc) as Hh.
  destruct (sdk_NewHandler _ _ _ _);
    (erewrite bind_Return by exact Hh); cbn [fst snd]; [discriminate|].
  intros [= <- <- <- <-]. exists s, cfg, w0. done.
Qed.

(** X17.  When the storage set-up of [main] goes on to serve, the store
    is a backend of the registry, chosen by the [Config] that
    [CreateFromEnv] built from the environment and initialized; the
    provider it reports is the provider of that [Config]; and the handler
    is bound to ["/files/"] and to the composer of the store, which holds
    a data store and the in-memory locker.  Every other way out is
    [os.Exit(1)] or a panic. *)
Theorem main_storage_serving sdk ToLower env w :
  (∀ store provider h w1,
     main_storage sdk ToLower env w = (Return (MainServing store provider h), w1) →
     ∃ s cfg c,
       store = Some s ∧
       envConfig ToLower env = inl cfg ∧
       provider = cfgProvider cfg ∧
       Registry_Get (registry (factoryAt (nextLoc w))) provider = (Some s, None) ∧
       initializedAt s w1 = Some true ∧
       composerAt s w1 = Some (Some c) ∧
       hConfig h = handlerConfig "/files/" (Some c) ∧
       ∃ ds, composers w1 !! c
             = Some {| scCore := Some ds; scLocker := Some MemoryLocker |}) ∧
  (∀ code w1, main_storage sdk ToLower env w = (Return (MainExit code), w1) →
              code = 1%Z).
Proof.
  split.
  - intros store provider h w1 Hmain.
    apply main_storage_inv in Hmain
      as (s & cfg & w0 & -> & Hcfg & Hget & Hinit & -> & -> & ->).
    apply Storage_Initialize_success in Hinit as (Hi & Hc & _ & ds & Hds).
    exists s, cfg, (nextLoc (wFactory w)). repeat split; try done. eauto.
  - intros code w1. unfold main_storage.
    erewrite bind_Return by apply NewFactory_run.
    unfold bind at 1.
    destruct (Factory_CreateFromEnv _ _ _ _ _) as [[[st err]|msg] w0];
      [|discriminate].
    cbn [fst snd]. destruct err as [e|]; [by intros [= <- <-]|].
    unfold bind.
    destruct (Storage_GetProvider st w0) as [[p|msg] w2]; [|discriminate].
    destruct (Storage_GetHandler sdk st "/files/" w2) as [[[oh oe]|msg] w3];
      [|discriminate].
    cbn [fst snd]. destruct oe; [by intros [= <- <-]|].
    destruct oh; discriminate.
Qed.

Lemma main_storage_serving_witness :
  let run := main_storage sdkNoBucket asciiLower ∅ emptyWorld in
  run = (Return (MainServing (Some 1) MinIO
                   {| hConfig := handlerConfig "/files/" (Some 4) |}), snd run) ∧
  initializedAt 1 (snd run) = Some true.
Proof.
  cbv zeta.
  set (run := main_storage sdkNoBucket asciiLower ∅ emptyWorld).
  assert (Hrun : run = (Return (MainServing (Some 1) MinIO
                          {| hConfig := handlerConfig "/files/" (Some 4) |}),
                        snd run)) by (vm_compute; reflexivity).
  split; [exact Hrun|].
  destruct (proj1 (main_storage_serving sdkNoBucket asciiLower ∅ emptyWorld)
              _ _ _ _ Hrun) as (s & cfg & c & Hs & _ & _ & _ & Hi & _).
  injection Hs as <-. exact Hi.
Defined.

Lemma envConfig_inl_ToLower ToLower env cfg :
  envConfig ToLower env = inl cfg →
  cfgProvider cfg = ToLower (getEnv env "STORAGE_TYPE" MinIO).
Proof.
  unfold envConfig, getEnv. cbv zeta.
  destruct (decide (_ = MinIO)); [by intros [= <-]|].
  destruct (decide (_ = Azure)); [by intros [= <-]|]. discriminate.
Qed.

Lemma applyEnvEntry_Storage_Type ToLower Sscanf_d cfg env :
  config.Storage_Type
    (config.Storage (config.applyEnvEntry ToLower Sscanf_d cfg env))
  = default (config.Storage_Type (config.Storage cfg))
      (storageTypeOverride ToLower env).
Proof.
  unfold config.applyEnvEntry, storageTypeOverride, config.EnvPrefix.
  destruct (String.prefix "APP_" env); cbn [negb]; [|reflexivity].
  destruct (config.splitAtEq env) as [[name value]|]; [|reflexivity].
  unfold config.applyEnvOverride. cbv zeta.
  destruct (decide (ToLower (config.TrimPrefix name "APP_") = "storage_type"))
    as [->|Hne].
  - reflexivity.
  - repeat case_decide; try reflexivity; try contradiction.
    destruct (Sscanf_d value); reflexivity.
Qed.

Lemma applyEnvironmentOverrides_Storage_Type ToLower Sscanf_d environ :
  ∀ cfg,
    main_cfgStorageType ToLower Sscanf_d cfg environ
    = default (config.Storage_Type (config.Storage cfg))
        (last (storageTypeOverrides ToLower environ)).
Proof.
  unfold main_cfgStorageType, config.applyEnvironmentOverrides,
    storageTypeOverrides.
  induction environ as [|env environ IH]; intros cfg; [reflexivity|].
  cbn [foldl]. rewrite IH, applyEnvEntry_Storage_Type.
  change (omap (storageTypeOverride ToLower) (env :: environ))
    with (match storageTypeOverride ToLower env with
          | Some value => value :: omap (storageTypeOverride ToLower) environ
          | None => omap (storageTypeOverride ToLower) environ
          end).
  destruct (storageTypeOverride ToLower env) as [value|]; [|reflexivity].
  cbn [default]. rewrite last_cons.
  by destruct (last (omap _ environ)).
Qed.

(** X18.  The provider named in the first storage line of [main]'s log is
    the storage type of the loaded configuration whenever that is not
    empty: the value of the last [APP_STORAGE_TYPE] entry of the
    environment, the name after ["APP_"] compared lower-cased, or the
    value of the file when there is no such entry.  Only an empty storage
    type lets the line follow [STORAGE_TYPE].  The backend that [main]
    starts is chosen from [STORAGE_TYPE] alone: the store reports that
    variable lower-cased, with ["minio"] standing in for an unset or empty
    one, whatever the file and the [APP_] entries say; so the line and the
    backend can differ. *)
Theorem main_logged_provider sdk ToLower Sscanf_d fileCfg environ env w :
  let loaded := main_cfgStorageType ToLower Sscanf_d fileCfg environ in
  loaded = default (config.Storage_Type (config.Storage fileCfg))
             (last (storageTypeOverrides ToLower environ)) ∧
  (loaded ≠ "" → main_storageProvider loaded env = loaded) ∧
  (loaded = "" →
   main_storageProvider loaded env = getEnv env "STORAGE_TYPE" MinIO) ∧
  (∀ store provider h w1,
     main_storage sdk ToLower env w = (Return (MainServing store provider h), w1) →
     provider = ToLower (getEnv env "STORAGE_TYPE" MinIO)).
Proof.
  cbv zeta. split; [apply applyEnvironmentOverrides_Storage_Type|].
  split; [|split].
  - intros Hne. unfold main_storageProvider. by rewrite decide_True.
  - intros ->. unfold main_storageProvider, getEnv. cbv zeta.
    rewrite decide_False by (by intros []).
    destruct (decide (os_Getenv env "STORAGE_TYPE" = "")) as [He|He].
    + by rewrite decide_False by (by intros []).
    + by rewrite decide_True.
  - intros store provider h w1 Hmain.
    apply main_storage_inv in Hmain as (s & cfg & w0 & _ & Hcfg & _ & _ & -> & _).
    by apply envConfig_inl_ToLower.
Qed.

Lemma main_logged_provider_witness :
  let key :=
    "Eby8vdM02xNOcqFlqUwJPLlmEtlCDXJ1OUzFT50uSRZ6IFsuFq2UVErCz4I6tq/K1SZFPTOtr/KBHBeksoGMGw==" in
  let environ :=
    ["STORAGE_TYPE=azure"; "AZURE_STORAGE_ACCOUNT=devstoreaccount1";
     "AZURE_STORAGE_KEY=" +:+ key] in
  let env : gmap string string :=
    <["STORAGE_TYPE" := "azure"]> (
    <["AZURE_STORAGE_ACCOUNT" := "devstoreaccount1"]> (
    <["AZURE_STORAGE_KEY" := key]> ∅)) in
  let loaded := main_cfgStorageType asciiLower config.scanUnsigned configYml environ in
  loaded = "minio" ∧
  main_storageProvider loaded env = "minio" ∧
  ∃ store h w1,
    main_storage sdkEmptyRemote asciiLower env emptyWorld
    = (Return (MainServing store Azure h), w1).
Proof.
  cbv zeta.
  set (key := "Eby8vdM02xNOcqFlqUwJPLlmEtlCDXJ1OUzFT50uSRZ6IFsuFq2UVErCz4I6tq/K1SZFPTOtr/KBHBeksoGMGw==").
  set (environ := ["STORAGE_TYPE=azure"; "AZURE_STORAGE_ACCOUNT=devstoreaccount1";
                   "AZURE_STORAGE_KEY=" +:+ key]).
  set (env := (<["STORAGE_TYPE" := "azure"]> (
               <["AZURE_STORAGE_ACCOUNT" := "devstoreaccount1"]> (
               <["AZURE_STORAGE_KEY" := key]> ∅)) : gmap string string)).
  destruct (main_logged_provider sdkEmptyRemote asciiLower config.scanUnsigned
              configYml environ env emptyWorld) as (Hloaded & Hlog & _ & Hrun).
  assert (Hminio : main_cfgStorageType asciiLower config.scanUnsigned configYml
                     environ = "minio") by (rewrite Hloaded; reflexivity).
  split; [exact Hminio|]. split.
  - rewrite Hlog; [exact Hminio|]. rewrite Hminio. discriminate.
  - assert (Hserve : ∃ store provider h w1,
              main_storage sdkEmptyRemote asciiLower env emptyWorld
              = (Return (MainServing store provider h), w1))
      by (do 4 eexists; vm_compute; reflexivity).
    destruct Hserve as (store & provider & h & w1 & Hserve).
    exists store, h, w1. rewrite Hserve.
    by rewrite (Hrun _ _ _ _ Hserve).
Defined.

(** ** Overrides of the configuration file from the environment *)

Lemma applyEnvOverride_fixedPart ToLower Sscanf_d cfg key value :
  config.fixedPart (config.applyEnvOverride ToLower Sscanf_d cfg key value)
  = config.fixedPart cfg.
Proof.
  unfold config.applyEnvOverride. cbv zeta.
  repeat case_decide; try reflexivity.
  destruct (Sscanf_d value); reflexivity.
Qed.

Lemma applyEnvEntry_fixedPart ToLower Sscanf_d cfg env :
  config.fixedPart (config.applyEnvEntry ToLower Sscanf_d cfg env)
  = config.fixedPart cfg.
Proof.
  unfold config.applyEnvEntry.
  destruct (negb _); [reflexivity|].
  destruct (config.splitAtEq env) as [[key value]|]; [|reflexivity].
  apply applyEnvOverride_fixedPart.
Qed.

(** X19.  No environment, whatever its variables and their order, can
    override the application name, the timeout, the local directories, the
    S3 endpoint, the MinIO endpoint, the MinIO SSL flag, the log format or
    the CORS settings of the configuration file:
    [applyEnvironmentOverrides] returns them as they were. *)
Theorem applyEnvironmentOverrides_fixed ToLower Sscanf_d cfg environ :
  config.fixedPart (config.applyEnvironmentOverrides ToLower Sscanf_d cfg environ)
  = config.fixedPart cfg.
Proof.
  unfold config.applyEnvironmentOverrides.
  revert cfg. induction environ as [|env environ IH]; intros cfg.
  - reflexivity.
  - cbn [foldl]. rewrite IH. apply applyEnvEntry_fixedPart.
Qed.

(** X20.  An entry of the environment changes the configuration only if
    it begins with ["APP_"] in capitals, holds a ["="], and the name after
    the prefix, lower-cased by [strings.ToLower], is one of the fifteen
    keys with an override.  Names that lower-case alike have the same
    effect, so a name of ASCII bytes is matched without regard to case. *)
Theorem applyEnvEntry_ignored ToLower Sscanf_d cfg :
  (∀ env, String.prefix "APP_" env = false →
     config.applyEnvEntry ToLower Sscanf_d cfg env = cfg) ∧
  (∀ env, config.splitAtEq env = None →
     config.applyEnvEntry ToLower Sscanf_d cfg env = cfg) ∧
  (∀ key value, ToLower key ∉ config.overridable →
     config.applyEnvOverride ToLower Sscanf_d cfg key value = cfg) ∧
  (∀ env, config.applyEnvEntry ToLower Sscanf_d cfg env ≠ cfg →
     String.prefix "APP_" env = true ∧
     ∃ name value,
       config.splitAtEq env = Some (name, value) ∧
       ToLower (config.TrimPrefix name "APP_") ∈ config.overridable) ∧
  (∀ key key' value, ToLower key = ToLower key' →
     config.applyEnvOverride ToLower Sscanf_d cfg key value
     = config.applyEnvOverride ToLower Sscanf_d cfg key' value) ∧
  (ToLower_spec ToLower →
   ∀ key key' value, isASCII key = true → isASCII key' = true →
     asciiLower key = asciiLower key' →
     config.applyEnvOverride ToLower Sscanf_d cfg key value
     = config.applyEnvOverride ToLower Sscanf_d cfg key' value).
Proof.
  assert (Hkey : ∀ key value, ToLower key ∉ config.overridable →
            config.applyEnvOverride ToLower Sscanf_d cfg key value = cfg).
  { intros key value Hnot. unfold config.applyEnvOverride. cbv zeta.
    repeat case_decide; try reflexivity;
      destruct Hnot; unfold config.overridable; set_solver. }
  assert (Hsame : ∀ key key' value, ToLower key = ToLower key' →
            config.applyEnvOverride ToLower Sscanf_d cfg key value
            = config.applyEnvOverride ToLower Sscanf_d cfg key' value).
  { intros key key' value Heq. unfold config.applyEnvOverride.
    cbv zeta. by rewrite Heq. }
  split; [|split; [|split; [exact Hkey|split; [|split; [exact Hsame|]]]]].
  - intros env Hpre. unfold config.applyEnvEntry, config.EnvPrefix.
    by rewrite Hpre.
  - intros env Hsplit. unfold config.applyEnvEntry. rewrite Hsplit.
    by destruct (negb _).
  - intros env. unfold config.applyEnvEntry, config.EnvPrefix.
    destruct (String.prefix "APP_" env); cbn [negb]; [|by intros []].
    destruct (config.splitAtEq env) as [[name value]|]; [|by intros []].
    intros Hch. split; [reflexivity|]. exists name, value.
    split; [reflexivity|].
    destruct (decide (ToLower (config.TrimPrefix name "APP_")
                      ∈ config.overridable)) as [Hin|Hnot]; [exact Hin|].
    destruct Hch. by apply Hkey.
  - intros Hlow key key' value Hk Hk' Heq. apply Hsame.
    by rewrite (Hlow key Hk), (Hlow key' Hk'), Heq.
Qed.

Lemma applyEnvEntry_ignored_witness :
  String.prefix "APP_" "app_storage_type=azure" = false ∧
  (asciiLower "PORT" ∉ config.overridable) ∧
  (∀ cfg,
     config.applyEnvEntry asciiLower config.scanUnsigned cfg
       "app_storage_type=azure" = cfg ∧
     config.applyEnvOverride asciiLower config.scanUnsigned cfg "PORT" "8081"
     = cfg).
Proof.
  assert (Hpre : String.prefix "APP_" "app_storage_type=azure" = false)
    by reflexivity.
  assert (Hnot : asciiLower "PORT" ∉ config.overridable).
  { change (asciiLower "PORT") with "port". unfold config.overridable.
    rewrite !not_elem_of_cons. repeat (split; [discriminate|]).
    apply not_elem_of_nil. }
  split; [exact Hpre|]. split; [exact Hnot|]. intros cfg.
  destruct (applyEnvEntry_ignored asciiLower config.scanUnsigned cfg)
    as (Hprefix & _ & Hkey & _).
  split; [exact (Hprefix "app_storage_type=azure" Hpre)|].
  exact (Hkey "PORT" "8081" Hnot).
Defined.

Ltac override_cases Sscanf_d :=
  repeat case_decide; subst; try congruence; try reflexivity;
  repeat match goal with
         | |- context [Sscanf_d ?v] => destruct (Sscanf_d v) eqn:?
         end;
  try congruence; try reflexivity.

(** X21.  Overrides compose as assignments to separate fields: applying
    one twice is applying it once; two overrides under keys that
    lower-case differently give the same configuration in either order;
    and of two overrides under keys that lower-case alike the later one
    wins, unless it is a port that does not scan, which leaves the earlier
    one standing. *)
Theorem applyEnvOverride_compose ToLower Sscanf_d cfg key1 value1 key2 value2 :
  let ov := config.applyEnvOverride ToLower Sscanf_d in
  ov (ov cfg key1 value1) key1 value1 = ov cfg key1 value1 ∧
  (ToLower key1 ≠ ToLower key2 →
   ov (ov cfg key1 value1) key2 value2 = ov (ov cfg key2 value2) key1 value1) ∧
  (ToLower key1 = ToLower key2 →
   (ToLower key2 = "app_port" → is_Some (Sscanf_d value2)) →
   ov (ov cfg key1 value1) key2 value2 = ov cfg key2 value2) ∧
  (ToLower key1 = ToLower key2 → Sscanf_d value2 = None →
   ToLower key2 = "app_port" →
   ov (ov cfg key1 value1) key2 value2 = ov cfg key1 value1).
Proof.
  cbv zeta. unfold config.applyEnvOverride. cbv zeta.
  generalize (ToLower key1) (ToLower key2). intros k1 k2.
  split; [|split; [|split]].
  - override_cases Sscanf_d.
  - intros Hne. override_cases Sscanf_d.
  - intros -> Hport. override_cases Sscanf_d.
    destruct Hport as [? [=]]; reflexivity.
  - intros -> Hnone ->. rewrite Hnone. override_cases Sscanf_d.
Qed.

Lemma applyEnvOverride_compose_witness :
  let ov := config.applyEnvOverride asciiLower config.scanUnsigned in
  asciiLower "STORAGE_TYPE" ≠ asciiLower "APP_PORT" ∧
  ∀ cfg, ov (ov cfg "STORAGE_TYPE" "azure") "APP_PORT" "9090"
         = ov (ov cfg "APP_PORT" "9090") "STORAGE_TYPE" "azure".
Proof.
  cbv zeta.
  assert (Hne : asciiLower "STORAGE_TYPE" ≠ asciiLower "APP_PORT") by discriminate.
  split; [exact Hne|]. intros cfg.
  exact (proj1 (proj2 (applyEnvOverride_compose asciiLower config.scanUnsigned cfg
                         "STORAGE_TYPE" "azure" "APP_PORT" "9090")) Hne).
Defined.

(** The override of the test of the package: [APP_APP_PORT=8888],
    [APP_STORAGE_TYPE=s3] and [APP_LOGGING_LEVEL=error]. *)
Example applyEnvironmentOverrides_test cfg :
  let cfg' := config.applyEnvironmentOverrides asciiLower config.scanUnsigned cfg
                ["PATH=/bin"; "APP_APP_PORT=8888"; "APP_STORAGE_TYPE=s3";
                 "APP_LOGGING_LEVEL=error"] in
  config.App_Port (config.App cfg') = 8888%Z ∧
  config.Storage_Type (config.Storage cfg') = "s3" ∧
  config.Logging_Level (config.Logging cfg') = "error".
Proof. repeat split. Qed.

(** ** From the environment to the first library call *)

(** X22.  With ["minio"] selected and an endpoint, from [MINIO_ENDPOINT]
    or the default, that does not begin with ["http"] and is not four
    bytes long, [CreateFromEnv] on a new factory does not panic and first
    calls [LoadDefaultConfig] with the region and the credentials of the
    environment and with the URL made of the scheme, ["://"] and the
    endpoint.  The scheme is ["https"] exactly when [MINIO_USE_SSL],
    lower-cased, is [true], [yes], [1] or [on]; every other value, like
    no value, gives ["http"]. *)
Theorem CreateFromEnv_first_call sdk ToLower env cfg w :
  ToLower_spec ToLower →
  envConfig ToLower env = inl cfg →
  cfgProvider cfg = MinIO →
  let endpoint := getEnv env "MINIO_ENDPOINT" "localhost:9000" in
  let ssl := getEnvBool ToLower env "MINIO_USE_SSL" false in
  let opts :=
    {| loRegion := getEnv env "MINIO_REGION" "us-east-1";
       loEndpointURL := (if ssl then "https" else "http") +:+ "://" +:+ endpoint;
       loAccessKey := getEnv env "MINIO_ACCESS_KEY" "minioadmin";
       loSecretKey := getEnv env "MINIO_SECRET_KEY" "minioadmin" |} in
  (isASCII (os_Getenv env "MINIO_USE_SSL") = true →
   (ssl = true ↔
    asciiLower (os_Getenv env "MINIO_USE_SSL") ∈ ["true"; "yes"; "1"; "on"])) ∧
  (String.prefix "http" endpoint = false →
   String.length endpoint ≠ 4 →
   ∃ r w1 rest,
     Factory_CreateFromEnv sdk ToLower (factoryAt (nextLoc w)) env (wFactory w)
     = (Return r, w1) ∧
     sdkLog w1 = sdkLog w ++ CallLoadDefaultConfig opts :: rest).
Proof.
  intros Hlow Hcfg Hp endpoint ssl opts. split.
  - intros Hascii. unfold ssl, getEnvBool. cbv zeta.
    destruct (decide (os_Getenv env "MINIO_USE_SSL" = "")) as [He|He].
    { rewrite He. split; [discriminate|]. intros Hin.
      repeat (apply elem_of_cons in Hin as [Hin|Hin]); try discriminate Hin.
      by apply elem_of_nil in Hin. }
    rewrite (Hlow _ Hascii).
    rewrite !orb_true_iff, !bool_decide_eq_true, !elem_of_cons, elem_of_nil.
    tauto.
  - intros Hpre Hlen.
    pose proof (proj1 (envConfig_merge_both ToLower env cfg Hcfg) Hp) as Hmerge.
    assert (Hurl : minioURL cfg
                   = Return ((if ssl then "https" else "http") +:+ "://" +:+ endpoint)).
    { unfold minioURL. rewrite Hmerge. cbn [envS3Config s3UseSSL s3Endpoint].
      by apply minioURLOf_no_scheme. }
    assert (Hopts : minioOpts cfg ((if ssl then "https" else "http") +:+ "://"
                                   +:+ endpoint) = opts).
    { unfold minioOpts. by rewrite Hmerge. }
    unfold Factory_CreateFromEnv. rewrite Hcfg.
    unfold Registry_NewStorageFromConfig, Registry_Get, factoryAt.
    cbn [registry providers]. rewrite Hp.
    rewrite lookup_insert_ne by discriminate. rewrite lookup_insert_eq.
    cbv iota beta. unfold bind, Storage_Initialize.
    erewrite dispatch_MinIO by apply wFactory_minio.
    rewrite (MinIOStorage_Initialize_run sdk _ cfg _ _ (wFactory_minio w)).
    cbv zeta. rewrite Hurl.
    unfold minioCallsLoad, minioCallsClient, minioCallsHead, minioCallsCreate.
    rewrite Hopts.
    destruct (sdk_LoadDefaultConfig _ _ _); [by do 3 eexists|].
    destruct (sdk_HeadBucket _ _ _ _); [|by do 3 eexists].
    destruct (sdk_CreateBucket _ _ _ _); by do 3 eexists.
Qed.

Lemma CreateFromEnv_first_call_witness :
  let env : gmap string string := <["MINIO_USE_SSL" := "On"]> ∅ in
  envConfig asciiLower env
  = inl (withProp "disableSSL" (VBool false)
           (withProp "useSSL" (VBool true) envDefaultConfig)) ∧
  isASCII (os_Getenv env "MINIO_USE_SSL") = true ∧
  asciiLower (os_Getenv env "MINIO_USE_SSL") ∈ ["true"; "yes"; "1"; "on"] ∧
  getEnvBool asciiLower env "MINIO_USE_SSL" false = true.
Proof.
  cbv zeta.
  set (env := (<["MINIO_USE_SSL" := "On"]> ∅ : gmap string string)).
  assert (Hcfg : envConfig asciiLower env
                 = inl (withProp "disableSSL" (VBool false)
                          (withProp "useSSL" (VBool true) envDefaultConfig))).
  { vm_compute. reflexivity. }
  assert (Hascii : isASCII (os_Getenv env "MINIO_USE_SSL") = true) by reflexivity.
  assert (Hin : asciiLower (os_Getenv env "MINIO_USE_SSL")
                ∈ ["true"; "yes"; "1"; "on"]).
  { change (asciiLower (os_Getenv env "MINIO_USE_SSL")) with "on".
    rewrite !elem_of_cons. tauto. }
  split; [exact Hcfg|]. split; [exact Hascii|]. split; [exact Hin|].
  exact (proj2 (proj1 (CreateFromEnv_first_call sdkAllOk asciiLower env _
                         emptyWorld asciiLower_spec Hcfg eq_refl) Hascii) Hin).
Defined.

(** ** One composer for each backend *)

Lemma Storage_Initialize_store sdk s cfg w w1 :
  Storage_Initialize sdk (Some s) cfg w = (Return None, w1) →
  ∃ store,
    storeAt s w1 = Some store ∧
    composers w1 !! nextLoc w
    = Some {| scCore := Some store; scLocker := Some MemoryLocker |}.
Proof.
  unfold Storage_Initialize, dispatch.
  destruct (storages w !! s) as [[o|o]|] eqn:Hs; [| |discriminate].
  - rewrite (MinIOStorage_Initialize_run sdk s cfg o w Hs). cbv zeta.
    destruct (minioURL cfg) as [url|msg]; [|discriminate].
    destruct (sdk_LoadDefaultConfig _ _ _); [discriminate|].
    assert (∀ calls,
      let w1 := assembledW s (ObjMinIO (minioReady cfg url (nextLoc w)))
                  (minioComposer cfg url) calls w in
      ∃ store,
        storeAt s w1 = Some store ∧
        composers w1 !! nextLoc w
        = Some {| scCore := Some store; scLocker := Some MemoryLocker |})
      as Hdone.
    { intros calls. unfold storeAt, assembledW.
      cbn [storages composers]. rewrite !lookup_insert_eq.
      eexists. split; reflexivity. }
    destruct (sdk_HeadBucket _ _ _ _).
    + destruct (sdk_CreateBucket _ _ _ _); [discriminate|].
      intros [= <-]. apply Hdone.
    + intros [= <-]. apply Hdone.
  - rewrite (AzureStorage_Initialize_run sdk s cfg o w Hs).
    destruct (decide _); [discriminate|]. destruct (decide _); [discriminate|].
    destruct (sdk_NewAzureService _ _ _); [discriminate|].
    intros [= <-]. unfold storeAt, assembledW.
    cbn [storages composers]. rewrite !lookup_insert_eq.
    eexists. split; reflexivity.
Qed.

(** X23.  Two different backends that have both been initialized hold
    composers at different addresses, and the data store registered in
    each composer is the one of its own backend: the store on that
    backend's bucket and client, or on that backend's Azure service.
    Each composer also has a locker registered. *)
Theorem composers_are_separate sdk s1 s2 cfg1 cfg2 w w1 w2 :
  s1 ≠ s2 →
  Storage_Initialize sdk (Some s1) cfg1 w = (Return None, w1) →
  Storage_Initialize sdk (Some s2) cfg2 w1 = (Return None, w2) →
  ∃ c1 c2 ds1 ds2,
    c1 ≠ c2 ∧
    composerAt s1 w2 = Some (Some c1) ∧
    composerAt s2 w2 = Some (Some c2) ∧
    storeAt s1 w2 = Some ds1 ∧
    storeAt s2 w2 = Some ds2 ∧
    composers w2 !! c1
    = Some {| scCore := Some ds1; scLocker := Some MemoryLocker |} ∧
    composers w2 !! c2
    = Some {| scCore := Some ds2; scLocker := Some MemoryLocker |}.
Proof.
  intros Hne Hinit1 Hinit2.
  pose proof (Storage_Initialize_framed _ _ _ _ _ _ Hinit2) as (Hs & _ & Hc & _).
  pose proof (Storage_Initialize_store _ _ _ _ _ Hinit1) as (ds1 & Hst1 & Hds1).
  pose proof (Storage_Initialize_store _ _ _ _ _ Hinit2) as (ds2 & Hst2 & Hds2).
  apply Storage_Initialize_success in Hinit1 as (_ & Hc1 & Hn1 & _).
  apply Storage_Initialize_success in Hinit2 as (_ & Hc2 & _ & _).
  exists (nextLoc w), (nextLoc w1), ds1, ds2.
  split; [lia|]. split; [|split; [exact Hc2|]].
  { unfold composerAt in *. by rewrite Hs. }
  split; [|split; [exact Hst2|split; [|exact Hds2]]].
  - unfold storeAt in *. by rewrite Hs.
  - rewrite Hc by lia. exact Hds1.
Qed.

Lemma composers_are_separate_witness :
  let w := wFactory emptyWorld in
  let w1 := snd (Storage_Initialize sdkEmptyRemote (Some 1) envDefaultConfig w) in
  let w2 := snd (Storage_Initialize sdkEmptyRemote (Some 3) azuriteConfig w1) in
  1 ≠ 3 ∧
  Storage_Initialize sdkEmptyRemote (Some 1) envDefaultConfig w = (Return None, w1) ∧
  Storage_Initialize sdkEmptyRemote (Some 3) azuriteConfig w1 = (Return None, w2) ∧
  ∃ c1 c2 ds1 ds2,
    c1 ≠ c2 ∧ composerAt 1 w2 = Some (Some c1) ∧ composerAt 3 w2 = Some (Some c2) ∧
    storeAt 1 w2 = Some ds1 ∧ storeAt 3 w2 = Some ds2.
Proof.
  cbv zeta.
  set (w := wFactory emptyWorld).
  set (w1 := snd (Storage_Initialize sdkEmptyRemote (Some 1) envDefaultConfig w)).
  set (w2 := snd (Storage_Initialize sdkEmptyRemote (Some 3) azuriteConfig w1)).
  assert (Hne : 1 ≠ 3) by lia.
  assert (H1 : Storage_Initialize sdkEmptyRemote (Some 1) envDefaultConfig w
               = (Return None, w1)) by (vm_compute; reflexivity).
  assert (H2 : Storage_Initialize sdkEmptyRemote (Some 3) azuriteConfig w1
               = (Return None, w2)) by (vm_compute; reflexivity).
  split; [exact Hne|]. split; [exact H1|]. split; [exact H2|].
  destruct (composers_are_separate sdkEmptyRemote 1 3 envDefaultConfig azuriteConfig
              w w1 w2 Hne H1 H2)
    as (c1 & c2 & ds1 & ds2 & Hc & Ha & Hb & Hd1 & Hd2 & _).
  exists c1, c2, ds1, ds2. done.
Defined.

(** ** The variables that count *)

Ltac read_variable H name :=
  rewrite !(H name)
    by (unfold factoryVariables;
        repeat first [apply list_elem_of_here | apply list_elem_of_further]).

Lemma envConfig_ascii ToLower env :
  ToLower_spec ToLower →
  isASCII (os_Getenv env "STORAGE_TYPE") = true →
  isASCII (os_Getenv env "MINIO_USE_SSL") = true →
  envConfig ToLower env = envConfig asciiLower env.
Proof.
  intros Hlow Ht Hs. unfold envConfig, getEnvBool. cbv zeta.
  rewrite (Hlow _ Hs).
  assert (Hp : ToLower (if decide (os_Getenv env "STORAGE_TYPE" = "")
                        then MinIO else os_Getenv env "STORAGE_TYPE")
               = asciiLower (if decide (os_Getenv env "STORAGE_TYPE" = "")
                             then MinIO else os_Getenv env "STORAGE_TYPE")).
  { destruct (decide _); [by rewrite (Hlow MinIO)|by apply Hlow]. }
  by rewrite Hp.
Qed.

Lemma envConfig_reads ToLower env1 env2 :
  (∀ name, name ∈ factoryVariables → os_Getenv env1 name = os_Getenv env2 name) →
  envConfig ToLower env1 = envConfig ToLower env2.
Proof.
  intros H. unfold envConfig, getEnv, getEnvBool. cbv zeta.
  read_variable H "STORAGE_TYPE". read_variable H "MINIO_ENDPOINT".
  read_variable H "MINIO_BUCKET". read_variable H "MINIO_REGION".
  read_variable H "MINIO_ACCESS_KEY". read_variable H "MINIO_SECRET_KEY".
  read_variable H "MINIO_USE_SSL". read_variable H "AZURE_STORAGE_ACCOUNT".
  read_variable H "AZURE_STORAGE_KEY". read_variable H "AZURE_STORAGE_CONTAINER".
  read_variable H "AZURE_STORAGE_ENDPOINT".
  read_variable H "AZURE_BLOB_ACCESS_TIER".
  read_variable H "AZURE_CONTAINER_ACCESS_TYPE". reflexivity.
Qed.

(** X24.  [factory.go] reads thirteen variables itself, and the [Config]
    that [CreateFromEnv] builds and hands to the registry depends on
    exactly these: two environments that agree on the thirteen give the
    same [Config], or the same error for an unsupported provider, and each
    of the thirteen can change it.  So a variable of another name,
    [STORAGE_PROVIDER] or [APP_STORAGE_TYPE] for one, selects nothing.
    What the libraries read from the environment on their own account
    while [Initialize] runs is outside this statement. *)
Theorem CreateFromEnv_reads_only ToLower :
  (∀ env1 env2,
     (∀ name, name ∈ factoryVariables →
              os_Getenv env1 name = os_Getenv env2 name) →
     envConfig ToLower env1 = envConfig ToLower env2) ∧
  (∀ env name value, name ∉ factoryVariables →
     envConfig ToLower (<[name := value]> env) = envConfig ToLower env) ∧
  (ToLower_spec ToLower →
   ∀ name, name ∈ factoryVariables →
     ∃ env value,
       envConfig ToLower (<[name := value]> env) ≠ envConfig ToLower env).
Proof.
  split; [exact (envConfig_reads ToLower)|]. split.
  - intros env name value Hnot. apply envConfig_reads.
    intros name' Hin. unfold os_Getenv.
    rewrite lookup_insert_ne; [reflexivity|]. by intros ->.
  - intros Hlow name Hin.
    set (probe := fun r : Config + error =>
           match r with
           | inl c =>
               Some (cfgProvider c,
                     prop c <$> ["endpoint"; "bucket"; "region"; "accessKey";
                                 "secretKey"; "useSSL"; "accountName";
                                 "accountKey"; "containerName";
                                 "blobAccessTier"; "containerAccessType"])
           | inr _ => None
           end).
    assert (Hdiff : ∀ env1 env2 : gmap string string,
              isASCII (os_Getenv env1 "STORAGE_TYPE") = true →
              isASCII (os_Getenv env1 "MINIO_USE_SSL") = true →
              isASCII (os_Getenv env2 "STORAGE_TYPE") = true →
              isASCII (os_Getenv env2 "MINIO_USE_SSL") = true →
              probe (envConfig asciiLower env1) ≠ probe (envConfig asciiLower env2) →
              envConfig ToLower env1 ≠ envConfig ToLower env2).
    { intros env1 env2 H1 H2 H3 H4 Hne Heq. apply Hne.
      rewrite <- (envConfig_ascii ToLower env1 Hlow H1 H2).
      rewrite <- (envConfig_ascii ToLower env2 Hlow H3 H4).
      by rewrite Heq. }
    unfold factoryVariables in Hin.
    repeat (apply elem_of_cons in Hin as [->|Hin]);
      [exists ∅, "azure"
      |exists ∅, "x"|exists ∅, "x"|exists ∅, "x"|exists ∅, "x"|exists ∅, "x"
      |exists ∅, "true"
      |exists (<["STORAGE_TYPE" := "azure"]> ∅), "x"
      |exists (<["STORAGE_TYPE" := "azure"]> ∅), "x"
      |exists (<["STORAGE_TYPE" := "azure"]> ∅), "x"
      |exists (<["STORAGE_TYPE" := "azure"]> ∅), "x"
      |exists (<["STORAGE_TYPE" := "azure"]> ∅), "x"
      |exists (<["STORAGE_TYPE" := "azure"]> ∅), "x"
      |by apply elem_of_nil in Hin];
      (apply Hdiff; [reflexivity..|vm_compute; discriminate]).
Qed.

Lemma CreateFromEnv_reads_only_witness :
  ("STORAGE_PROVIDER" ∉ factoryVariables) ∧
  envConfig asciiLower (<["STORAGE_PROVIDER" := "azure"]> ∅) = inl envDefaultConfig ∧
  envConfig asciiLower (<["STORAGE_TYPE" := "azure"]> ∅)
  ≠ inl envDefaultConfig.
Proof.
  assert (Hnot : "STORAGE_PROVIDER" ∉ factoryVariables).
  { unfold factoryVariables. rewrite !not_elem_of_cons.
    repeat (split; [discriminate|]). apply not_elem_of_nil. }
  split; [exact Hnot|]. split.
  - rewrite (proj1 (proj2 (CreateFromEnv_reads_only asciiLower))
               ∅ "STORAGE_PROVIDER" "azure" Hnot).
    reflexivity.
  - intros Heq. apply (f_equal (fun r => match r with
                                          | inl c => cfgProvider c
                                          | inr _ => ""
                                          end)) in Heq.
    vm_compute in Heq. discriminate.
Defined.
